(** * pkg/cfn/builder/vpc_ipv4.go: the IPv4 VPC resource set

    A shallow embedding of the builder that turns a cluster's network
    configuration into CloudFormation resources (the create path) or adopts
    the subnets of an existing VPC (the import path), followed by the
    properties of it that the specification states.

    Conventions of the embedding.
    - Go strings are [string]s of bytes; the names this package handles
      (availability zones, logical resource names) are ASCII.
    - A nullable pointer field is an [option]; dereferencing [None] panics.
    - The objects the receiver points to and mutates ([v.rs],
      [v.subnetDetails]) live in a [Store] that every method threads; the
      receiver [v] itself keeps the fields that never change.
    - [range] over a Go map visits the entries in an order the runtime picks;
      every function with such a loop takes the order as a [GoRange].
    - Go [int] is 64 bits wide; the only integer arithmetic here is
      [2 * len + 2] and a counter bounded by [len] plus the number of map
      entries, both far below [2^63], so [Z] is exact. *)

From Stdlib Require Import ZArith Lia List String Ascii Bool.
From stdpp Require Import base option list gmap strings.

Open Scope string_scope.
Open Scope list_scope.
Open Scope Z_scope.

(* ===================================================================== *)
(** ** Package [strings] (Go standard library), on ASCII text *)
(* ===================================================================== *)

Module strings.

(** [unicode.ToUpper] on one byte: the letters a-z are moved to A-Z, every
    other byte is kept. *)
Definition upper (c : ascii) : ascii :=
  let n := nat_of_ascii c in
  if ((97 <=? n) && (n <=? 122))%nat then ascii_of_nat (n - 32) else c.

Fixpoint ToUpper (s : string) : string :=
  match s with
  | EmptyString => EmptyString
  | String c rest => String (upper c) (ToUpper rest)
  end.

(** [strings.Split(s, sep)] for a separator of one byte, which is all this
    package passes. The result is never empty: splitting the empty string
    gives one empty piece. *)
Fixpoint Split (s : string) (sep : ascii) : list string :=
  match s with
  | EmptyString => [EmptyString]
  | String c rest =>
      match Split rest sep with
      | [] => [EmptyString]
      | piece :: pieces =>
          if Ascii.eqb c sep then EmptyString :: piece :: pieces
          else String c piece :: pieces
      end
  end.

(** [strings.Join(elems, sep)]. *)
Definition Join (elems : list string) (sep : string) : string :=
  String.concat sep elems.

End strings.

(* ===================================================================== *)
(** ** Package [gfnt]: CloudFormation values *)
(* ===================================================================== *)

Module gfnt.

(** A [*gfnt.Value] that is not nil: a literal or an intrinsic function. *)
Inductive Value : Type :=
| NewString (s : string)
| NewInteger (n : Z)
| True
| MakeRef (name : string)
| MakeFnGetAttString (name attr : string)
| MakeFnSelect (index : Value) (list : Value)
| SubnetIPv6CIDRBlock (cidrBlockAmount : Z).

End gfnt.

(** Modelled from the spec: [getSubnetIPv6CIDRBlock], a helper of this
    package that is not in this file. It yields the precomputed pool of
    secondary address blocks of the requested size; the embedding keeps it
    as a symbolic value that records the size. *)
Definition getSubnetIPv6CIDRBlock (cidrBlockAmount : Z) : gfnt.Value :=
  gfnt.SubnetIPv6CIDRBlock cidrBlockAmount.

(** Modelled from the spec: [InternetCIDR], a constant of this package that
    is not in this file; the default route's destination, 0.0.0.0/0. *)
Definition InternetCIDR : string := "0.0.0.0/0".

(* ===================================================================== *)
(** ** Package [gfnec2] and [gfncfn]: resource declarations *)
(* ===================================================================== *)

Module gfncfn.
Record Tag : Type := { Key : gfnt.Value; Value : gfnt.Value }.
End gfncfn.

Module gfnec2.

(** The resource types this file declares. A field every declaration
    sets is a [gfnt.Value]; a field only some declarations set is an
    [option] (nil when left out). *)
Inductive Resource : Type :=
| VPC (CidrBlock EnableDnsSupport EnableDnsHostnames : gfnt.Value)
| VPCCidrBlock (VpcId AmazonProvidedIpv6CidrBlock : gfnt.Value)
| InternetGateway
| VPCGatewayAttachment (InternetGatewayId VpcId : gfnt.Value)
| RouteTable (VpcId : gfnt.Value)
| Route (RouteTableId DestinationCidrBlock : gfnt.Value)
        (GatewayId NatGatewayId : option gfnt.Value)
        (AWSCloudFormationDependsOn : list string)
| Subnet (AvailabilityZone CidrBlock VpcId : gfnt.Value)
         (Tags : list gfncfn.Tag)
         (MapPublicIpOnLaunch : option gfnt.Value)
| SubnetRouteTableAssociation (SubnetId : gfnt.Value)
                              (RouteTableId : option gfnt.Value)
| SubnetCidrBlock (SubnetId Ipv6CidrBlock : gfnt.Value)
| EIP (Domain : gfnt.Value)
| NatGateway (AllocationId SubnetId : gfnt.Value).

End gfnec2.

(* ===================================================================== *)
(** ** Package [api]: the cluster configuration *)
(* ===================================================================== *)

Module api.

Record AZSubnetSpec : Type := {
  ID : string;
  AZ : string;
  (** [CIDR] is kept as the text its [String] method renders. *)
  CIDR : string
}.

(** [map[string]AZSubnetSpec]; [None] is the nil map. *)
Abbreviation AZSubnetMap := (option (gmap string AZSubnetSpec)).

Record ClusterSubnets : Type := {
  Private : AZSubnetMap;
  Public : AZSubnetMap
}.

Record ClusterNAT : Type := { Gateway : option string }.

Record ClusterVPC : Type := {
  VPC_ID : string;
  VPC_CIDR : string;
  AutoAllocateIPv6 : option bool;
  NAT : option ClusterNAT;
  Subnets : ClusterSubnets
}.

Record PrivateCluster : Type := { Enabled : bool }.

Record ClusterConfig : Type := {
  VPC : ClusterVPC;
  PrivateCluster_ : PrivateCluster;
  AvailabilityZones : list string
}.

(** Modelled from the spec: [api.IsEnabled], not in this file. A flag is
    enabled when it is set and true. *)
Definition IsEnabled (flag : option bool) : bool :=
  match flag with
  | Some true => true
  | _ => false
  end.

(** Modelled from the spec: the NAT modes, constants of [api] that are not
    in this file, under the names the spec gives the three modes. *)
Definition ClusterHighlyAvailableNAT : string := "HighlyAvailable".
Definition ClusterSingleNAT : string := "Single".
Definition ClusterDisableNAT : string := "Disabled".

(** [api.SubnetTopology] and its two constants. *)
Inductive SubnetTopology : Type :=
| SubnetTopologyPrivate
| SubnetTopologyPublic.

(** Modelled from the spec: the conversion [string(topology)]. The
    constants' text is not in this file; logical names follow
    [Subnet<Role><ZoneAlias>], and the NAT strategies below refer to
    [SubnetPrivate...] and [SubnetPublic...]. *)
Definition string_of_topology (topology : SubnetTopology) : string :=
  match topology with
  | SubnetTopologyPrivate => "Private"
  | SubnetTopologyPublic => "Public"
  end.

End api.

(* ===================================================================== *)
(** ** Package [outputs]: names of the stack outputs *)
(* ===================================================================== *)

Module outputs.
(** The constants of package [outputs] this file uses; their text is not
    in this file and no property below depends on it. *)
Inductive Name : Type :=
| ClusterVPC
| ClusterFeatureNATMode
| ClusterSubnetsPrivate
| ClusterSubnetsPublic
| ClusterFullyPrivate.
End outputs.

(* ===================================================================== *)
(** ** Package [ec2]: the remote route-table directory *)
(* ===================================================================== *)

Module ec2.

Record RouteTableAssociation : Type := {
  Main : option bool;
  SubnetId : option string
}.

Record RouteTable : Type := {
  Associations : list RouteTableAssociation;
  RouteTableId : option string
}.

Record Filter : Type := { Name : string; Values : list string }.

Record DescribeRouteTablesInput : Type := {
  Filters : list Filter;
  NextToken : option string
}.

Record DescribeRouteTablesOutput : Type := {
  RouteTables : list RouteTable;
  OutNextToken : option string
}.

End ec2.

(** Go's [error] values, kept structured: the format and its arguments
    instead of the rendered text. [None : option error] is the nil error. *)
Inductive error : Type :=
| New (message : string)
| Errorf (format : string) (args : list string)
| Wrap (err : error) (message : string)
| AWSError (code : string).

(** [ec2iface.EC2API], restricted to the one method this file calls. The
    directory is a snapshot: a query is answered by its input alone. *)
Record EC2API : Type := {
  DescribeRouteTables :
    ec2.DescribeRouteTablesInput -> ec2.DescribeRouteTablesOutput + error
}.

(* ===================================================================== *)
(** ** The resource set, the store and the builder's monad *)
(* ===================================================================== *)

(** What a stack output carries. The collector callbacks run after the
    stack exists, outside a build, and are left out. *)
Inductive OutputValue : Type :=
| OutValue (value : gfnt.Value)
| OutNATMode (gateway : option string)
| OutBool (b : bool)
| OutJoined (values : list (option gfnt.Value)).

Record Output : Type := {
  outputName : outputs.Name;
  outputValue : OutputValue;
  outputExport : bool
}.

(** Modelled from the spec: [resourceSet], the graph builder
    ([declare(name, resourceSpec) -> reference], [defineOutput], ...), whose
    code is not in this file. The graph is the sequence of declarations in
    the order they were made. *)
Record resourceSet : Type := {
  resources : list (string * gfnec2.Resource);
  outputs_ : list Output
}.

Record SubnetResource : Type := {
  Subnet : option gfnt.Value;
  RouteTable : option gfnt.Value;
  AvailabilityZone : string
}.

Record SubnetDetails : Type := {
  Private : list SubnetResource;
  Public : list SubnetResource
}.

(** The objects a build mutates: the resource set behind [v.rs], the
    details behind [v.subnetDetails], and (as a record of what the build
    asked the remote directory) the queries sent through [v.ec2API]. *)
Record Store : Type := {
  rs : resourceSet;
  subnetDetails : SubnetDetails;
  ec2Calls : list ec2.DescribeRouteTablesInput
}.

(** The fields of the receiver that a build only reads. *)
Record IPv4VPCResourceSet : Type := {
  clusterConfig : api.ClusterConfig;
  ec2API : EC2API;
  vpcID : gfnt.Value
}.

Inductive panic : Type :=
| IndexOutOfRange
| NilDereference.

(** How a call ends: it returns, it panics, or the embedding's fuel for the
    one unbounded loop (pagination) ran out. *)
Inductive outcome (A : Type) : Type :=
| Returns (a : A) (s : Store)
| Panics (p : panic)
| OutOfFuel.
Arguments Returns {A} a s.
Arguments Panics {A} p.
Arguments OutOfFuel {A}.

Definition M (A : Type) : Type := Store -> outcome A.

Definition ret {A} (a : A) : M A := fun s => Returns a s.

Definition bind {A B} (m : M A) (k : A -> M B) : M B :=
  fun s =>
    match m s with
    | Returns a s' => k a s'
    | Panics p => Panics p
    | OutOfFuel => OutOfFuel
    end.

Notation "'let*' x ':=' c 'in' k" := (bind c (fun x => k))
  (at level 10, x pattern, c at level 100, k at level 200).

Definition throw {A} (p : panic) : M A := fun _ => Panics p.

(** [*p] for a nullable pointer. *)
Definition deref {A} (p : option A) : M A :=
  match p with
  | Some a => ret a
  | None => throw NilDereference
  end.

(** [s[i]] for a slice. *)
Definition index {A} (s : list A) (i : nat) : M A :=
  match s !! i with
  | Some a => ret a
  | None => throw IndexOutOfRange
  end.

(** [for _, x := range xs { body }] over a slice. *)
Fixpoint forM_ {A} (xs : list A) (body : A -> M unit) : M unit :=
  match xs with
  | [] => ret tt
  | x :: rest => let* _ := body x in forM_ rest body
  end.

(** Modelled from the spec: [rs.newResource], [declare] of the graph
    builder: the declaration joins the graph and a reference to it by name
    comes back. *)
Definition newResource (name : string) (resource : gfnec2.Resource)
  : M gfnt.Value :=
  fun s =>
    Returns (gfnt.MakeRef name)
      {| rs := {| resources := resources (rs s) ++ [(name, resource)];
                  outputs_ := outputs_ (rs s) |};
         subnetDetails := subnetDetails s;
         ec2Calls := ec2Calls s |}.

(** Modelled from the spec: [rs.defineOutput], [rs.defineJoinedOutput] and
    [rs.defineOutputWithoutCollector] all register one output binding. *)
Definition defineOutput (name : outputs.Name) (value : OutputValue)
    (export : bool) : M unit :=
  fun s =>
    Returns tt
      {| rs := {| resources := resources (rs s);
                  outputs_ := outputs_ (rs s) ++
                    [{| outputName := name; outputValue := value;
                        outputExport := export |}] |};
         subnetDetails := subnetDetails s;
         ec2Calls := ec2Calls s |}.

Definition setPrivate (l : list SubnetResource) : M unit :=
  fun s =>
    Returns tt
      {| rs := rs s;
         subnetDetails := {| Private := l;
                             Public := Public (subnetDetails s) |};
         ec2Calls := ec2Calls s |}.

Definition setPublic (l : list SubnetResource) : M unit :=
  fun s =>
    Returns tt
      {| rs := rs s;
         subnetDetails := {| Private := Private (subnetDetails s);
                             Public := l |};
         ec2Calls := ec2Calls s |}.

Definition getSubnetDetails : M SubnetDetails :=
  fun s => Returns (subnetDetails s) s.

(** One call of [ec2API.DescribeRouteTables]: the query is noted and the
    directory's answer comes back. *)
Definition describeRouteTables (ec2API : EC2API)
    (input : ec2.DescribeRouteTablesInput)
  : M (ec2.DescribeRouteTablesOutput + error) :=
  fun s =>
    Returns (DescribeRouteTables ec2API input)
      {| rs := rs s;
         subnetDetails := subnetDetails s;
         ec2Calls := ec2Calls s ++ [input] |}.

(** ** Ranging over a Go map *)

(** The entries of a map; the nil map has none. *)
Definition entries {V} (m : option (gmap string V)) : list (string * V) :=
  match m with
  | Some m => map_to_list m
  | None => []
  end.

(** [len(m)]. *)
Definition len {V} (m : option (gmap string V)) : nat :=
  length (entries m).

(** One [range] loop's order of visit: some rearrangement of the entries,
    chosen by the runtime. *)
Record GoRange : Type := {
  order : forall V : Type, list (string * V) -> list (string * V);
  order_perm : forall V (l : list (string * V)), order V l ≡ₚ l
}.

Definition range {V} (g : GoRange) (m : option (gmap string V))
  : list (string * V) :=
  order g V (entries m).

(* ===================================================================== *)
(** ** The builder *)
(* ===================================================================== *)

(** Modelled from the spec: [formatAZ], a helper of this package that is
    not in this file: the zone's name with the separators stripped, in
    upper case. *)
Definition formatAZ (az : string) : string :=
  strings.ToUpper (strings.Join (strings.Split az "-") "").

Definition isFullyPrivate (v : IPv4VPCResourceSet) : bool :=
  api.Enabled (api.PrivateCluster_ (clusterConfig v)).

Definition NewIPv4VPCResourceSet (rs0 : resourceSet)
    (clusterConfig : api.ClusterConfig) (ec2API : EC2API)
  : outcome IPv4VPCResourceSet :=
  let s0 := {| rs := rs0;
               subnetDetails := {| Private := []; Public := [] |};
               ec2Calls := [] |} in
  (let* vpcRef :=
     if String.eqb (api.VPC_ID (api.VPC clusterConfig)) "" then
       newResource "VPC"
         (gfnec2.VPC (gfnt.NewString (api.VPC_CIDR (api.VPC clusterConfig)))
                     gfnt.True gfnt.True)
     else ret (gfnt.NewString (api.VPC_ID (api.VPC clusterConfig))) in
   ret {| clusterConfig := clusterConfig;
          ec2API := ec2API;
          vpcID := vpcRef |}) s0.

(** The body of the loop of [addSubnets], with the locals the loop
    updates ([subnetIndexForIPv6], [refRT], [subnetResources]) as
    arguments. *)
Fixpoint addSubnets_loop (v : IPv4VPCResourceSet)
    (topology : api.SubnetTopology)
    (subnets : list (string * api.AZSubnetSpec))
    (subnetIndexForIPv6 : Z) (refRT : option gfnt.Value)
    (subnetResources : list SubnetResource) : M (list SubnetResource) :=
  match subnets with
  | [] => ret subnetResources
  | (name, subnet) :: rest =>
      let az := api.AZ subnet in
      let nameAlias :=
        strings.ToUpper (strings.Join (strings.Split name "-") "") in
      let refRT :=
        match topology with
        | api.SubnetTopologyPrivate =>
            Some (gfnt.MakeRef ("PrivateRouteTable" +:+ nameAlias))
        | api.SubnetTopologyPublic => refRT
        end in
      let Tags :=
        match topology with
        | api.SubnetTopologyPrivate =>
            [{| gfncfn.Key := gfnt.NewString "kubernetes.io/role/internal-elb";
                gfncfn.Value := gfnt.NewString "1" |}]
        | api.SubnetTopologyPublic =>
            [{| gfncfn.Key := gfnt.NewString "kubernetes.io/role/elb";
                gfncfn.Value := gfnt.NewString "1" |}]
        end in
      let MapPublicIpOnLaunch :=
        match topology with
        | api.SubnetTopologyPrivate => None
        | api.SubnetTopologyPublic => Some gfnt.True
        end in
      let subnetAlias := api.string_of_topology topology +:+ nameAlias in
      let* refSubnet :=
        newResource ("Subnet" +:+ subnetAlias)
          (gfnec2.Subnet (gfnt.NewString az)
             (gfnt.NewString (api.CIDR subnet)) (vpcID v)
             Tags MapPublicIpOnLaunch) in
      let* _ :=
        newResource ("RouteTableAssociation" +:+ subnetAlias)
          (gfnec2.SubnetRouteTableAssociation refSubnet refRT) in
      let* subnetIndexForIPv6 :=
        if api.IsEnabled (api.AutoAllocateIPv6 (api.VPC (clusterConfig v)))
        then
          let refSubnetSlices :=
            getSubnetIPv6CIDRBlock
              (Z.of_nat (length (api.AvailabilityZones (clusterConfig v)))
               * 2 + 2) in
          let* _ :=
            newResource (subnetAlias +:+ "CIDRv6")
              (gfnec2.SubnetCidrBlock refSubnet
                 (gfnt.MakeFnSelect (gfnt.NewInteger subnetIndexForIPv6)
                    refSubnetSlices)) in
          ret (subnetIndexForIPv6 + 1)
        else ret subnetIndexForIPv6 in
      addSubnets_loop v topology rest subnetIndexForIPv6 refRT
        (subnetResources ++
           [{| AvailabilityZone := az;
               RouteTable := refRT;
               Subnet := Some refSubnet |}])
  end.

Definition addSubnets (g : GoRange) (v : IPv4VPCResourceSet)
    (refRT : option gfnt.Value) (topology : api.SubnetTopology)
    (subnets : api.AZSubnetMap) : M (list SubnetResource) :=
  let subnetIndexForIPv6 :=
    if api.IsEnabled (api.AutoAllocateIPv6 (api.VPC (clusterConfig v))) then
      match topology with
      | api.SubnetTopologyPrivate =>
          Z.of_nat (length (api.AvailabilityZones (clusterConfig v)))
      | api.SubnetTopologyPublic => 0
      end
    else 0 in
  addSubnets_loop v topology (range g subnets) subnetIndexForIPv6 refRT [].

Definition haNAT (v : IPv4VPCResourceSet) : M unit :=
  forM_ (api.AvailabilityZones (clusterConfig v)) (fun az =>
    let alphanumericUpperAZ := formatAZ az in
    let* _ :=
      newResource ("NATIP" +:+ alphanumericUpperAZ)
        (gfnec2.EIP (gfnt.NewString "vpc")) in
    let* refNG :=
      newResource ("NATGateway" +:+ alphanumericUpperAZ)
        (gfnec2.NatGateway
           (gfnt.MakeFnGetAttString ("NATIP" +:+ alphanumericUpperAZ)
              "AllocationId")
           (gfnt.MakeRef ("SubnetPublic" +:+ alphanumericUpperAZ))) in
    let* refRT :=
      newResource ("PrivateRouteTable" +:+ alphanumericUpperAZ)
        (gfnec2.RouteTable (vpcID v)) in
    let* _ :=
      newResource ("NATPrivateSubnetRoute" +:+ alphanumericUpperAZ)
        (gfnec2.Route refRT (gfnt.NewString InternetCIDR)
           None (Some refNG) []) in
    let* _ :=
      newResource ("RouteTableAssociationPrivate" +:+ alphanumericUpperAZ)
        (gfnec2.SubnetRouteTableAssociation
           (gfnt.MakeRef ("SubnetPrivate" +:+ alphanumericUpperAZ))
           (Some refRT)) in
    ret tt).

Definition singleNAT (v : IPv4VPCResourceSet) : M unit :=
  let sortedAZs := api.AvailabilityZones (clusterConfig v) in
  let* first := index sortedAZs 0 in
  let firstUpperAZ :=
    strings.ToUpper (strings.Join (strings.Split first "-") "") in
  let* _ := newResource "NATIP" (gfnec2.EIP (gfnt.NewString "vpc")) in
  let* refNG :=
    newResource "NATGateway"
      (gfnec2.NatGateway
         (gfnt.MakeFnGetAttString "NATIP" "AllocationId")
         (gfnt.MakeRef ("SubnetPublic" +:+ firstUpperAZ))) in
  forM_ (api.AvailabilityZones (clusterConfig v)) (fun az =>
    let alphanumericUpperAZ :=
      strings.ToUpper (strings.Join (strings.Split az "-") "") in
    let* refRT :=
      newResource ("PrivateRouteTable" +:+ alphanumericUpperAZ)
        (gfnec2.RouteTable (vpcID v)) in
    let* _ :=
      newResource ("NATPrivateSubnetRoute" +:+ alphanumericUpperAZ)
        (gfnec2.Route refRT (gfnt.NewString InternetCIDR)
           None (Some refNG) []) in
    let* _ :=
      newResource ("RouteTableAssociationPrivate" +:+ alphanumericUpperAZ)
        (gfnec2.SubnetRouteTableAssociation
           (gfnt.MakeRef ("SubnetPrivate" +:+ alphanumericUpperAZ))
           (Some refRT)) in
    ret tt).

Definition noNAT (v : IPv4VPCResourceSet) : M unit :=
  forM_ (api.AvailabilityZones (clusterConfig v)) (fun az =>
    let alphanumericUpperAZ :=
      strings.ToUpper (strings.Join (strings.Split az "-") "") in
    let* refRT :=
      newResource ("PrivateRouteTable" +:+ alphanumericUpperAZ)
        (gfnec2.RouteTable (vpcID v)) in
    let* _ :=
      newResource ("RouteTableAssociationPrivate" +:+ alphanumericUpperAZ)
        (gfnec2.SubnetRouteTableAssociation
           (gfnt.MakeRef ("SubnetPrivate" +:+ alphanumericUpperAZ))
           (Some refRT)) in
    ret tt).

Definition addNATGateways (v : IPv4VPCResourceSet) : M (option error) :=
  let* nat := deref (api.NAT (api.VPC (clusterConfig v))) in
  let* gateway := deref (api.Gateway nat) in
  if String.eqb gateway api.ClusterHighlyAvailableNAT then
    let* _ := haNAT v in ret None
  else if String.eqb gateway api.ClusterSingleNAT then
    let* _ := singleNAT v in ret None
  else if String.eqb gateway api.ClusterDisableNAT then
    let* _ := noNAT v in ret None
  else
    ret (Some (Errorf "%s is not a valid NAT gateway mode" [gateway])).

(** *** The import path *)

(** The pagination loop of [importRouteTables]: one query per page, until a
    page comes without a continuation token. [fuel] bounds the number of
    pages the embedding follows. *)
Fixpoint importRouteTables_pages (fuel : nat) (ec2API : EC2API)
    (subnetIDs : list string) (nextToken : option string)
    (routeTables : list ec2.RouteTable)
  : M (list ec2.RouteTable + error) :=
  match fuel with
  | O => fun _ => OutOfFuel
  | S fuel =>
      let* r :=
        describeRouteTables ec2API
          {| ec2.Filters :=
               [{| ec2.Name := "association.subnet-id";
                   ec2.Values := subnetIDs |}];
             ec2.NextToken := nextToken |} in
      match r with
      | inr err => ret (inr (Wrap err "error describing route tables"))
      | inl output =>
          let routeTables := routeTables ++ ec2.RouteTables output in
          match ec2.OutNextToken output with
          | None => ret (inl routeTables)
          | Some token =>
              importRouteTables_pages fuel ec2API subnetIDs (Some token)
                routeTables
          end
      end
  end.

(** The inner loop of [importRouteTables], over one table's associations. *)
Fixpoint importRouteTables_associations (rt : ec2.RouteTable)
    (associations : list ec2.RouteTableAssociation)
    (subnetRoutes : gmap string string) : M (gmap string string + error) :=
  match associations with
  | [] => ret (inl subnetRoutes)
  | rta :: rest =>
      match ec2.Main rta with
      | Some true =>
          ret (inr (New ("subnets must be associated with a non-main route table; "
                         +:+ "eksctl does not modify the main route table")))
      | _ =>
          let* subnetId := deref (ec2.SubnetId rta) in
          let* routeTableId := deref (ec2.RouteTableId rt) in
          importRouteTables_associations rt rest
            (<[subnetId := routeTableId]> subnetRoutes)
      end
  end.

(** The outer loop of [importRouteTables], over the tables. *)
Fixpoint importRouteTables_tables (routeTables : list ec2.RouteTable)
    (subnetRoutes : gmap string string) : M (gmap string string + error) :=
  match routeTables with
  | [] => ret (inl subnetRoutes)
  | rt :: rest =>
      let* r :=
        importRouteTables_associations rt (ec2.Associations rt)
          subnetRoutes in
      match r with
      | inr err => ret (inr err)
      | inl subnetRoutes => importRouteTables_tables rest subnetRoutes
      end
  end.

Definition importRouteTables (g : GoRange) (fuel : nat) (ec2API : EC2API)
    (subnets : api.AZSubnetMap) : M (gmap string string + error) :=
  let subnetIDs := map (fun entry => api.ID (snd entry)) (range g subnets) in
  let* r := importRouteTables_pages fuel ec2API subnetIDs None [] in
  match r with
  | inr err => ret (inr err)
  | inl routeTables => importRouteTables_tables routeTables ∅
  end.

(** [s[i] = x] on a slice. *)
Definition store_at {A} (s : list A) (i : nat) (x : A) : M (list A) :=
  if (i <? length s)%nat then ret (<[i := x]> s) else throw IndexOutOfRange.

Definition notFoundFormat : string :=
  "failed to find an explicit route table associated with subnet %q; "
  +:+ "eksctl does not modify the main route table if a subnet is not associated with an explicit route table".

(** The loop of [makeSubnetResources], with the slice being filled and the
    position [i] as arguments. *)
Fixpoint makeSubnetResources_loop (subnets : list (string * api.AZSubnetSpec))
    (subnetRoutes : option (gmap string string))
    (subnetResources : list SubnetResource) (i : nat)
  : M (list SubnetResource + error) :=
  match subnets with
  | [] => ret (inl subnetResources)
  | (_, network) :: rest =>
      let az := api.AZ network in
      let sr := {| AvailabilityZone := az;
                   Subnet := Some (gfnt.NewString (api.ID network));
                   RouteTable := None |} in
      let checked :=
        match subnetRoutes with
        | Some routes =>
            match routes !! api.ID network with
            | None => inr (Errorf notFoundFormat [api.ID network])
            | Some rt =>
                inl {| AvailabilityZone := AvailabilityZone sr;
                       Subnet := Subnet sr;
                       RouteTable := Some (gfnt.NewString rt) |}
            end
        | None => inl sr
        end in
      match checked with
      | inr err => ret (inr err)
      | inl sr =>
          let* subnetResources := store_at subnetResources i sr in
          makeSubnetResources_loop rest subnetRoutes subnetResources (S i)
      end
  end.

Definition makeSubnetResources (g : GoRange) (subnets : api.AZSubnetMap)
    (subnetRoutes : option (gmap string string))
  : M (list SubnetResource + error) :=
  let zero := {| AvailabilityZone := ""; Subnet := None;
                 RouteTable := None |} in
  makeSubnetResources_loop (range g subnets) subnetRoutes
    (replicate (len subnets) zero) 0.

(** The orders of visit of the [range] loops over maps that a build can
    run: the two calls of [addSubnets], the loop that gathers the subnet
    identifiers in [importRouteTables], and the two calls of
    [makeSubnetResources]. *)
Record Schedule : Type := {
  rangeAddPublic : GoRange;
  rangeAddPrivate : GoRange;
  rangeImportIDs : GoRange;
  rangeMakePrivate : GoRange;
  rangeMakePublic : GoRange
}.

Definition importResources (sched : Schedule) (fuel : nat)
    (v : IPv4VPCResourceSet) : M (option error) :=
  let* err :=
    match api.Private (api.Subnets (api.VPC (clusterConfig v))) with
    | Some _ =>
        let subnets := api.Private (api.Subnets (api.VPC (clusterConfig v))) in
        let* routes :=
          if isFullyPrivate v then
            let* r :=
              importRouteTables (rangeImportIDs sched) fuel (ec2API v)
                (api.Private (api.Subnets (api.VPC (clusterConfig v)))) in
            match r with
            | inr err => ret (inr err)
            | inl subnetRoutes => ret (inl (Some subnetRoutes))
            end
          else ret (inl None) in
        match routes with
        | inr err => ret (Some err)
        | inl subnetRoutes =>
            let* r :=
              makeSubnetResources (rangeMakePrivate sched) subnets
                subnetRoutes in
            match r with
            | inr err => ret (Some err)
            | inl subnetResources =>
                let* _ := setPrivate subnetResources in ret None
            end
        end
    | None => ret None
    end in
  match err with
  | Some err => ret (Some err)
  | None =>
      match api.Public (api.Subnets (api.VPC (clusterConfig v))) with
      | Some _ =>
          let subnets := api.Public (api.Subnets (api.VPC (clusterConfig v))) in
          let* r :=
            makeSubnetResources (rangeMakePublic sched) subnets None in
          match r with
          | inr err => ret (Some err)
          | inl subnetResources =>
              let* _ := setPublic subnetResources in ret None
          end
      | None => ret None
      end
  end.

(** *** The create path and the entry point *)

Definition addResources (sched : Schedule) (fuel : nat)
    (v : IPv4VPCResourceSet) : M (option error) :=
  let vpc := api.VPC (clusterConfig v) in
  if negb (String.eqb (api.VPC_ID vpc) "") then
    let* err := importResources sched fuel v in
    match err with
    | Some err => ret (Some (Wrap err "error importing VPC resources"))
    | None => ret None
    end
  else
    let* _ :=
      if api.IsEnabled (api.AutoAllocateIPv6 vpc) then
        let* _ :=
          newResource "AutoAllocatedCIDRv6"
            (gfnec2.VPCCidrBlock (vpcID v) gfnt.True) in
        ret tt
      else ret tt in
    if isFullyPrivate v then
      let* _ := noNAT v in
      let* private :=
        addSubnets (rangeAddPrivate sched) v None api.SubnetTopologyPrivate
          (api.Private (api.Subnets vpc)) in
      let* _ := setPrivate private in
      ret None
    else
      let* refIG := newResource "InternetGateway" gfnec2.InternetGateway in
      let vpcGA := "VPCGatewayAttachment" in
      let* _ :=
        newResource vpcGA (gfnec2.VPCGatewayAttachment refIG (vpcID v)) in
      let* refPublicRT :=
        newResource "PublicRouteTable" (gfnec2.RouteTable (vpcID v)) in
      let* _ :=
        newResource "PublicSubnetRoute"
          (gfnec2.Route refPublicRT (gfnt.NewString InternetCIDR)
             (Some refIG) None [vpcGA]) in
      let* public :=
        addSubnets (rangeAddPublic sched) v (Some refPublicRT)
          api.SubnetTopologyPublic (api.Public (api.Subnets vpc)) in
      let* _ := setPublic public in
      let* err := addNATGateways v in
      match err with
      | Some err => ret (Some err)
      | None =>
          let* private :=
            addSubnets (rangeAddPrivate sched) v None
              api.SubnetTopologyPrivate (api.Private (api.Subnets vpc)) in
          let* _ := setPrivate private in
          ret None
      end.

Definition PublicSubnetRefs (s : SubnetDetails) : list (option gfnt.Value) :=
  map Subnet (Public s).

Definition PrivateSubnetRefs (s : SubnetDetails) : list (option gfnt.Value) :=
  map Subnet (Private s).

Definition addOutputs (v : IPv4VPCResourceSet) : M unit :=
  let* _ := defineOutput outputs.ClusterVPC (OutValue (vpcID v)) true in
  let* _ :=
    match api.NAT (api.VPC (clusterConfig v)) with
    | Some nat =>
        defineOutput outputs.ClusterFeatureNATMode
          (OutNATMode (api.Gateway nat)) false
    | None => ret tt
    end in
  let* details := getSubnetDetails in
  let* _ :=
    let subnetAZs := PrivateSubnetRefs details in
    if (0 <? length subnetAZs)%nat then
      defineOutput outputs.ClusterSubnetsPrivate (OutJoined subnetAZs) true
    else ret tt in
  let* _ :=
    let subnetAZs := PublicSubnetRefs details in
    if (0 <? length subnetAZs)%nat then
      defineOutput outputs.ClusterSubnetsPublic (OutJoined subnetAZs) true
    else ret tt in
  if isFullyPrivate v then
    defineOutput outputs.ClusterFullyPrivate (OutBool true) true
  else ret tt.

Definition CreateTemplate (sched : Schedule) (fuel : nat)
    (v : IPv4VPCResourceSet)
  : M (option gfnt.Value * option SubnetDetails * option error) :=
  let* err := addResources sched fuel v in
  match err with
  | Some err => ret (None, None, Some err)
  | None =>
      let* _ := addOutputs v in
      let* details := getSubnetDetails in
      ret (Some (vpcID v), Some details, None)
  end.

(** A build, as the callers of this package run it: the constructor on the
    caller's resource set, then [CreateTemplate]. *)
Definition build (sched : Schedule) (fuel : nat) (rs0 : resourceSet)
    (clusterConfig : api.ClusterConfig) (ec2API : EC2API)
  : outcome (option gfnt.Value * option SubnetDetails * option error) :=
  match NewIPv4VPCResourceSet rs0 clusterConfig ec2API with
  | Returns v s => CreateTemplate sched fuel v s
  | Panics p => Panics p
  | OutOfFuel => OutOfFuel
  end.

(** The declarations an outcome's resource set holds; none when the call
    did not return. *)
Definition declared {A} (o : outcome A) : list (string * gfnec2.Resource) :=
  match o with
  | Returns _ s => resources (rs s)
  | _ => []
  end.

(** ** Concrete runtimes and inputs used by the examples *)

Definition inOrder : GoRange :=
  {| order := fun V l => l;
     order_perm := fun V l => Permutation_refl l |}.

Definition reversed : GoRange :=
  {| order := fun V l => rev l;
     order_perm := fun V l => Permutation_sym (Permutation_rev l) |}.

Definition sameOrder (g : GoRange) : Schedule :=
  {| rangeAddPublic := g; rangeAddPrivate := g; rangeImportIDs := g;
     rangeMakePrivate := g; rangeMakePublic := g |}.

Definition emptyResourceSet : resourceSet :=
  {| resources := []; outputs_ := [] |}.

(* ===================================================================== *)
(** ** What the builder declares, in closed form *)
(* ===================================================================== *)

Abbreviation decl := (string * gfnec2.Resource)%type.

#[global] Instance Value_eq_dec : EqDecision gfnt.Value.
Proof. solve_decision. Defined.

(** The store after some more declarations. *)
Definition declare (ds : list decl) (s : Store) : Store :=
  {| rs := {| resources := resources (rs s) ++ ds;
              outputs_ := outputs_ (rs s) |};
     subnetDetails := subnetDetails s;
     ec2Calls := ec2Calls s |}.

(** The store a constructor starts from. *)
Definition initialStore (rs0 : resourceSet) : Store :=
  {| rs := rs0;
     subnetDetails := {| Private := []; Public := [] |};
     ec2Calls := [] |}.

(** What each NAT strategy declares for one zone. *)
Definition haNAT_zone (v : IPv4VPCResourceSet) (az : string) : list decl :=
  [ ("NATIP" +:+ formatAZ az, gfnec2.EIP (gfnt.NewString "vpc"));
    ("NATGateway" +:+ formatAZ az,
     gfnec2.NatGateway
       (gfnt.MakeFnGetAttString ("NATIP" +:+ formatAZ az) "AllocationId")
       (gfnt.MakeRef ("SubnetPublic" +:+ formatAZ az)));
    ("PrivateRouteTable" +:+ formatAZ az, gfnec2.RouteTable (vpcID v));
    ("NATPrivateSubnetRoute" +:+ formatAZ az,
     gfnec2.Route (gfnt.MakeRef ("PrivateRouteTable" +:+ formatAZ az))
       (gfnt.NewString InternetCIDR) None
       (Some (gfnt.MakeRef ("NATGateway" +:+ formatAZ az))) []);
    ("RouteTableAssociationPrivate" +:+ formatAZ az,
     gfnec2.SubnetRouteTableAssociation
       (gfnt.MakeRef ("SubnetPrivate" +:+ formatAZ az))
       (Some (gfnt.MakeRef ("PrivateRouteTable" +:+ formatAZ az)))) ].

Definition singleNAT_shared (first : string) : list decl :=
  [ ("NATIP", gfnec2.EIP (gfnt.NewString "vpc"));
    ("NATGateway",
     gfnec2.NatGateway (gfnt.MakeFnGetAttString "NATIP" "AllocationId")
       (gfnt.MakeRef ("SubnetPublic" +:+ formatAZ first))) ].

Definition singleNAT_zone (v : IPv4VPCResourceSet) (az : string) : list decl :=
  [ ("PrivateRouteTable" +:+ formatAZ az, gfnec2.RouteTable (vpcID v));
    ("NATPrivateSubnetRoute" +:+ formatAZ az,
     gfnec2.Route (gfnt.MakeRef ("PrivateRouteTable" +:+ formatAZ az))
       (gfnt.NewString InternetCIDR) None
       (Some (gfnt.MakeRef "NATGateway")) []);
    ("RouteTableAssociationPrivate" +:+ formatAZ az,
     gfnec2.SubnetRouteTableAssociation
       (gfnt.MakeRef ("SubnetPrivate" +:+ formatAZ az))
       (Some (gfnt.MakeRef ("PrivateRouteTable" +:+ formatAZ az)))) ].

Definition noNAT_zone (v : IPv4VPCResourceSet) (az : string) : list decl :=
  [ ("PrivateRouteTable" +:+ formatAZ az, gfnec2.RouteTable (vpcID v));
    ("RouteTableAssociationPrivate" +:+ formatAZ az,
     gfnec2.SubnetRouteTableAssociation
       (gfnt.MakeRef ("SubnetPrivate" +:+ formatAZ az))
       (Some (gfnt.MakeRef ("PrivateRouteTable" +:+ formatAZ az)))) ].

Definition zones (v : IPv4VPCResourceSet) : list string :=
  api.AvailabilityZones (clusterConfig v).

Definition haNAT_decls (v : IPv4VPCResourceSet) : list decl :=
  flat_map (haNAT_zone v) (zones v).

Definition singleNAT_decls (v : IPv4VPCResourceSet) (first : string)
  : list decl :=
  singleNAT_shared first ++ flat_map (singleNAT_zone v) (zones v).

Definition noNAT_decls (v : IPv4VPCResourceSet) : list decl :=
  flat_map (noNAT_zone v) (zones v).

(** Whether secondary address blocks are handed out. *)
Definition autoIPv6 (v : IPv4VPCResourceSet) : bool :=
  api.IsEnabled (api.AutoAllocateIPv6 (api.VPC (clusterConfig v))).

(** [Subnet<Role><alias>] without the [Subnet]. *)
Definition subnetAlias (topology : api.SubnetTopology) (name : string)
  : string :=
  api.string_of_topology topology +:+ formatAZ name.

(** The route table [addSubnets] wires a subnet to. *)
Definition subnetRouteTable (topology : api.SubnetTopology)
    (refRT : option gfnt.Value) (name : string) : option gfnt.Value :=
  match topology with
  | api.SubnetTopologyPrivate =>
      Some (gfnt.MakeRef ("PrivateRouteTable" +:+ formatAZ name))
  | api.SubnetTopologyPublic => refRT
  end.

Definition subnetTags (topology : api.SubnetTopology) : list gfncfn.Tag :=
  match topology with
  | api.SubnetTopologyPrivate =>
      [{| gfncfn.Key := gfnt.NewString "kubernetes.io/role/internal-elb";
          gfncfn.Value := gfnt.NewString "1" |}]
  | api.SubnetTopologyPublic =>
      [{| gfncfn.Key := gfnt.NewString "kubernetes.io/role/elb";
          gfncfn.Value := gfnt.NewString "1" |}]
  end.

Definition subnetMapPublicIp (topology : api.SubnetTopology)
  : option gfnt.Value :=
  match topology with
  | api.SubnetTopologyPrivate => None
  | api.SubnetTopologyPublic => Some gfnt.True
  end.

(** The secondary-block declaration of one subnet, at a given index. *)
Definition subnetCIDRv6 (v : IPv4VPCResourceSet)
    (topology : api.SubnetTopology) (index : Z) (name : string) : decl :=
  (subnetAlias topology name +:+ "CIDRv6",
   gfnec2.SubnetCidrBlock
     (gfnt.MakeRef ("Subnet" +:+ subnetAlias topology name))
     (gfnt.MakeFnSelect (gfnt.NewInteger index)
        (getSubnetIPv6CIDRBlock (Z.of_nat (length (zones v)) * 2 + 2)))).

(** What [addSubnets] declares for one entry of the map. *)
Definition subnet_decls (v : IPv4VPCResourceSet)
    (topology : api.SubnetTopology) (refRT : option gfnt.Value) (index : Z)
    (name : string) (subnet : api.AZSubnetSpec) : list decl :=
  [ ("Subnet" +:+ subnetAlias topology name,
     gfnec2.Subnet (gfnt.NewString (api.AZ subnet))
       (gfnt.NewString (api.CIDR subnet)) (vpcID v)
       (subnetTags topology) (subnetMapPublicIp topology));
    ("RouteTableAssociation" +:+ subnetAlias topology name,
     gfnec2.SubnetRouteTableAssociation
       (gfnt.MakeRef ("Subnet" +:+ subnetAlias topology name))
       (subnetRouteTable topology refRT name)) ]
  ++ (if autoIPv6 v then [subnetCIDRv6 v topology index name] else []).

Fixpoint addSubnets_decls (v : IPv4VPCResourceSet)
    (topology : api.SubnetTopology) (refRT : option gfnt.Value) (index : Z)
    (subnets : list (string * api.AZSubnetSpec)) : list decl :=
  match subnets with
  | [] => []
  | (name, subnet) :: rest =>
      subnet_decls v topology refRT index name subnet
      ++ addSubnets_decls v topology refRT
           (if autoIPv6 v then index + 1 else index) rest
  end.

(** The index [addSubnets] starts a pass from. *)
Definition firstIndex (v : IPv4VPCResourceSet)
    (topology : api.SubnetTopology) : Z :=
  if autoIPv6 v then
    match topology with
    | api.SubnetTopologyPrivate => Z.of_nat (length (zones v))
    | api.SubnetTopologyPublic => 0
    end
  else 0.

(** The [SubnetResource] [addSubnets] returns for one entry. *)
Definition subnetResource (topology : api.SubnetTopology)
    (refRT : option gfnt.Value) (entry : string * api.AZSubnetSpec)
  : SubnetResource :=
  {| AvailabilityZone := api.AZ (snd entry);
     RouteTable := subnetRouteTable topology refRT (fst entry);
     Subnet := Some (gfnt.MakeRef ("Subnet" +:+ subnetAlias topology (fst entry))) |}.

(** The store after a pass of [addSubnets] recorded its result. *)
Definition withPrivate (l : list SubnetResource) (s : Store) : Store :=
  {| rs := rs s;
     subnetDetails := {| Private := l; Public := Public (subnetDetails s) |};
     ec2Calls := ec2Calls s |}.

Definition withPublic (l : list SubnetResource) (s : Store) : Store :=
  {| rs := rs s;
     subnetDetails := {| Private := Private (subnetDetails s); Public := l |};
     ec2Calls := ec2Calls s |}.

Definition withOutputs (outs : list Output) (s : Store) : Store :=
  {| rs := {| resources := resources (rs s);
              outputs_ := outputs_ (rs s) ++ outs |};
     subnetDetails := subnetDetails s;
     ec2Calls := ec2Calls s |}.

Definition withCalls (calls : list ec2.DescribeRouteTablesInput) (s : Store)
  : Store :=
  {| rs := rs s;
     subnetDetails := subnetDetails s;
     ec2Calls := ec2Calls s ++ calls |}.

(** The output bindings [addOutputs] registers. *)
Definition addOutputs_outputs (v : IPv4VPCResourceSet)
    (details : SubnetDetails) : list Output :=
  [{| outputName := outputs.ClusterVPC;
      outputValue := OutValue (vpcID v); outputExport := true |}]
  ++ match api.NAT (api.VPC (clusterConfig v)) with
     | Some nat =>
         [{| outputName := outputs.ClusterFeatureNATMode;
             outputValue := OutNATMode (api.Gateway nat);
             outputExport := false |}]
     | None => []
     end
  ++ (if (0 <? length (PrivateSubnetRefs details))%nat then
        [{| outputName := outputs.ClusterSubnetsPrivate;
            outputValue := OutJoined (PrivateSubnetRefs details);
            outputExport := true |}]
      else [])
  ++ (if (0 <? length (PublicSubnetRefs details))%nat then
        [{| outputName := outputs.ClusterSubnetsPublic;
            outputValue := OutJoined (PublicSubnetRefs details);
            outputExport := true |}]
      else [])
  ++ (if isFullyPrivate v then
        [{| outputName := outputs.ClusterFullyPrivate;
            outputValue := OutBool true; outputExport := true |}]
      else []).

(** The receiver the constructor makes when it creates the VPC. *)
Definition createReceiver (clusterConfig : api.ClusterConfig)
    (ec2API : EC2API) : IPv4VPCResourceSet :=
  {| clusterConfig := clusterConfig;
     ec2API := ec2API;
     vpcID := gfnt.MakeRef "VPC" |}.

(** The receiver the constructor makes for an existing VPC. *)
Definition importReceiver (clusterConfig : api.ClusterConfig)
    (ec2API : EC2API) : IPv4VPCResourceSet :=
  {| clusterConfig := clusterConfig;
     ec2API := ec2API;
     vpcID := gfnt.NewString (api.VPC_ID (api.VPC clusterConfig)) |}.

(** The VPC and, with auto-allocation, its secondary address block. *)
Definition autoAllocated_decls (v : IPv4VPCResourceSet) : list decl :=
  if autoIPv6 v then
    [("AutoAllocatedCIDRv6", gfnec2.VPCCidrBlock (vpcID v) gfnt.True)]
  else [].

Definition vpc_decls (v : IPv4VPCResourceSet) : list decl :=
  ("VPC",
   gfnec2.VPC (gfnt.NewString (api.VPC_CIDR (api.VPC (clusterConfig v))))
     gfnt.True gfnt.True)
  :: autoAllocated_decls v.

(** The public side of a gatewayed build, before the subnets. *)
Definition gateway_decls (v : IPv4VPCResourceSet) : list decl :=
  [ ("InternetGateway", gfnec2.InternetGateway);
    ("VPCGatewayAttachment",
     gfnec2.VPCGatewayAttachment (gfnt.MakeRef "InternetGateway") (vpcID v));
    ("PublicRouteTable", gfnec2.RouteTable (vpcID v));
    ("PublicSubnetRoute",
     gfnec2.Route (gfnt.MakeRef "PublicRouteTable")
       (gfnt.NewString InternetCIDR)
       (Some (gfnt.MakeRef "InternetGateway")) None
       ["VPCGatewayAttachment"]) ].

Definition privateSubnets (v : IPv4VPCResourceSet) : api.AZSubnetMap :=
  api.Private (api.Subnets (api.VPC (clusterConfig v))).

Definition publicSubnets (v : IPv4VPCResourceSet) : api.AZSubnetMap :=
  api.Public (api.Subnets (api.VPC (clusterConfig v))).

(** What the two passes of [addSubnets] declare in a build. *)
Definition public_decls (sched : Schedule) (v : IPv4VPCResourceSet)
  : list decl :=
  addSubnets_decls v api.SubnetTopologyPublic
    (Some (gfnt.MakeRef "PublicRouteTable"))
    (firstIndex v api.SubnetTopologyPublic)
    (range (rangeAddPublic sched) (publicSubnets v)).

Definition private_decls (sched : Schedule) (v : IPv4VPCResourceSet)
  : list decl :=
  addSubnets_decls v api.SubnetTopologyPrivate None
    (firstIndex v api.SubnetTopologyPrivate)
    (range (rangeAddPrivate sched) (privateSubnets v)).

(** ** Kinds of declarations *)

#[global] Instance Tag_eq_dec : EqDecision gfncfn.Tag.
Proof. solve_decision. Defined.

Definition isEIP (d : decl) : bool :=
  match snd d with gfnec2.EIP _ => true | _ => false end.

Definition isNatGateway (d : decl) : bool :=
  match snd d with gfnec2.NatGateway _ _ => true | _ => false end.

Definition isInternetGateway (d : decl) : bool :=
  match snd d with gfnec2.InternetGateway => true | _ => false end.

(** A private subnet: tagged for internal load balancers and not marked to
    hand out public addresses. *)
Definition isPrivateSubnet (d : decl) : bool :=
  match snd d with
  | gfnec2.Subnet _ _ _ tags None =>
      bool_decide (tags = subnetTags api.SubnetTopologyPrivate)
  | _ => false
  end.

Definition isPublicSubnet (d : decl) : bool :=
  match snd d with
  | gfnec2.Subnet _ _ _ _ _ => negb (isPrivateSubnet d)
  | _ => false
  end.

(** A route table other than the one public route table. *)
Definition isPrivateRouteTable (d : decl) : bool :=
  match snd d with
  | gfnec2.RouteTable _ => negb (String.eqb (fst d) "PublicRouteTable")
  | _ => false
  end.

(** A route of a table other than the public route table. *)
Definition isPrivateRoute (d : decl) : bool :=
  match snd d with
  | gfnec2.Route (gfnt.MakeRef table) _ _ _ _ =>
      negb (String.eqb table "PublicRouteTable")
  | gfnec2.Route _ _ _ _ _ => true
  | _ => false
  end.

(** An association with a table other than the public route table. *)
Definition isPrivateAssociation (d : decl) : bool :=
  match snd d with
  | gfnec2.SubnetRouteTableAssociation _ (Some (gfnt.MakeRef table)) =>
      negb (String.eqb table "PublicRouteTable")
  | gfnec2.SubnetRouteTableAssociation _ _ => true
  | _ => false
  end.

Definition isSubnetCidrBlock (d : decl) : bool :=
  match snd d with gfnec2.SubnetCidrBlock _ _ => true | _ => false end.

(** The resources a NAT strategy declares. *)
Definition isNATResource (d : decl) : bool :=
  isEIP d || isNatGateway d || isPrivateRouteTable d || isPrivateRoute d
  || isPrivateAssociation d.

(** The kinds the specification lists for a fully-private build. *)
Definition fullyPrivateKind (d : decl) : bool :=
  match snd d with
  | gfnec2.VPC _ _ _ => true
  | gfnec2.RouteTable _ => isPrivateRouteTable d
  | gfnec2.Subnet _ _ _ _ _ => isPrivateSubnet d
  | gfnec2.SubnetRouteTableAssociation _ _ => true
  | _ => false
  end.

(** The declarations that attach a secondary address block. *)
Definition secondaryBlockKind (d : decl) : bool :=
  match snd d with
  | gfnec2.VPCCidrBlock _ _ => true
  | gfnec2.SubnetCidrBlock _ _ => true
  | _ => false
  end.

(** ** Whole builds, in closed form *)

(** The NAT modes the switch of [addNATGateways] has a case for. *)
Definition validNATMode (mode : string) : bool :=
  String.eqb mode api.ClusterHighlyAvailableNAT
  || String.eqb mode api.ClusterSingleNAT
  || String.eqb mode api.ClusterDisableNAT.

(** What the strategy of a mode declares. *)
Definition nat_decls (v : IPv4VPCResourceSet) (mode : string) : list decl :=
  if String.eqb mode api.ClusterHighlyAvailableNAT then haNAT_decls v
  else if String.eqb mode api.ClusterSingleNAT then
    match zones v with
    | first :: _ => singleNAT_decls v first
    | [] => []
    end
  else if String.eqb mode api.ClusterDisableNAT then noNAT_decls v
  else [].

(** Everything a fully-private build declares. *)
Definition fullyPrivate_decls (sched : Schedule) (v : IPv4VPCResourceSet)
  : list decl :=
  vpc_decls v ++ noNAT_decls v ++ private_decls sched v.

(** Everything a gatewayed build declares before it selects the NAT
    strategy. *)
Definition publicSide_decls (sched : Schedule) (v : IPv4VPCResourceSet)
  : list decl :=
  vpc_decls v ++ gateway_decls v ++ public_decls sched v.

(** Everything a gatewayed build declares. *)
Definition gatewayed_decls (sched : Schedule) (v : IPv4VPCResourceSet)
    (mode : string) : list decl :=
  publicSide_decls sched v ++ nat_decls v mode ++ private_decls sched v.

(** ** Example inputs *)

Definition exampleSubnet (id az cidr : string) : api.AZSubnetSpec :=
  {| api.ID := id; api.AZ := az; api.CIDR := cidr |}.

(** One subnet per zone, keyed by the zone's name. *)
Definition exampleSubnets : gmap string api.AZSubnetSpec :=
  <["us-east-1a" := exampleSubnet "" "us-east-1a" "10.0.0.0/19"]>
    (<["us-east-1b" := exampleSubnet "" "us-east-1b" "10.0.32.0/19"]> ∅).

Definition exampleConfig (fullyPrivate : bool) (nat : option api.ClusterNAT)
    (ipv6 : option bool) : api.ClusterConfig :=
  {| api.VPC :=
       {| api.VPC_ID := "";
          api.VPC_CIDR := "10.0.0.0/16";
          api.AutoAllocateIPv6 := ipv6;
          api.NAT := nat;
          api.Subnets := {| api.Private := Some exampleSubnets;
                            api.Public :=
                              if fullyPrivate then None
                              else Some exampleSubnets |} |};
     api.PrivateCluster_ := {| api.Enabled := fullyPrivate |};
     api.AvailabilityZones := ["us-east-1a"; "us-east-1b"] |}.

Definition natMode (mode : string) : option api.ClusterNAT :=
  Some {| api.Gateway := Some mode |}.

(** A directory that cannot be reached. *)
Definition offlineAPI : EC2API :=
  {| DescribeRouteTables := fun _ => inr (AWSError "RequestError") |}.

(** The receiver of a gatewayed example build with secondary address
    blocks. *)
Definition exampleReceiver (mode : string) (ipv6 : option bool)
  : IPv4VPCResourceSet :=
  createReceiver (exampleConfig false (natMode mode) ipv6) offlineAPI.

(** C3 as the specification words it: the route table recorded for a
    private subnet is named after the subnet's availability zone. *)
Definition routeTableByZone (entry : string * api.AZSubnetSpec)
    (sr : SubnetResource) : Prop :=
  RouteTable sr
  = Some (gfnt.MakeRef ("PrivateRouteTable" +:+ formatAZ (api.AZ (snd entry)))).

(** A private subnet whose logical name is not its zone's name. *)
Definition namedSubnets : gmap string api.AZSubnetSpec :=
  {[ "db" := exampleSubnet "" "us-east-1a" "10.0.0.0/19" ]}.

(** The private route table a strategy declares for a zone. *)
Definition privateRouteTable (v : IPv4VPCResourceSet) (az : string) : decl :=
  ("PrivateRouteTable" +:+ formatAZ az, gfnec2.RouteTable (vpcID v)).

(** The default route a private route table gets in Single mode. *)
Definition sharedGatewayRoute (az : string) : decl :=
  ("NATPrivateSubnetRoute" +:+ formatAZ az,
   gfnec2.Route (gfnt.MakeRef ("PrivateRouteTable" +:+ formatAZ az))
     (gfnt.NewString "0.0.0.0/0") None
     (Some (gfnt.MakeRef "NATGateway")) []).

(** ** The import path, in closed form *)

Definition mainRouteTableError : error :=
  New ("subnets must be associated with a non-main route table; "
       +:+ "eksctl does not modify the main route table").

(** An association flagged as the main route table's. *)
Definition isMain (rta : ec2.RouteTableAssociation) : bool :=
  match ec2.Main rta with
  | Some true => true
  | _ => false
  end.

Definition hasMain (routeTables : list ec2.RouteTable) : bool :=
  existsb (fun rt => existsb isMain (ec2.Associations rt)) routeTables.

(** The records carry their identifiers: every table has its identifier
    and every association that is not the main one names its subnet. *)
Definition wellFormed (routeTables : list ec2.RouteTable) : bool :=
  forallb (fun rt =>
             bool_decide (is_Some (ec2.RouteTableId rt))
             && forallb (fun rta =>
                           isMain rta
                           || bool_decide (is_Some (ec2.SubnetId rta)))
                  (ec2.Associations rt))
    routeTables.

(** The directory applied the filter of the query: every table it
    delivered has an association with one of the subnets asked about. *)
Definition honoursFilter (subnetIDs : list string)
    (routeTables : list ec2.RouteTable) : bool :=
  forallb (fun rt =>
             existsb (fun rta =>
                        match ec2.SubnetId rta with
                        | Some subnetId => bool_decide (subnetId ∈ subnetIDs)
                        | None => false
                        end)
               (ec2.Associations rt))
    routeTables.

(** The (subnet, route table) pairs of one table and of a list of tables,
    in the order the loops of [importRouteTables] visit them. *)
Definition tablePairs (rt : ec2.RouteTable)
    (associations : list ec2.RouteTableAssociation)
  : list (string * string) :=
  omap (fun rta =>
          match ec2.SubnetId rta, ec2.RouteTableId rt with
          | Some subnetId, Some routeTableId => Some (subnetId, routeTableId)
          | _, _ => None
          end) associations.

Definition associationPairs (routeTables : list ec2.RouteTable)
  : list (string * string) :=
  flat_map (fun rt => tablePairs rt (ec2.Associations rt)) routeTables.

(** The map [importRouteTables] builds from the pairs: a later pair
    replaces an earlier one for the same subnet. *)
Definition recordPairs (pairs : list (string * string))
    (subnetRoutes : gmap string string) : gmap string string :=
  fold_left (fun m pair => <[fst pair := snd pair]> m) pairs subnetRoutes.

(** The route tables of the associations on record for a subnet. *)
Definition routeTablesOf (subnetId : string)
    (routeTables : list ec2.RouteTable) : list string :=
  map snd
    (List.filter (fun pair => String.eqb (fst pair) subnetId)
       (associationPairs routeTables)).

(** What [makeSubnetResources] makes of one subnet. *)
Definition importedSubnet (subnetRoutes : option (gmap string string))
    (network : api.AZSubnetSpec) : SubnetResource + error :=
  match subnetRoutes with
  | Some routes =>
      match routes !! api.ID network with
      | None => inr (Errorf notFoundFormat [api.ID network])
      | Some rt =>
          inl {| AvailabilityZone := api.AZ network;
                 Subnet := Some (gfnt.NewString (api.ID network));
                 RouteTable := Some (gfnt.NewString rt) |}
      end
  | None =>
      inl {| AvailabilityZone := api.AZ network;
             Subnet := Some (gfnt.NewString (api.ID network));
             RouteTable := None |}
  end.

(** What [makeSubnetResources] returns: the subnets in the order of visit,
    or the error of the first one without a route table on record. *)
Fixpoint importedSubnets (subnets : list (string * api.AZSubnetSpec))
    (subnetRoutes : option (gmap string string))
  : list SubnetResource + error :=
  match subnets with
  | [] => inl []
  | (_, network) :: rest =>
      match importedSubnet subnetRoutes network with
      | inr err => inr err
      | inl sr =>
          match importedSubnets rest subnetRoutes with
          | inr err => inr err
          | inl srs => inl (sr :: srs)
          end
      end
  end.

(** One query of the route-table directory for the given subnets. *)
Definition isAssociationQuery (subnetIDs : list string)
    (input : ec2.DescribeRouteTablesInput) : Prop :=
  ec2.Filters input
  = [{| ec2.Name := "association.subnet-id"; ec2.Values := subnetIDs |}].

(** The identifiers [importRouteTables] asks about. *)
Definition importedIDs (sched : Schedule) (v : IPv4VPCResourceSet)
  : list string :=
  map (fun entry => api.ID (snd entry))
    (range (rangeImportIDs sched) (privateSubnets v)).

(** The store after the public half of [importResources]. *)
Definition importPublicStore (sched : Schedule) (v : IPv4VPCResourceSet)
    (s : Store) : Store :=
  match publicSubnets v with
  | Some _ =>
      withPublic
        (map (fun entry =>
                {| AvailabilityZone := api.AZ (snd entry);
                   Subnet := Some (gfnt.NewString (api.ID (snd entry)));
                   RouteTable := None |})
           (range (rangeMakePublic sched) (publicSubnets v))) s
  | None => s
  end.

(** Between two stores the resource set is the same and the remote
    directory was sent the given queries, nothing else. *)
Definition onlyQueried (calls : list ec2.DescribeRouteTablesInput)
    (s s' : Store) : Prop :=
  rs s' = rs s /\ ec2Calls s' = ec2Calls s ++ calls.

(** *** Example directories and an example import *)

(** A directory that answers in two pages: an empty first page with a
    continuation token, then the given tables. *)
Definition pagedDirectory (routeTables : list ec2.RouteTable) : EC2API :=
  {| DescribeRouteTables := fun input =>
       match ec2.NextToken input with
       | None =>
           inl {| ec2.RouteTables := []; ec2.OutNextToken := Some "page-2" |}
       | Some _ =>
           inl {| ec2.RouteTables := routeTables;
                  ec2.OutNextToken := None |}
       end |}.

Definition explicitTable : ec2.RouteTable :=
  {| ec2.Associations :=
       [{| ec2.Main := Some false; ec2.SubnetId := Some "subnet-1" |}];
     ec2.RouteTableId := Some "rtb-1" |}.

Definition mainTable : ec2.RouteTable :=
  {| ec2.Associations := [{| ec2.Main := Some true; ec2.SubnetId := None |}];
     ec2.RouteTableId := Some "rtb-main" |}.

(** A fully-private import of one private subnet into an existing VPC. *)
Definition importConfig (fullyPrivate : bool) : api.ClusterConfig :=
  {| api.VPC :=
       {| api.VPC_ID := "vpc-1";
          api.VPC_CIDR := "10.0.0.0/16";
          api.AutoAllocateIPv6 := None;
          api.NAT := None;
          api.Subnets :=
            {| api.Private :=
                 Some {[ "us-east-1a" :=
                           exampleSubnet "subnet-1" "us-east-1a"
                             "10.0.0.0/19" ]};
               api.Public :=
                 Some {[ "us-east-1a" :=
                           exampleSubnet "subnet-2" "us-east-1a"
                             "10.0.32.0/19" ]} |} |};
     api.PrivateCluster_ := {| api.Enabled := fullyPrivate |};
     api.AvailabilityZones := ["us-east-1a"] |}.

(** ** Reading the secondary-block index off a graph *)

(** The index a secondary CIDR association selects. *)
Definition selectedIndex (d : decl) : option Z :=
  match snd d with
  | gfnec2.SubnetCidrBlock _ (gfnt.MakeFnSelect (gfnt.NewInteger index) _) =>
      Some index
  | _ => None
  end.

(** The index selected by the association declared under a logical name,
    if there is one. *)
Definition secondaryIndexOf (name : string) (ds : list decl) : option Z :=
  match List.find (fun d => String.eqb (fst d) name) ds with
  | Some d => selectedIndex d
  | None => None
  end.

(** The route tables of the associations on record for a subnet that are
    not flagged as the main route table's. *)
Definition nonMainTablesOf (subnetId : string)
    (routeTables : list ec2.RouteTable) : list string :=
  flat_map (fun rt =>
              omap (fun rta =>
                      if isMain rta then None
                      else
                        match ec2.SubnetId rta, ec2.RouteTableId rt with
                        | Some id, Some routeTableId =>
                            if String.eqb id subnetId then Some routeTableId
                            else None
                        | _, _ => None
                        end)
                (ec2.Associations rt))
    routeTables.

(** The VPC's main route table, with one subnet associated to it
    explicitly as well. *)
Definition sharedMainTable : ec2.RouteTable :=
  {| ec2.Associations :=
       [{| ec2.Main := Some true; ec2.SubnetId := None |};
        {| ec2.Main := Some false; ec2.SubnetId := Some "subnet-1" |}];
     ec2.RouteTableId := Some "rtb-main" |}.

(* ===================================================================== *)
(** ** Further closed forms and kinds *)
(* ===================================================================== *)

Definition isRoute (d : decl) : bool :=
  match snd d with gfnec2.Route _ _ _ _ _ => true | _ => false end.

Definition isSubnet (d : decl) : bool :=
  match snd d with gfnec2.Subnet _ _ _ _ _ => true | _ => false end.

Definition isAssociation (d : decl) : bool :=
  match snd d with
  | gfnec2.SubnetRouteTableAssociation _ _ => true
  | _ => false
  end.

(** What the HighlyAvailable strategy declares for a zone, by kind. *)
Definition zoneEIP (az : string) : decl :=
  ("NATIP" +:+ formatAZ az, gfnec2.EIP (gfnt.NewString "vpc")).

Definition zoneNatGateway (az : string) : decl :=
  ("NATGateway" +:+ formatAZ az,
   gfnec2.NatGateway
     (gfnt.MakeFnGetAttString ("NATIP" +:+ formatAZ az) "AllocationId")
     (gfnt.MakeRef ("SubnetPublic" +:+ formatAZ az))).

Definition zoneGatewayRoute (az : string) : decl :=
  ("NATPrivateSubnetRoute" +:+ formatAZ az,
   gfnec2.Route (gfnt.MakeRef ("PrivateRouteTable" +:+ formatAZ az))
     (gfnt.NewString "0.0.0.0/0") None
     (Some (gfnt.MakeRef ("NATGateway" +:+ formatAZ az))) []).

(** The one route of the public side: the default route through the
    internet gateway, created after the gateway is attached. *)
Definition publicSubnetRoute : decl :=
  ("PublicSubnetRoute",
   gfnec2.Route (gfnt.MakeRef "PublicRouteTable")
     (gfnt.NewString "0.0.0.0/0")
     (Some (gfnt.MakeRef "InternetGateway")) None
     ["VPCGatewayAttachment"]).

(** The subnet and the association [addSubnets] declares for an entry. *)
Definition subnetDecl (v : IPv4VPCResourceSet)
    (topology : api.SubnetTopology) (entry : string * api.AZSubnetSpec)
  : decl :=
  ("Subnet" +:+ subnetAlias topology (fst entry),
   gfnec2.Subnet (gfnt.NewString (api.AZ (snd entry)))
     (gfnt.NewString (api.CIDR (snd entry))) (vpcID v)
     (subnetTags topology) (subnetMapPublicIp topology)).

Definition associationDecl (topology : api.SubnetTopology)
    (refRT : option gfnt.Value) (entry : string * api.AZSubnetSpec) : decl :=
  ("RouteTableAssociation" +:+ subnetAlias topology (fst entry),
   gfnec2.SubnetRouteTableAssociation
     (gfnt.MakeRef ("Subnet" +:+ subnetAlias topology (fst entry)))
     (subnetRouteTable topology refRT (fst entry))).

(** *** The paginated query *)

(** The query [importRouteTables] sends for a page. *)
Definition query (subnetIDs : list string) (nextToken : option string)
  : ec2.DescribeRouteTablesInput :=
  {| ec2.Filters :=
       [{| ec2.Name := "association.subnet-id"; ec2.Values := subnetIDs |}];
     ec2.NextToken := nextToken |}.

(** The directory answers the queries for the given subnets, from the
    given token on, with the pages [pages], each with its tables and the
    token of the next page, and then either with a last page without a
    token or with an error. *)
Fixpoint answersInPages (ec2API : EC2API) (subnetIDs : list string)
    (nextToken : option string)
    (pages : list (list ec2.RouteTable * string))
    (last : list ec2.RouteTable + error) : Prop :=
  match pages with
  | [] =>
      DescribeRouteTables ec2API (query subnetIDs nextToken)
      = match last with
        | inl routeTables =>
            inl {| ec2.RouteTables := routeTables;
                   ec2.OutNextToken := None |}
        | inr err => inr err
        end
  | (routeTables, token) :: rest =>
      DescribeRouteTables ec2API (query subnetIDs nextToken)
      = inl {| ec2.RouteTables := routeTables;
               ec2.OutNextToken := Some token |}
      /\ answersInPages ec2API subnetIDs (Some token) rest last
  end.

(** A directory that hands out a continuation token with every page. *)
Definition endlessDirectory : EC2API :=
  {| DescribeRouteTables := fun _ =>
       inl {| ec2.RouteTables := []; ec2.OutNextToken := Some "more" |} |}.

(** *** Imported subnets *)

(** The [SubnetResource] of an imported subnet: its identifier as a
    literal, its zone, and the route table found for it, if any was looked
    for. *)
Definition passThrough (routeTable : option string)
    (entry : string * api.AZSubnetSpec) : SubnetResource :=
  {| AvailabilityZone := api.AZ (snd entry);
     Subnet := Some (gfnt.NewString (api.ID (snd entry)));
     RouteTable := gfnt.NewString <$> routeTable |}.

(** An association that is neither the main one nor names a subnet, as a
    gateway association is. *)
Definition unnamedAssociation (rta : ec2.RouteTableAssociation) : bool :=
  negb (isMain rta) && negb (bool_decide (is_Some (ec2.SubnetId rta))).

(** A table with a gateway association. *)
Definition gatewayTable : ec2.RouteTable :=
  {| ec2.Associations := [{| ec2.Main := None; ec2.SubnetId := None |}];
     ec2.RouteTableId := Some "rtb-edge" |}.

(** A directory that answers every query with one page. *)
Definition onePageDirectory (routeTables : list ec2.RouteTable) : EC2API :=
  {| DescribeRouteTables := fun _ =>
       inl {| ec2.RouteTables := routeTables; ec2.OutNextToken := None |} |}.

(** A fully-private import of two private subnets. *)
Definition importTwoConfig : api.ClusterConfig :=
  {| api.VPC :=
       {| api.VPC_ID := "vpc-1";
          api.VPC_CIDR := "10.0.0.0/16";
          api.AutoAllocateIPv6 := None;
          api.NAT := None;
          api.Subnets :=
            {| api.Private :=
                 Some (<["us-east-1a" :=
                           exampleSubnet "subnet-1" "us-east-1a"
                             "10.0.0.0/19"]>
                         (<["us-east-1b" :=
                              exampleSubnet "subnet-3" "us-east-1b"
                                "10.0.64.0/19"]> ∅));
               api.Public := None |} |};
     api.PrivateCluster_ := {| api.Enabled := true |};
     api.AvailabilityZones := ["us-east-1a"; "us-east-1b"] |}.

(** *** Aliases *)




(** *** References between declarations *)

(** The logical names a value refers to. *)
Fixpoint valueRefs (value : gfnt.Value) : list string :=
  match value with
  | gfnt.MakeRef name => [name]
  | gfnt.MakeFnGetAttString name _ => [name]
  | gfnt.MakeFnSelect index list => valueRefs index ++ valueRefs list
  | _ => []
  end.

Definition optionRefs (value : option gfnt.Value) : list string :=
  match value with
  | Some value => valueRefs value
  | None => []
  end.

(** The logical names a declaration refers to, through its fields or its
    [DependsOn]. *)
Definition references (resource : gfnec2.Resource) : list string :=
  match resource with
  | gfnec2.VPC cidr dnsSupport dnsHostnames =>
      valueRefs cidr ++ valueRefs dnsSupport ++ valueRefs dnsHostnames
  | gfnec2.VPCCidrBlock vpc amazonProvided =>
      valueRefs vpc ++ valueRefs amazonProvided
  | gfnec2.InternetGateway => []
  | gfnec2.VPCGatewayAttachment gateway vpc =>
      valueRefs gateway ++ valueRefs vpc
  | gfnec2.RouteTable vpc => valueRefs vpc
  | gfnec2.Route routeTable destination gateway natGateway dependsOn =>
      valueRefs routeTable ++ valueRefs destination ++ optionRefs gateway
      ++ optionRefs natGateway ++ dependsOn
  | gfnec2.Subnet az cidr vpc tags mapPublicIp =>
      valueRefs az ++ valueRefs cidr ++ valueRefs vpc
      ++ flat_map (fun tag =>
                     valueRefs (gfncfn.Key tag) ++ valueRefs (gfncfn.Value tag))
           tags
      ++ optionRefs mapPublicIp
  | gfnec2.SubnetRouteTableAssociation subnet routeTable =>
      valueRefs subnet ++ optionRefs routeTable
  | gfnec2.SubnetCidrBlock subnet block => valueRefs subnet ++ valueRefs block
  | gfnec2.EIP domain => valueRefs domain
  | gfnec2.NatGateway allocation subnet =>
      valueRefs allocation ++ valueRefs subnet
  end.

(** Every name a declaration refers to is among the given names. *)
Definition resolves (names : list string) (d : decl) : Prop :=
  Forall (fun name => name ∈ names) (references (snd d)).

(** *** The association of a private subnet *)

(** The route-table association declared for the private subnet of an
    alias: by the NAT strategies, once per zone, and by [addSubnets], once
    per private subnet. *)
Definition zoneAssociation (alias : string) : decl :=
  ("RouteTableAssociationPrivate" +:+ alias,
   gfnec2.SubnetRouteTableAssociation
     (gfnt.MakeRef ("SubnetPrivate" +:+ alias))
     (Some (gfnt.MakeRef ("PrivateRouteTable" +:+ alias)))).

(** A declaration is the private association of some alias, or neither
    named like one nor of that kind. *)
Definition associationOrOther (d : decl) : Prop :=
  (exists alias, d = zoneAssociation alias)
  \/ (String.prefix "RouteTableAssociationPrivate" (fst d) = false
      /\ isPrivateAssociation d = false).

(* ===================================================================== *)
(** ** Running the monad *)
(* ===================================================================== *)

Lemma newResource_declare name r s :
  newResource name r s = Returns (gfnt.MakeRef name) (declare [(name, r)] s).
Proof. reflexivity. Qed.

Lemma declare_declare d1 d2 s :
  declare d2 (declare d1 s) = declare (d1 ++ d2) s.
Proof. unfold declare; simpl. by rewrite <- app_assoc. Qed.

Lemma declare_nil s : declare [] s = s.
Proof.
  destruct s as [[r o] d c]; unfold declare; simpl. by rewrite app_nil_r.
Qed.

Lemma resources_declare ds s :
  resources (rs (declare ds s)) = (resources (rs s) ++ ds)%list.
Proof. reflexivity. Qed.

Lemma bind_returns {A B} (m : M A) (k : A -> M B) s a s' :
  m s = Returns a s' -> bind m k s = k a s'.
Proof. unfold bind; intros ->; reflexivity. Qed.

Lemma bind_panics {A B} (m : M A) (k : A -> M B) s p :
  m s = Panics p -> bind m k s = Panics p.
Proof. unfold bind; intros ->; reflexivity. Qed.

Lemma bind_bind {A B C} (m : M A) (f : A -> M B) (g : B -> M C) s :
  bind (bind m f) g s = bind m (fun a => bind (f a) g) s.
Proof. unfold bind. by destruct (m s). Qed.

Lemma bind_ret {A B} (a : A) (k : A -> M B) s : bind (ret a) k s = k a s.
Proof. reflexivity. Qed.

(** One step of a [let*] whose first action is a declaration or a plain
    [ret]. *)
Ltac step :=
  first
    [ rewrite bind_bind
    | rewrite (bind_returns _ _ _ _ _ (newResource_declare _ _ _))
    | rewrite bind_ret ];
  cbv beta.

Lemma forM__declare {A} (xs : list A) (body : A -> M unit)
    (f : A -> list decl) :
  (forall x s, body x s = Returns tt (declare (f x) s)) ->
  forall s, forM_ xs body s = Returns tt (declare (flat_map f xs) s).
Proof.
  intros Hbody. induction xs as [|x xs IH]; intros s; simpl.
  - by rewrite declare_nil.
  - rewrite (bind_returns _ _ _ _ _ (Hbody x s)), IH, declare_declare.
    reflexivity.
Qed.

(* ===================================================================== *)
(** ** The NAT strategies *)
(* ===================================================================== *)

Lemma haNAT_returns v s : haNAT v s = Returns tt (declare (haNAT_decls v) s).
Proof.
  unfold haNAT. apply forM__declare. intros az s'.
  repeat step. rewrite !declare_declare. reflexivity.
Qed.

Lemma noNAT_returns v s : noNAT v s = Returns tt (declare (noNAT_decls v) s).
Proof.
  unfold noNAT. apply forM__declare. intros az s'.
  repeat step. rewrite !declare_declare. reflexivity.
Qed.

Lemma index_first {A} (x : A) (l : list A) : index (x :: l) 0 = ret x.
Proof. reflexivity. Qed.

Lemma singleNAT_returns v first rest s :
  zones v = first :: rest ->
  singleNAT v s = Returns tt (declare (singleNAT_decls v first) s).
Proof.
  unfold zones. intros Hz. unfold singleNAT. rewrite Hz, index_first.
  unfold singleNAT_decls, zones. rewrite Hz.
  repeat step.
  erewrite (forM__declare _ _ (singleNAT_zone v)).
  - rewrite !declare_declare. reflexivity.
  - intros az s'. repeat step. rewrite !declare_declare. reflexivity.
Qed.

Lemma singleNAT_panics v s :
  zones v = [] -> singleNAT v s = Panics IndexOutOfRange.
Proof. unfold zones, singleNAT. intros ->. reflexivity. Qed.

(* ===================================================================== *)
(** ** The subnet allocator *)
(* ===================================================================== *)

Lemma subnetRouteTable_idem topology refRT name name' :
  subnetRouteTable topology (subnetRouteTable topology refRT name) name'
  = subnetRouteTable topology refRT name'.
Proof. by destruct topology. Qed.

Lemma addSubnets_decls_refRT v topology refRT name index subnets :
  addSubnets_decls v topology (subnetRouteTable topology refRT name) index
    subnets
  = addSubnets_decls v topology refRT index subnets.
Proof.
  revert index. induction subnets as [|[n sub] rest IH]; intros index; simpl.
  - reflexivity.
  - rewrite IH. unfold subnet_decls. by rewrite subnetRouteTable_idem.
Qed.

Lemma subnetResource_refRT topology refRT name entry :
  subnetResource topology (subnetRouteTable topology refRT name) entry
  = subnetResource topology refRT entry.
Proof. unfold subnetResource. by rewrite subnetRouteTable_idem. Qed.

Lemma addSubnets_loop_returns v topology subnets :
  forall index refRT acc s,
    addSubnets_loop v topology subnets index refRT acc s
    = Returns (acc ++ map (subnetResource topology refRT) subnets)
        (declare (addSubnets_decls v topology refRT index subnets) s).
Proof.
  induction subnets as [|[name subnet] rest IH]; intros index refRT acc s.
  - simpl. by rewrite declare_nil, app_nil_r.
  - cbn [addSubnets_loop addSubnets_decls map].
    repeat step.
    change (api.IsEnabled
              (api.AutoAllocateIPv6 (api.VPC (clusterConfig v))))
      with (autoIPv6 v).
    assert (Hrt : match topology with
                  | api.SubnetTopologyPrivate =>
                      Some (gfnt.MakeRef
                              ("PrivateRouteTable" +:+
                               strings.ToUpper
                                 (strings.Join (strings.Split name "-") "")))
                  | api.SubnetTopologyPublic => refRT
                  end = subnetRouteTable topology refRT name)
      by reflexivity.
    rewrite Hrt. clear Hrt.
    unfold subnet_decls.
    destruct (autoIPv6 v) eqn:Hv6; repeat step;
      rewrite IH, addSubnets_decls_refRT, !declare_declare, <- !app_assoc;
      rewrite (map_ext _ _ (subnetResource_refRT topology refRT name));
      reflexivity.
Qed.

Lemma addSubnets_returns g v refRT topology subnets s :
  addSubnets g v refRT topology subnets s
  = Returns (map (subnetResource topology refRT) (range g subnets))
      (declare
         (addSubnets_decls v topology refRT (firstIndex v topology)
            (range g subnets)) s).
Proof.
  unfold addSubnets. rewrite addSubnets_loop_returns. reflexivity.
Qed.

(* ===================================================================== *)
(** ** Outputs, the constructor and the create path *)
(* ===================================================================== *)

Lemma setPrivate_returns l s : setPrivate l s = Returns tt (withPrivate l s).
Proof. reflexivity. Qed.

Lemma setPublic_returns l s : setPublic l s = Returns tt (withPublic l s).
Proof. reflexivity. Qed.

Lemma defineOutput_returns name value export s :
  defineOutput name value export s
  = Returns tt
      (withOutputs [{| outputName := name; outputValue := value;
                       outputExport := export |}] s).
Proof. reflexivity. Qed.

Lemma getSubnetDetails_returns s :
  getSubnetDetails s = Returns (subnetDetails s) s.
Proof. reflexivity. Qed.

Lemma withOutputs_withOutputs a b s :
  withOutputs b (withOutputs a s) = withOutputs (a ++ b) s.
Proof. unfold withOutputs; simpl. by rewrite <- app_assoc. Qed.

Lemma withOutputs_nil s : withOutputs [] s = s.
Proof.
  destruct s as [[r o] d c]; unfold withOutputs; simpl. by rewrite app_nil_r.
Qed.

(** One step of a [let*] whose first action is one of the primitives. *)
Ltac step' :=
  first
    [ step
    | rewrite (bind_returns _ _ _ _ _ (setPrivate_returns _ _))
    | rewrite (bind_returns _ _ _ _ _ (setPublic_returns _ _))
    | rewrite (bind_returns _ _ _ _ _ (defineOutput_returns _ _ _ _))
    | rewrite (bind_returns _ _ _ _ _ (getSubnetDetails_returns _))
    | rewrite (bind_returns _ _ _ _ _ (addSubnets_returns _ _ _ _ _ _))
    | rewrite (bind_returns _ _ _ _ _ (noNAT_returns _ _))
    | rewrite (bind_returns _ _ _ _ _ (haNAT_returns _ _)) ];
  cbv beta.

Lemma addOutputs_returns v s :
  addOutputs v s
  = Returns tt (withOutputs (addOutputs_outputs v (subnetDetails s)) s).
Proof.
  unfold addOutputs, addOutputs_outputs.
  step'.
  assert (Hnat : forall s0,
    match api.NAT (api.VPC (clusterConfig v)) with
    | Some nat => defineOutput outputs.ClusterFeatureNATMode
                    (OutNATMode (api.Gateway nat)) false
    | None => ret tt
    end s0
    = Returns tt
        (withOutputs
           match api.NAT (api.VPC (clusterConfig v)) with
           | Some nat =>
               [{| outputName := outputs.ClusterFeatureNATMode;
                   outputValue := OutNATMode (api.Gateway nat);
                   outputExport := false |}]
           | None => []
           end s0)).
  { intros s0. destruct (api.NAT _); [reflexivity|].
    by rewrite withOutputs_nil. }
  rewrite (bind_returns _ _ _ _ _ (Hnat _)). clear Hnat.
  step'. simpl subnetDetails.
  destruct (0 <? length (PrivateSubnetRefs (subnetDetails s)))%nat;
    destruct (0 <? length (PublicSubnetRefs (subnetDetails s)))%nat;
    destruct (isFullyPrivate v);
    repeat step';
    rewrite ?defineOutput_returns, ?withOutputs_withOutputs;
    unfold ret; rewrite ?app_nil_r, <- ?app_assoc; reflexivity.
Qed.

Lemma NewIPv4VPCResourceSet_create rs0 cfg ec2 :
  api.VPC_ID (api.VPC cfg) = "" ->
  NewIPv4VPCResourceSet rs0 cfg ec2
  = Returns (createReceiver cfg ec2)
      (declare [("VPC",
                 gfnec2.VPC (gfnt.NewString (api.VPC_CIDR (api.VPC cfg)))
                   gfnt.True gfnt.True)] (initialStore rs0)).
Proof. unfold NewIPv4VPCResourceSet. intros ->. reflexivity. Qed.

Lemma NewIPv4VPCResourceSet_import rs0 cfg ec2 :
  api.VPC_ID (api.VPC cfg) <> "" ->
  NewIPv4VPCResourceSet rs0 cfg ec2
  = Returns (importReceiver cfg ec2) (initialStore rs0).
Proof.
  unfold NewIPv4VPCResourceSet. intros Hid.
  destruct (String.eqb_spec (api.VPC_ID (api.VPC cfg)) ""); [done|].
  reflexivity.
Qed.

Lemma autoAllocated_returns v s :
  (if api.IsEnabled (api.AutoAllocateIPv6 (api.VPC (clusterConfig v))) then
     let* _ :=
       newResource "AutoAllocatedCIDRv6"
         (gfnec2.VPCCidrBlock (vpcID v) gfnt.True) in
     ret tt
   else ret tt) s
  = Returns tt (declare (autoAllocated_decls v) s).
Proof.
  unfold autoAllocated_decls, autoIPv6.
  destruct (api.IsEnabled _).
  - repeat step. reflexivity.
  - unfold ret. by rewrite declare_nil.
Qed.

Lemma addNATGateways_returns v nat mode s :
  api.NAT (api.VPC (clusterConfig v)) = Some nat ->
  api.Gateway nat = Some mode ->
  validNATMode mode = true ->
  (mode = api.ClusterSingleNAT -> zones v <> []) ->
  addNATGateways v s = Returns None (declare (nat_decls v mode) s).
Proof.
  intros Hnat Hgw Hvalid Hzones.
  unfold addNATGateways, nat_decls, validNATMode in *.
  rewrite Hnat. simpl deref. step. rewrite Hgw. simpl deref. step.
  destruct (String.eqb_spec mode api.ClusterHighlyAvailableNAT).
  { repeat step'. reflexivity. }
  destruct (String.eqb_spec mode api.ClusterSingleNAT) as [Hs|].
  { destruct (zones v) as [|first rest] eqn:Hz; [by destruct (Hzones Hs)|].
    rewrite (bind_returns _ _ _ _ _ (singleNAT_returns v first rest _ Hz)).
    reflexivity. }
  destruct (String.eqb_spec mode api.ClusterDisableNAT); [|done].
  repeat step'. reflexivity.
Qed.

Lemma addNATGateways_invalid v nat mode s :
  api.NAT (api.VPC (clusterConfig v)) = Some nat ->
  api.Gateway nat = Some mode ->
  validNATMode mode = false ->
  addNATGateways v s
  = Returns (Some (Errorf "%s is not a valid NAT gateway mode" [mode])) s.
Proof.
  intros Hnat Hgw Hvalid.
  unfold addNATGateways, validNATMode in *.
  rewrite Hnat. simpl deref. step. rewrite Hgw. simpl deref. step.
  destruct (String.eqb mode api.ClusterHighlyAvailableNAT); [done|].
  destruct (String.eqb mode api.ClusterSingleNAT); [done|].
  destruct (String.eqb mode api.ClusterDisableNAT); [done|].
  reflexivity.
Qed.

Lemma declare_withPublic ds l s :
  declare ds (withPublic l s) = withPublic l (declare ds s).
Proof. reflexivity. Qed.

Lemma addResources_fullyPrivate sched fuel v s :
  api.VPC_ID (api.VPC (clusterConfig v)) = "" ->
  isFullyPrivate v = true ->
  addResources sched fuel v s
  = Returns None
      (withPrivate
         (map (subnetResource api.SubnetTopologyPrivate None)
            (range (rangeAddPrivate sched) (privateSubnets v)))
         (declare
            (autoAllocated_decls v ++ noNAT_decls v ++ private_decls sched v)
            s)).
Proof.
  intros Hid Hfp. unfold addResources. rewrite Hid, Hfp, String.eqb_refl.
  change (negb true) with false. cbv iota.
  rewrite (bind_returns _ _ _ _ _ (autoAllocated_returns v s)).
  repeat step'. rewrite !declare_declare, <- ?app_assoc. reflexivity.
Qed.

Lemma addResources_publicSide sched fuel v s :
  api.VPC_ID (api.VPC (clusterConfig v)) = "" ->
  isFullyPrivate v = false ->
  addResources sched fuel v s
  = (let* err := addNATGateways v in
     match err with
     | Some err => ret (Some err)
     | None =>
         let* private :=
           addSubnets (rangeAddPrivate sched) v None
             api.SubnetTopologyPrivate (privateSubnets v) in
         let* _ := setPrivate private in
         ret None
     end)
      (withPublic
         (map (subnetResource api.SubnetTopologyPublic
                 (Some (gfnt.MakeRef "PublicRouteTable")))
            (range (rangeAddPublic sched) (publicSubnets v)))
         (declare
            (autoAllocated_decls v ++ gateway_decls v ++ public_decls sched v)
            s)).
Proof.
  intros Hid Hfp. unfold addResources. rewrite Hid, Hfp, String.eqb_refl.
  change (negb true) with false. cbv iota.
  rewrite (bind_returns _ _ _ _ _ (autoAllocated_returns v s)).
  repeat step'. rewrite !declare_declare, <- ?app_assoc. reflexivity.
Qed.

Lemma addResources_gatewayed sched fuel v nat mode s :
  api.VPC_ID (api.VPC (clusterConfig v)) = "" ->
  isFullyPrivate v = false ->
  api.NAT (api.VPC (clusterConfig v)) = Some nat ->
  api.Gateway nat = Some mode ->
  validNATMode mode = true ->
  (mode = api.ClusterSingleNAT -> zones v <> []) ->
  addResources sched fuel v s
  = Returns None
      (withPrivate
         (map (subnetResource api.SubnetTopologyPrivate None)
            (range (rangeAddPrivate sched) (privateSubnets v)))
         (withPublic
            (map (subnetResource api.SubnetTopologyPublic
                    (Some (gfnt.MakeRef "PublicRouteTable")))
               (range (rangeAddPublic sched) (publicSubnets v)))
            (declare
               (autoAllocated_decls v ++ gateway_decls v
                ++ public_decls sched v ++ nat_decls v mode
                ++ private_decls sched v) s))).
Proof.
  intros Hid Hfp Hnat Hgw Hvalid Hzones.
  rewrite addResources_publicSide by done.
  rewrite (bind_returns _ _ _ _ _
             (addNATGateways_returns v nat mode _ Hnat Hgw Hvalid Hzones)).
  repeat step'.
  rewrite ?declare_withPublic, !declare_declare, <- ?app_assoc. reflexivity.
Qed.

Lemma addResources_invalidMode sched fuel v nat mode s :
  api.VPC_ID (api.VPC (clusterConfig v)) = "" ->
  isFullyPrivate v = false ->
  api.NAT (api.VPC (clusterConfig v)) = Some nat ->
  api.Gateway nat = Some mode ->
  validNATMode mode = false ->
  addResources sched fuel v s
  = Returns (Some (Errorf "%s is not a valid NAT gateway mode" [mode]))
      (withPublic
         (map (subnetResource api.SubnetTopologyPublic
                 (Some (gfnt.MakeRef "PublicRouteTable")))
            (range (rangeAddPublic sched) (publicSubnets v)))
         (declare
            (autoAllocated_decls v ++ gateway_decls v ++ public_decls sched v)
            s)).
Proof.
  intros Hid Hfp Hnat Hgw Hvalid.
  rewrite addResources_publicSide by done.
  rewrite (bind_returns _ _ _ _ _
             (addNATGateways_invalid v nat mode _ Hnat Hgw Hvalid)).
  reflexivity.
Qed.

(* ===================================================================== *)
(** ** Whole builds *)
(* ===================================================================== *)

Lemma build_fullyPrivate sched fuel rs0 cfg ec2 :
  api.VPC_ID (api.VPC cfg) = "" ->
  api.Enabled (api.PrivateCluster_ cfg) = true ->
  exists s',
    build sched fuel rs0 cfg ec2
    = Returns (Some (gfnt.MakeRef "VPC"), Some (subnetDetails s'), None) s'
    /\ resources (rs s')
       = resources rs0 ++ fullyPrivate_decls sched (createReceiver cfg ec2)
    /\ subnetDetails s'
       = {| Private :=
              map (subnetResource api.SubnetTopologyPrivate None)
                (range (rangeAddPrivate sched)
                   (privateSubnets (createReceiver cfg ec2)));
            Public := [] |}.
Proof.
  intros Hid Hfp. unfold build.
  rewrite NewIPv4VPCResourceSet_create by done.
  unfold CreateTemplate.
  rewrite (bind_returns _ _ _ _ _
             (addResources_fullyPrivate sched fuel (createReceiver cfg ec2)
                _ Hid Hfp)).
  rewrite (bind_returns _ _ _ _ _ (addOutputs_returns _ _)).
  repeat step'.
  eexists. split; [reflexivity|]. split; [|reflexivity].
  simpl. unfold fullyPrivate_decls, vpc_decls.
  rewrite <- !app_assoc. reflexivity.
Qed.

Lemma build_gatewayed sched fuel rs0 cfg ec2 nat mode :
  api.VPC_ID (api.VPC cfg) = "" ->
  api.Enabled (api.PrivateCluster_ cfg) = false ->
  api.NAT (api.VPC cfg) = Some nat ->
  api.Gateway nat = Some mode ->
  validNATMode mode = true ->
  (mode = api.ClusterSingleNAT -> api.AvailabilityZones cfg <> []) ->
  exists s',
    build sched fuel rs0 cfg ec2
    = Returns (Some (gfnt.MakeRef "VPC"), Some (subnetDetails s'), None) s'
    /\ resources (rs s')
       = resources rs0
         ++ gatewayed_decls sched (createReceiver cfg ec2) mode
    /\ subnetDetails s'
       = {| Private :=
              map (subnetResource api.SubnetTopologyPrivate None)
                (range (rangeAddPrivate sched)
                   (privateSubnets (createReceiver cfg ec2)));
            Public :=
              map (subnetResource api.SubnetTopologyPublic
                     (Some (gfnt.MakeRef "PublicRouteTable")))
                (range (rangeAddPublic sched)
                   (publicSubnets (createReceiver cfg ec2))) |}.
Proof.
  intros Hid Hfp Hnat Hgw Hvalid Hzones. unfold build.
  rewrite NewIPv4VPCResourceSet_create by done.
  unfold CreateTemplate.
  rewrite (bind_returns _ _ _ _ _
             (addResources_gatewayed sched fuel (createReceiver cfg ec2)
                nat mode _ Hid Hfp Hnat Hgw Hvalid Hzones)).
  rewrite (bind_returns _ _ _ _ _ (addOutputs_returns _ _)).
  repeat step'.
  eexists. split; [reflexivity|]. split; [|reflexivity].
  simpl. unfold gatewayed_decls, publicSide_decls, vpc_decls.
  rewrite <- !app_assoc. reflexivity.
Qed.

Lemma build_invalidMode sched fuel rs0 cfg ec2 nat mode :
  api.VPC_ID (api.VPC cfg) = "" ->
  api.Enabled (api.PrivateCluster_ cfg) = false ->
  api.NAT (api.VPC cfg) = Some nat ->
  api.Gateway nat = Some mode ->
  validNATMode mode = false ->
  exists s',
    build sched fuel rs0 cfg ec2
    = Returns
        (None, None,
         Some (Errorf "%s is not a valid NAT gateway mode" [mode])) s'
    /\ resources (rs s')
       = resources rs0 ++ publicSide_decls sched (createReceiver cfg ec2).
Proof.
  intros Hid Hfp Hnat Hgw Hvalid. unfold build.
  rewrite NewIPv4VPCResourceSet_create by done.
  unfold CreateTemplate.
  rewrite (bind_returns _ _ _ _ _
             (addResources_invalidMode sched fuel (createReceiver cfg ec2)
                nat mode _ Hid Hfp Hnat Hgw Hvalid)).
  eexists. split; [reflexivity|].
  simpl. unfold publicSide_decls, vpc_decls.
  rewrite <- !app_assoc. reflexivity.
Qed.

(** ** Facts on lists of declarations *)

Lemma Forall_flat_map {A B} (P : B -> Prop) (f : A -> list B) (l : list A) :
  (forall x, Forall P (f x)) -> Forall P (flat_map f l).
Proof.
  intros Hf. induction l as [|x l IH]; simpl.
  - constructor.
  - apply Forall_app. split; [apply Hf | apply IH].
Qed.

Lemma Forall_addSubnets_decls (P : decl -> Prop) v topology refRT :
  (forall index name subnet,
      Forall P (subnet_decls v topology refRT index name subnet)) ->
  forall subnets index,
    Forall P (addSubnets_decls v topology refRT index subnets).
Proof.
  intros Hone. induction subnets as [|[name subnet] rest IH]; intros index.
  - constructor.
  - cbn [addSubnets_decls]. apply Forall_app. split; [apply Hone | apply IH].
Qed.

Lemma filter_flat_map_decls {A} (P : decl -> bool) (f : A -> list decl)
    (g : A -> list decl) (l : list A) :
  (forall x, List.filter P (f x) = g x) ->
  List.filter P (flat_map f l) = flat_map g l.
Proof.
  intros Hf. induction l as [|x l IH]; simpl.
  - reflexivity.
  - by rewrite List.filter_app, Hf, IH.
Qed.

Lemma filter_none (P : decl -> bool) (l : list decl) :
  Forall (fun d => P d = false) l -> List.filter P l = [].
Proof.
  induction 1 as [|d l Hd _ IH]; simpl; [reflexivity|]. by rewrite Hd.
Qed.

Lemma Forall_forallb {A} (P : A -> bool) (l : list A) :
  Forall (fun x => P x = true) l <-> forallb P l = true.
Proof.
  induction l as [|x l IH]; simpl.
  - split; [reflexivity | constructor].
  - rewrite Forall_cons, andb_true_iff, IH. reflexivity.
Qed.

(* ===================================================================== *)
(** ** Which kinds each part of a build declares *)
(* ===================================================================== *)

Lemma flat_map_singleton {A B} (h : A -> B) (l : list A) :
  flat_map (fun x => [h x]) l = map h l.
Proof. induction l as [|x l IH]; simpl; by rewrite ?IH. Qed.

Lemma flat_map_empty {A B} (l : list A) :
  flat_map (fun _ => @nil B) l = [].
Proof. induction l as [|x l IH]; simpl; by rewrite ?IH. Qed.

Lemma filter_addSubnets_decls_none (P : decl -> bool) v topology refRT :
  (forall index name subnet,
      Forall (fun d => P d = false)
        (subnet_decls v topology refRT index name subnet)) ->
  forall subnets index,
    List.filter P (addSubnets_decls v topology refRT index subnets) = [].
Proof.
  intros Hone subnets index. apply filter_none.
  by apply Forall_addSubnets_decls.
Qed.

(** The allocator declares subnets, associations and secondary blocks
    only. *)
Lemma subnet_decls_no_nat_kind v topology refRT index name subnet :
  Forall (fun d => isEIP d = false /\ isNatGateway d = false
                   /\ isPrivateRouteTable d = false
                   /\ isPrivateRoute d = false
                   /\ isInternetGateway d = false)
    (subnet_decls v topology refRT index name subnet).
Proof.
  unfold subnet_decls. destruct (autoIPv6 v); repeat constructor.
Qed.

Lemma addSubnets_decls_no_nat_kind v topology refRT index subnets :
  Forall (fun d => isEIP d = false /\ isNatGateway d = false
                   /\ isPrivateRouteTable d = false
                   /\ isPrivateRoute d = false
                   /\ isInternetGateway d = false)
    (addSubnets_decls v topology refRT index subnets).
Proof.
  apply Forall_addSubnets_decls. intros. apply subnet_decls_no_nat_kind.
Qed.

Lemma filter_addSubnets_decls_nat_kind v topology refRT index subnets :
  List.filter isEIP (addSubnets_decls v topology refRT index subnets) = []
  /\ List.filter isNatGateway
       (addSubnets_decls v topology refRT index subnets) = []
  /\ List.filter isPrivateRouteTable
       (addSubnets_decls v topology refRT index subnets) = []
  /\ List.filter isPrivateRoute
       (addSubnets_decls v topology refRT index subnets) = [].
Proof.
  pose proof (addSubnets_decls_no_nat_kind v topology refRT index subnets)
    as H.
  repeat split; apply filter_none; eapply Forall_impl; try exact H;
    intros d Hd; simpl in Hd; tauto.
Qed.

Lemma haNAT_private_route_tables v :
  List.filter isPrivateRouteTable (haNAT_decls v)
  = map (privateRouteTable v) (zones v).
Proof.
  unfold haNAT_decls.
  rewrite (filter_flat_map_decls _ _ (fun az => [privateRouteTable v az]))
    by reflexivity.
  apply flat_map_singleton.
Qed.

Lemma noNAT_private_route_tables v :
  List.filter isPrivateRouteTable (noNAT_decls v)
  = map (privateRouteTable v) (zones v).
Proof.
  unfold noNAT_decls.
  rewrite (filter_flat_map_decls _ _ (fun az => [privateRouteTable v az]))
    by reflexivity.
  apply flat_map_singleton.
Qed.

Lemma singleNAT_private_route_tables v first :
  List.filter isPrivateRouteTable (singleNAT_decls v first)
  = map (privateRouteTable v) (zones v).
Proof.
  unfold singleNAT_decls. rewrite List.filter_app.
  rewrite (filter_flat_map_decls _ _ (fun az => [privateRouteTable v az]))
    by reflexivity.
  apply flat_map_singleton.
Qed.

Lemma nat_decls_private_route_tables v mode :
  validNATMode mode = true ->
  (mode = api.ClusterSingleNAT -> zones v <> []) ->
  List.filter isPrivateRouteTable (nat_decls v mode)
  = map (privateRouteTable v) (zones v).
Proof.
  unfold validNATMode, nat_decls. intros Hvalid Hzones.
  destruct (String.eqb_spec mode api.ClusterHighlyAvailableNAT).
  { apply haNAT_private_route_tables. }
  destruct (String.eqb_spec mode api.ClusterSingleNAT) as [Hs|].
  { destruct (zones v) as [|first rest] eqn:Hz; [by destruct (Hzones Hs)|].
    rewrite <- Hz. apply singleNAT_private_route_tables. }
  destruct (String.eqb_spec mode api.ClusterDisableNAT); [|done].
  apply noNAT_private_route_tables.
Qed.

Lemma vpc_decls_private_route_tables v :
  List.filter isPrivateRouteTable (vpc_decls v) = [].
Proof.
  unfold vpc_decls, autoAllocated_decls. by destruct (autoIPv6 v).
Qed.

Lemma fullyPrivate_private_route_tables sched v :
  List.filter isPrivateRouteTable (fullyPrivate_decls sched v)
  = map (privateRouteTable v) (zones v).
Proof.
  unfold fullyPrivate_decls, private_decls.
  rewrite !List.filter_app, vpc_decls_private_route_tables,
    noNAT_private_route_tables.
  destruct (filter_addSubnets_decls_nat_kind v api.SubnetTopologyPrivate None
              (firstIndex v api.SubnetTopologyPrivate)
              (range (rangeAddPrivate sched) (privateSubnets v)))
    as (_ & _ & -> & _).
  simpl. by rewrite app_nil_r.
Qed.

Lemma gatewayed_private_route_tables sched v mode :
  validNATMode mode = true ->
  (mode = api.ClusterSingleNAT -> zones v <> []) ->
  List.filter isPrivateRouteTable (gatewayed_decls sched v mode)
  = map (privateRouteTable v) (zones v).
Proof.
  intros Hvalid Hzones.
  unfold gatewayed_decls, publicSide_decls, public_decls, private_decls.
  rewrite !List.filter_app, vpc_decls_private_route_tables,
    nat_decls_private_route_tables by done.
  destruct (filter_addSubnets_decls_nat_kind v api.SubnetTopologyPrivate None
              (firstIndex v api.SubnetTopologyPrivate)
              (range (rangeAddPrivate sched) (privateSubnets v)))
    as (_ & _ & -> & _).
  destruct (filter_addSubnets_decls_nat_kind v api.SubnetTopologyPublic
              (Some (gfnt.MakeRef "PublicRouteTable"))
              (firstIndex v api.SubnetTopologyPublic)
              (range (rangeAddPublic sched) (publicSubnets v)))
    as (_ & _ & -> & _).
  simpl. by rewrite app_nil_r.
Qed.

(* ===================================================================== *)
(** ** C1: what a fully-private build declares *)
(* ===================================================================== *)

Lemma noNAT_zone_kinds v az :
  Forall (fun d => fullyPrivateKind d = true) (noNAT_zone v az).
Proof. repeat constructor. Qed.

Lemma private_subnet_kinds v refRT index name subnet :
  Forall (fun d => fullyPrivateKind d || (autoIPv6 v && secondaryBlockKind d)
                   = true)
    (subnet_decls v api.SubnetTopologyPrivate refRT index name subnet).
Proof.
  unfold subnet_decls. destruct (autoIPv6 v); repeat constructor.
Qed.

Lemma fullyPrivate_decls_kinds sched v :
  Forall (fun d => fullyPrivateKind d || (autoIPv6 v && secondaryBlockKind d)
                   = true)
    (fullyPrivate_decls sched v).
Proof.
  unfold fullyPrivate_decls, vpc_decls, autoAllocated_decls.
  apply Forall_cons. split; [reflexivity|].
  apply Forall_app. split.
  { destruct (autoIPv6 v); repeat constructor. }
  apply Forall_app. split.
  - apply Forall_flat_map. intros az.
    eapply Forall_impl; [apply noNAT_zone_kinds|].
    intros d Hd. simpl in Hd. by rewrite Hd.
  - apply Forall_addSubnets_decls. intros. apply private_subnet_kinds.
Qed.

Lemma listed_kinds_exclude flag d :
  fullyPrivateKind d || (flag && secondaryBlockKind d) = true ->
  isInternetGateway d = false /\ isNatGateway d = false
  /\ isEIP d = false /\ isPublicSubnet d = false.
Proof.
  destruct d as [name r].
  unfold fullyPrivateKind, secondaryBlockKind, isInternetGateway,
    isNatGateway, isEIP, isPublicSubnet.
  destruct r; simpl; rewrite ?andb_false_r, ?orb_false_r;
    try discriminate; try (intros _; done).
  intros ->. done.
Qed.

(** C1, as amended: a fully-private build that creates its VPC returns, and
    everything it declares is the VPC, a private route table, a private
    subnet, a route-table association or, only when secondary address
    blocks are auto-allocated, the association of such a block with the VPC
    or with a subnet; so it declares no internet gateway, no NAT gateway,
    no elastic address and no public subnet; and its private route tables
    are one per availability zone. *)
Theorem fullyPrivate_build_declarations sched fuel rs0 cfg ec2 :
  api.VPC_ID (api.VPC cfg) = "" ->
  api.Enabled (api.PrivateCluster_ cfg) = true ->
  exists res s' delta,
    build sched fuel rs0 cfg ec2 = Returns res s'
    /\ resources (rs s') = resources rs0 ++ delta
    /\ Forall (fun d =>
                 fullyPrivateKind d
                 || (api.IsEnabled (api.AutoAllocateIPv6 (api.VPC cfg))
                     && secondaryBlockKind d) = true) delta
    /\ Forall (fun d =>
                 isInternetGateway d = false /\ isNatGateway d = false
                 /\ isEIP d = false /\ isPublicSubnet d = false) delta
    /\ List.filter isPrivateRouteTable delta
       = map (fun az =>
                ("PrivateRouteTable" +:+ formatAZ az,
                 gfnec2.RouteTable (gfnt.MakeRef "VPC")))
           (api.AvailabilityZones cfg).
Proof.
  intros Hid Hfp.
  destruct (build_fullyPrivate sched fuel rs0 cfg ec2 Hid Hfp)
    as (s' & Hbuild & Hres & _).
  exists (Some (gfnt.MakeRef "VPC"), Some (subnetDetails s'), None), s',
    (fullyPrivate_decls sched (createReceiver cfg ec2)).
  split; [exact Hbuild|]. split; [exact Hres|].
  pose proof (fullyPrivate_decls_kinds sched (createReceiver cfg ec2)) as Hk.
  split; [exact Hk|]. split.
  - eapply Forall_impl; [exact Hk|].
    intros d Hd. eapply listed_kinds_exclude. exact Hd.
  - apply fullyPrivate_private_route_tables.
Qed.

Lemma fullyPrivate_build_declarations_witness :
  exists res s' delta,
    build (sameOrder inOrder) 0 emptyResourceSet
      (exampleConfig true None None) offlineAPI = Returns res s'
    /\ resources (rs s') = resources emptyResourceSet ++ delta
    /\ Forall (fun d =>
                 fullyPrivateKind d
                 || (api.IsEnabled
                       (api.AutoAllocateIPv6
                          (api.VPC (exampleConfig true None None)))
                     && secondaryBlockKind d) = true) delta
    /\ Forall (fun d =>
                 isInternetGateway d = false /\ isNatGateway d = false
                 /\ isEIP d = false /\ isPublicSubnet d = false) delta
    /\ List.filter isPrivateRouteTable delta
       = map (fun az =>
                ("PrivateRouteTable" +:+ formatAZ az,
                 gfnec2.RouteTable (gfnt.MakeRef "VPC")))
           (api.AvailabilityZones (exampleConfig true None None)).
Proof.
  apply (fullyPrivate_build_declarations (sameOrder inOrder) 0
           emptyResourceSet (exampleConfig true None None) offlineAPI);
    reflexivity.
Defined.

(** C1 as the specification words it fails: with secondary address blocks
    auto-allocated, a fully-private build also declares the associations of
    those blocks, which are none of the listed kinds. *)
Lemma fullyPrivate_build_only_listed_kinds_counterexample :
  api.VPC_ID (api.VPC (exampleConfig true None (Some true))) = ""
  /\ api.Enabled (api.PrivateCluster_ (exampleConfig true None (Some true)))
     = true
  /\ ~ Forall (fun d => fullyPrivateKind d = true)
         (declared
            (build (sameOrder inOrder) 0 emptyResourceSet
               (exampleConfig true None (Some true)) offlineAPI)).
Proof.
  split; [reflexivity|]. split; [reflexivity|].
  rewrite Forall_forallb. vm_compute. discriminate.
Qed.

(* ===================================================================== *)
(** ** C6: the index of a subnet's secondary address block *)
(* ===================================================================== *)

Lemma filter_cidr_addSubnets_decls v topology refRT subnets :
  autoIPv6 v = true ->
  forall index,
    List.filter isSubnetCidrBlock
      (addSubnets_decls v topology refRT index subnets)
    = imap (fun k entry =>
              subnetCIDRv6 v topology (index + Z.of_nat k) (fst entry))
        subnets.
Proof.
  intros Hv6.
  induction subnets as [|[name subnet] rest IH]; intros index.
  - reflexivity.
  - cbn [addSubnets_decls]. unfold subnet_decls. rewrite Hv6.
    rewrite List.filter_app, IH. simpl.
    rewrite Z.add_0_r. f_equal.
    apply imap_ext. intros k entry _. simpl.
    f_equal. lia.
Qed.

(** C6: when secondary address blocks are auto-allocated, every subnet a
    pass of the allocator processes gets one secondary CIDR association,
    which selects from the pool of size 2 * zoneCount + 2; the first
    private subnet processed selects index zoneCount, the first public
    subnet index 0, and each further subnet of the pass the next index. *)
Theorem addSubnets_secondary_block_indices g v refRT topology subnets s :
  api.IsEnabled (api.AutoAllocateIPv6 (api.VPC (clusterConfig v))) = true ->
  exists srs s' delta,
    addSubnets g v refRT topology subnets s = Returns srs s'
    /\ resources (rs s') = resources (rs s) ++ delta
    /\ List.filter isSubnetCidrBlock delta
       = imap (fun k entry =>
                 (subnetAlias topology (fst entry) +:+ "CIDRv6",
                  gfnec2.SubnetCidrBlock
                    (gfnt.MakeRef ("Subnet" +:+ subnetAlias topology (fst entry)))
                    (gfnt.MakeFnSelect
                       (gfnt.NewInteger
                          (match topology with
                           | api.SubnetTopologyPrivate =>
                               Z.of_nat
                                 (length
                                    (api.AvailabilityZones (clusterConfig v)))
                           | api.SubnetTopologyPublic => 0
                           end + Z.of_nat k))
                       (getSubnetIPv6CIDRBlock
                          (2 * Z.of_nat
                                 (length
                                    (api.AvailabilityZones (clusterConfig v)))
                           + 2)))))
           (range g subnets).
Proof.
  intros Hv6.
  eexists _, _, _. split; [apply addSubnets_returns|].
  split; [reflexivity|].
  rewrite filter_cidr_addSubnets_decls by exact Hv6.
  apply imap_ext. intros k entry _.
  unfold subnetCIDRv6, firstIndex, autoIPv6, zones. rewrite Hv6.
  cbv beta. do 4 f_equal. lia.
Qed.

Lemma addSubnets_secondary_block_indices_witness :
  api.IsEnabled
    (api.AutoAllocateIPv6
       (api.VPC (clusterConfig (exampleReceiver "Single" (Some true)))))
  = true
  /\ exists srs s' delta,
      addSubnets inOrder (exampleReceiver "Single" (Some true)) None
        api.SubnetTopologyPrivate (Some exampleSubnets)
        (initialStore emptyResourceSet) = Returns srs s'
      /\ resources (rs s') = [] ++ delta
      /\ map fst (List.filter isSubnetCidrBlock delta)
         = ["PrivateUSEAST1ACIDRv6"; "PrivateUSEAST1BCIDRv6"]
      /\ map snd (List.filter isSubnetCidrBlock delta)
         = [gfnec2.SubnetCidrBlock (gfnt.MakeRef "SubnetPrivateUSEAST1A")
              (gfnt.MakeFnSelect (gfnt.NewInteger 2)
                 (getSubnetIPv6CIDRBlock 6));
            gfnec2.SubnetCidrBlock (gfnt.MakeRef "SubnetPrivateUSEAST1B")
              (gfnt.MakeFnSelect (gfnt.NewInteger 3)
                 (getSubnetIPv6CIDRBlock 6))].
Proof.
  split; [reflexivity|].
  destruct (addSubnets_secondary_block_indices inOrder
              (exampleReceiver "Single" (Some true)) None
              api.SubnetTopologyPrivate (Some exampleSubnets)
              (initialStore emptyResourceSet) eq_refl)
    as (srs & s' & delta & Hrun & Hres & Hsel).
  exists srs, s', delta.
  split; [exact Hrun|]. split; [exact Hres|].
  rewrite Hsel. split; vm_compute; reflexivity.
Defined.

(* ===================================================================== *)
(** ** C3: the route table of a private subnet *)
(* ===================================================================== *)

Lemma elem_of_addSubnets_decls v topology refRT name subnet subnets :
  (name, subnet) ∈ subnets ->
  forall index,
    exists index',
      subnet_decls v topology refRT index' name subnet
      ⊆ addSubnets_decls v topology refRT index subnets.
Proof.
  induction subnets as [|[n sub] rest IH]; intros Hin index.
  - by apply elem_of_nil in Hin.
  - cbn [addSubnets_decls]. apply elem_of_cons in Hin as [Heq|Hin].
    + inversion Heq; subst. exists index.
      intros d Hd. apply elem_of_app. by left.
    + destruct (IH Hin (if autoIPv6 v then index + 1 else index))
        as [index' Hsub].
      exists index'. intros d Hd. apply elem_of_app. right. by apply Hsub.
Qed.

Lemma privateRouteTable_in_flat_map (f : string -> list decl) zs az d :
  az ∈ zs -> d ∈ f az -> d ∈ flat_map f zs.
Proof.
  intros Haz Hd. apply list_elem_of_In, in_flat_map.
  exists az. split; by apply list_elem_of_In.
Qed.

(** C3, as amended: for every private subnet the allocator processes, the
    route table recorded in its association and in its [SubnetResource]
    is, whatever reference was passed in, the by-name reference
    [PrivateRouteTable<alias>] whose alias is derived from the subnet's
    logical name, the key of the mapping; and for every availability zone
    of the build each NAT strategy that returns has declared that zone's
    private route table as [PrivateRouteTable<alias of the zone>], so the
    two names agree for a subnet keyed by its zone's name. *)
Theorem private_subnet_route_table g v refRT subnets s :
  exists srs s' delta,
    addSubnets g v refRT api.SubnetTopologyPrivate subnets s = Returns srs s'
    /\ resources (rs s') = resources (rs s) ++ delta
    /\ srs
       = map (fun entry =>
                {| AvailabilityZone := api.AZ (snd entry);
                   RouteTable :=
                     Some (gfnt.MakeRef
                             ("PrivateRouteTable" +:+ formatAZ (fst entry)));
                   Subnet :=
                     Some (gfnt.MakeRef
                             ("SubnetPrivate" +:+ formatAZ (fst entry))) |})
           (range g subnets)
    /\ (forall entry,
          entry ∈ range g subnets ->
          ("RouteTableAssociationPrivate" +:+ formatAZ (fst entry),
           gfnec2.SubnetRouteTableAssociation
             (gfnt.MakeRef ("SubnetPrivate" +:+ formatAZ (fst entry)))
             (Some (gfnt.MakeRef
                      ("PrivateRouteTable" +:+ formatAZ (fst entry)))))
          ∈ delta)
    /\ (forall az s0,
          az ∈ api.AvailabilityZones (clusterConfig v) ->
          forall strategy,
            strategy ∈ [haNAT; singleNAT; noNAT] ->
            exists s1 declared,
              strategy v s0 = Returns tt s1
              /\ resources (rs s1) = resources (rs s0) ++ declared
              /\ ("PrivateRouteTable" +:+ formatAZ az,
                  gfnec2.RouteTable (vpcID v)) ∈ declared).
Proof.
  eexists _, _, _. split; [apply addSubnets_returns|].
  split; [reflexivity|]. split; [reflexivity|]. split.
  - intros [name subnet] Hin.
    destruct (elem_of_addSubnets_decls v api.SubnetTopologyPrivate refRT
                name subnet _ Hin (firstIndex v api.SubnetTopologyPrivate))
      as [index' Hsub].
    apply Hsub. unfold subnet_decls.
    apply elem_of_app. left. apply elem_of_cons. right.
    apply elem_of_cons. left. reflexivity.
  - intros az s0 Haz strategy Hstrategy.
    repeat (apply elem_of_cons in Hstrategy as [->|Hstrategy]).
    + eexists _, _. split; [apply haNAT_returns|]. split; [reflexivity|].
      apply (privateRouteTable_in_flat_map _ _ az); [exact Haz|].
      unfold haNAT_zone. do 2 (apply elem_of_cons; right).
      apply elem_of_cons. by left.
    + destruct (zones v) as [|first rest] eqn:Hz.
      { unfold zones in Hz. rewrite Hz in Haz. by apply elem_of_nil in Haz. }
      eexists _, _. split; [by eapply singleNAT_returns|].
      split; [reflexivity|].
      unfold singleNAT_decls. apply elem_of_app. right.
      apply (privateRouteTable_in_flat_map _ _ az); [exact Haz|].
      unfold singleNAT_zone. apply elem_of_cons. by left.
    + eexists _, _. split; [apply noNAT_returns|]. split; [reflexivity|].
      apply (privateRouteTable_in_flat_map _ _ az); [exact Haz|].
      unfold noNAT_zone. apply elem_of_cons. by left.
    + by apply elem_of_nil in Hstrategy.
Qed.

Lemma private_subnet_route_table_witness :
  exists srs s' delta,
    addSubnets inOrder (exampleReceiver "Disabled" None)
      (Some (gfnt.MakeRef "PublicRouteTable")) api.SubnetTopologyPrivate
      (Some exampleSubnets) (initialStore emptyResourceSet) = Returns srs s'
    /\ resources (rs s') = delta
    /\ map RouteTable srs
       = [Some (gfnt.MakeRef "PrivateRouteTableUSEAST1A");
          Some (gfnt.MakeRef "PrivateRouteTableUSEAST1B")]
    /\ ("RouteTableAssociationPrivateUSEAST1A",
        gfnec2.SubnetRouteTableAssociation
          (gfnt.MakeRef "SubnetPrivateUSEAST1A")
          (Some (gfnt.MakeRef "PrivateRouteTableUSEAST1A"))) ∈ delta
    /\ exists s1 declared,
        noNAT (exampleReceiver "Disabled" None)
          (initialStore emptyResourceSet) = Returns tt s1
        /\ resources (rs s1) = declared
        /\ ("PrivateRouteTableUSEAST1A",
            gfnec2.RouteTable (gfnt.MakeRef "VPC")) ∈ declared.
Proof.
  destruct (private_subnet_route_table inOrder
              (exampleReceiver "Disabled" None)
              (Some (gfnt.MakeRef "PublicRouteTable")) (Some exampleSubnets)
              (initialStore emptyResourceSet))
    as (srs & s' & delta & Hrun & Hres & Hsrs & Hassoc & Hnat).
  exists srs, s', delta. split; [exact Hrun|]. split; [exact Hres|].
  split; [rewrite Hsrs; vm_compute; reflexivity|]. split.
  - apply (Hassoc ("us-east-1a",
                   exampleSubnet "" "us-east-1a" "10.0.0.0/19")).
    vm_compute. apply elem_of_cons. left. reflexivity.
  - destruct (Hnat "us-east-1a" (initialStore emptyResourceSet))
      with (strategy := noNAT) as (s1 & declared & Hs1 & Hd & Hin).
    + apply elem_of_cons. left. reflexivity.
    + do 2 (apply elem_of_cons; right). apply elem_of_cons. left.
      reflexivity.
    + exists s1, declared. split; [exact Hs1|]. split; [exact Hd|exact Hin].
Defined.

(** C3 as the specification words it fails: a private subnet whose logical
    name differs from its zone's name is wired to a route table named after
    the logical name, not after the zone. *)
Lemma private_subnet_route_table_by_zone_counterexample :
  exists srs s',
    addSubnets inOrder (exampleReceiver "Disabled" None) None
      api.SubnetTopologyPrivate (Some namedSubnets)
      (initialStore emptyResourceSet) = Returns srs s'
    /\ ~ Forall2 routeTableByZone (range inOrder (Some namedSubnets)) srs.
Proof.
  eexists _, _. split; [vm_compute; reflexivity|].
  intros H. vm_compute in H. inversion H as [|? ? ? ? Hhead _]; subst.
  vm_compute in Hhead. discriminate.
Qed.

(* ===================================================================== *)
(** ** C5: private route tables per zone *)
(* ===================================================================== *)

(** C5, as amended: a build that creates its VPC, whether fully private or
    gatewayed in one of the three NAT modes (Single with a zone to put the
    gateway in), returns and declares exactly one private route table per
    availability zone, named after the zone; Single mode is no exception:
    it declares one table per zone as well, not one shared table. *)
Theorem private_route_tables_per_zone sched fuel rs0 cfg ec2 :
  api.VPC_ID (api.VPC cfg) = "" ->
  (api.Enabled (api.PrivateCluster_ cfg) = true
   \/ exists nat mode,
        api.Enabled (api.PrivateCluster_ cfg) = false
        /\ api.NAT (api.VPC cfg) = Some nat
        /\ api.Gateway nat = Some mode
        /\ mode ∈ [api.ClusterHighlyAvailableNAT; api.ClusterSingleNAT;
                   api.ClusterDisableNAT]
        /\ (mode = api.ClusterSingleNAT -> api.AvailabilityZones cfg <> [])) ->
  exists res s' delta,
    build sched fuel rs0 cfg ec2 = Returns res s'
    /\ resources (rs s') = resources rs0 ++ delta
    /\ List.filter isPrivateRouteTable delta
       = map (fun az =>
                ("PrivateRouteTable" +:+ formatAZ az,
                 gfnec2.RouteTable (gfnt.MakeRef "VPC")))
           (api.AvailabilityZones cfg)
    /\ length (List.filter isPrivateRouteTable delta)
       = length (api.AvailabilityZones cfg).
Proof.
  intros Hid [Hfp | (nat & mode & Hfp & Hnat & Hgw & Hmode & Hzones)].
  - destruct (build_fullyPrivate sched fuel rs0 cfg ec2 Hid Hfp)
      as (s' & Hbuild & Hres & _).
    eexists _, s', _. split; [exact Hbuild|]. split; [exact Hres|].
    rewrite fullyPrivate_private_route_tables.
    split; [reflexivity|]. by rewrite length_map.
  - assert (Hvalid : validNATMode mode = true).
    { repeat (apply elem_of_cons in Hmode as [->|Hmode]);
        [reflexivity..|by apply elem_of_nil in Hmode]. }
    destruct (build_gatewayed sched fuel rs0 cfg ec2 nat mode
                Hid Hfp Hnat Hgw Hvalid Hzones)
      as (s' & Hbuild & Hres & _).
    eexists _, s', _. split; [exact Hbuild|]. split; [exact Hres|].
    rewrite gatewayed_private_route_tables by done.
    split; [reflexivity|]. by rewrite length_map.
Qed.

Lemma private_route_tables_per_zone_witness :
  api.VPC_ID (api.VPC (exampleConfig false (natMode "Single") None)) = ""
  /\ exists res s' delta,
      build (sameOrder inOrder) 0 emptyResourceSet
        (exampleConfig false (natMode "Single") None) offlineAPI
      = Returns res s'
      /\ resources (rs s') = resources emptyResourceSet ++ delta
      /\ List.filter isPrivateRouteTable delta
         = map (fun az =>
                  ("PrivateRouteTable" +:+ formatAZ az,
                   gfnec2.RouteTable (gfnt.MakeRef "VPC")))
             (api.AvailabilityZones
                (exampleConfig false (natMode "Single") None))
      /\ length (List.filter isPrivateRouteTable delta)
         = length (api.AvailabilityZones
                     (exampleConfig false (natMode "Single") None)).
Proof.
  split; [reflexivity|].
  apply (private_route_tables_per_zone (sameOrder inOrder) 0
           emptyResourceSet (exampleConfig false (natMode "Single") None)
           offlineAPI); [reflexivity|].
  right. exists {| api.Gateway := Some "Single" |}, "Single".
  split; [reflexivity|]. split; [reflexivity|]. split; [reflexivity|].
  split; [|discriminate].
  apply elem_of_cons. right. apply elem_of_cons. left. reflexivity.
Defined.

(** C5 as the specification words it fails: a Single-NAT build over two
    zones declares two private route tables, not exactly one. *)
Lemma single_nat_one_shared_route_table_counterexample :
  api.Gateway {| api.Gateway := Some api.ClusterSingleNAT |}
  = Some api.ClusterSingleNAT
  /\ length
       (List.filter isPrivateRouteTable
          (declared
             (build (sameOrder inOrder) 0 emptyResourceSet
                (exampleConfig false (natMode api.ClusterSingleNAT) None)
                offlineAPI)))
     = 2%nat
  /\ length
       (List.filter isPrivateRouteTable
          (declared
             (build (sameOrder inOrder) 0 emptyResourceSet
                (exampleConfig false (natMode api.ClusterSingleNAT) None)
                offlineAPI)))
     <> 1%nat.
Proof.
  split; [reflexivity|]. split; [vm_compute; reflexivity|].
  vm_compute. discriminate.
Qed.

(* ===================================================================== *)
(** ** C7: a NAT mode outside the three *)
(* ===================================================================== *)

Lemma publicSide_decls_no_nat_resource sched v :
  Forall (fun d => isNATResource d = false) (publicSide_decls sched v).
Proof.
  unfold publicSide_decls, vpc_decls, autoAllocated_decls, public_decls.
  apply Forall_cons. split; [reflexivity|].
  apply Forall_app. split.
  { destruct (autoIPv6 v); repeat constructor. }
  apply Forall_app. split.
  { repeat constructor. }
  apply Forall_addSubnets_decls. intros index name subnet.
  unfold subnet_decls. destruct (autoIPv6 v); repeat constructor.
Qed.

Lemma validNATMode_elem_of mode :
  validNATMode mode = true
  <-> mode ∈ [api.ClusterHighlyAvailableNAT; api.ClusterSingleNAT;
              api.ClusterDisableNAT].
Proof.
  unfold validNATMode. rewrite !orb_true_iff, !String.eqb_eq.
  rewrite !elem_of_cons, elem_of_nil. tauto.
Qed.

(** C7: in a gatewayed build that creates its VPC, a NAT mode outside
    HighlyAvailable, Single and Disabled makes the build return the
    configuration error that names the mode, and nothing declared up to
    that point is a NAT resource (elastic address, NAT gateway, private
    route table, private route, private association); the three modes
    themselves are all accepted: with one of them (and, for Single, a zone
    to put the gateway in) the build returns without an error. *)
Theorem invalid_nat_mode_is_rejected sched fuel rs0 cfg ec2 nat mode :
  api.VPC_ID (api.VPC cfg) = "" ->
  api.Enabled (api.PrivateCluster_ cfg) = false ->
  api.NAT (api.VPC cfg) = Some nat ->
  api.Gateway nat = Some mode ->
  (mode ∉ [api.ClusterHighlyAvailableNAT; api.ClusterSingleNAT;
           api.ClusterDisableNAT] ->
   exists s' delta,
     build sched fuel rs0 cfg ec2
     = Returns
         (None, None,
          Some (Errorf "%s is not a valid NAT gateway mode" [mode])) s'
     /\ resources (rs s') = resources rs0 ++ delta
     /\ Forall (fun d => isNATResource d = false) delta)
  /\ (mode ∈ [api.ClusterHighlyAvailableNAT; api.ClusterSingleNAT;
              api.ClusterDisableNAT] ->
      (mode = api.ClusterSingleNAT -> api.AvailabilityZones cfg <> []) ->
      exists vpcRef details s',
        build sched fuel rs0 cfg ec2
        = Returns (Some vpcRef, Some details, None) s').
Proof.
  intros Hid Hfp Hnat Hgw. split.
  - intros Hmode.
    assert (Hvalid : validNATMode mode = false).
    { destruct (validNATMode mode) eqn:E; [|reflexivity].
      by apply validNATMode_elem_of in E. }
    destruct (build_invalidMode sched fuel rs0 cfg ec2 nat mode
                Hid Hfp Hnat Hgw Hvalid) as (s' & Hbuild & Hres).
    exists s', (publicSide_decls sched (createReceiver cfg ec2)).
    split; [exact Hbuild|]. split; [exact Hres|].
    apply publicSide_decls_no_nat_resource.
  - intros Hmode Hzones. apply validNATMode_elem_of in Hmode.
    destruct (build_gatewayed sched fuel rs0 cfg ec2 nat mode
                Hid Hfp Hnat Hgw Hmode Hzones) as (s' & Hbuild & _).
    by eexists _, _, s'.
Qed.

Lemma invalid_nat_mode_is_rejected_witness :
  exists s' delta,
    build (sameOrder inOrder) 0 emptyResourceSet
      (exampleConfig false (natMode "Shared") None) offlineAPI
    = Returns
        (None, None,
         Some (Errorf "%s is not a valid NAT gateway mode" ["Shared"])) s'
    /\ resources (rs s') = resources emptyResourceSet ++ delta
    /\ Forall (fun d => isNATResource d = false) delta.
Proof.
  apply (invalid_nat_mode_is_rejected (sameOrder inOrder) 0 emptyResourceSet
           (exampleConfig false (natMode "Shared") None) offlineAPI
           {| api.Gateway := Some "Shared" |} "Shared");
    try reflexivity.
  intros Hin. repeat (apply elem_of_cons in Hin as [Hin|Hin]);
    [discriminate..|by apply elem_of_nil in Hin].
Defined.

(* ===================================================================== *)
(** ** C10: Single-NAT and the empty zone list *)
(* ===================================================================== *)

(** C10: the Single-NAT strategy reads the first availability zone before
    it declares anything and without a check: on an empty zone list it
    panics with an index out of range (and so does [addNATGateways] in
    Single mode) instead of returning an error, while the HighlyAvailable
    and Disabled strategies return on the empty list and declare nothing;
    on a non-empty list the Single-NAT strategy returns. *)
Theorem singleNAT_needs_a_zone v s :
  (api.AvailabilityZones (clusterConfig v) = [] ->
   singleNAT v s = Panics IndexOutOfRange
   /\ haNAT v s = Returns tt s
   /\ noNAT v s = Returns tt s
   /\ (forall nat,
         api.NAT (api.VPC (clusterConfig v)) = Some nat ->
         api.Gateway nat = Some api.ClusterSingleNAT ->
         addNATGateways v s = Panics IndexOutOfRange))
  /\ (api.AvailabilityZones (clusterConfig v) <> [] ->
      exists s', singleNAT v s = Returns tt s').
Proof.
  split.
  - intros Hz. split; [by apply singleNAT_panics|].
    split; [unfold haNAT; by rewrite Hz|].
    split; [unfold noNAT; by rewrite Hz|].
    intros nat Hnat Hgw. unfold addNATGateways.
    rewrite Hnat. simpl deref. step. rewrite Hgw. simpl deref. step.
    change (String.eqb api.ClusterSingleNAT api.ClusterHighlyAvailableNAT)
      with false.
    change (String.eqb api.ClusterSingleNAT api.ClusterSingleNAT) with true.
    cbv iota. apply bind_panics. by apply singleNAT_panics.
  - intros Hz.
    destruct (api.AvailabilityZones (clusterConfig v)) as [|first rest] eqn:E;
      [done|].
    eexists. by eapply singleNAT_returns.
Qed.

Lemma singleNAT_needs_a_zone_witness :
  singleNAT
    (createReceiver
       {| api.VPC := api.VPC (exampleConfig false (natMode "Single") None);
          api.PrivateCluster_ := {| api.Enabled := false |};
          api.AvailabilityZones := [] |} offlineAPI)
    (initialStore emptyResourceSet)
  = Panics IndexOutOfRange
  /\ exists s',
      singleNAT (exampleReceiver "Single" None)
        (initialStore emptyResourceSet) = Returns tt s'.
Proof.
  split.
  - apply (singleNAT_needs_a_zone
             (createReceiver
                {| api.VPC :=
                     api.VPC (exampleConfig false (natMode "Single") None);
                   api.PrivateCluster_ := {| api.Enabled := false |};
                   api.AvailabilityZones := [] |} offlineAPI)
             (initialStore emptyResourceSet)).
    reflexivity.
  - apply (singleNAT_needs_a_zone (exampleReceiver "Single" None)
             (initialStore emptyResourceSet)).
    discriminate.
Defined.

(* ===================================================================== *)
(** ** C8: the one gateway of Single-NAT mode *)
(* ===================================================================== *)

Lemma elem_of_range {V} (g : GoRange) (m : gmap string V) k x :
  m !! k = Some x -> (k, x) ∈ range g (Some m).
Proof.
  intros Hk. unfold range, entries.
  rewrite (order_perm g V (map_to_list m)).
  by apply elem_of_map_to_list.
Qed.

Lemma vpc_decls_kinds v :
  List.filter isEIP (vpc_decls v) = []
  /\ List.filter isNatGateway (vpc_decls v) = []
  /\ List.filter isPrivateRoute (vpc_decls v) = [].
Proof. unfold vpc_decls, autoAllocated_decls. by destruct (autoIPv6 v). Qed.

Lemma gateway_decls_kinds v :
  List.filter isEIP (gateway_decls v) = []
  /\ List.filter isNatGateway (gateway_decls v) = []
  /\ List.filter isPrivateRoute (gateway_decls v) = [].
Proof. done. Qed.

Lemma singleNAT_decls_kinds v first :
  List.filter isEIP (singleNAT_decls v first)
  = [("NATIP", gfnec2.EIP (gfnt.NewString "vpc"))]
  /\ List.filter isNatGateway (singleNAT_decls v first)
     = [("NATGateway",
         gfnec2.NatGateway (gfnt.MakeFnGetAttString "NATIP" "AllocationId")
           (gfnt.MakeRef ("SubnetPublic" +:+ formatAZ first)))]
  /\ List.filter isPrivateRoute (singleNAT_decls v first)
     = map sharedGatewayRoute (zones v).
Proof.
  unfold singleNAT_decls. rewrite !List.filter_app.
  rewrite (filter_flat_map_decls isEIP _ (fun _ => [])) by reflexivity.
  rewrite (filter_flat_map_decls isNatGateway _ (fun _ => []))
    by reflexivity.
  rewrite (filter_flat_map_decls isPrivateRoute _
             (fun az => [sharedGatewayRoute az])) by reflexivity.
  rewrite !flat_map_empty, flat_map_singleton. done.
Qed.

Lemma singleNAT_build_kinds sched v first rest :
  zones v = first :: rest ->
  List.filter isEIP (gatewayed_decls sched v api.ClusterSingleNAT)
  = [("NATIP", gfnec2.EIP (gfnt.NewString "vpc"))]
  /\ List.filter isNatGateway (gatewayed_decls sched v api.ClusterSingleNAT)
     = [("NATGateway",
         gfnec2.NatGateway (gfnt.MakeFnGetAttString "NATIP" "AllocationId")
           (gfnt.MakeRef ("SubnetPublic" +:+ formatAZ first)))]
  /\ List.filter isPrivateRoute
       (gatewayed_decls sched v api.ClusterSingleNAT)
     = map sharedGatewayRoute (first :: rest).
Proof.
  intros Hz.
  unfold gatewayed_decls, publicSide_decls, public_decls, private_decls.
  change (nat_decls v api.ClusterSingleNAT)
    with match zones v with
         | first :: _ => singleNAT_decls v first
         | [] => []
         end.
  rewrite Hz, <- Hz.
  rewrite !List.filter_app.
  destruct (vpc_decls_kinds v) as (-> & -> & ->).
  destruct (gateway_decls_kinds v) as (-> & -> & ->).
  destruct (singleNAT_decls_kinds v first) as (-> & -> & ->).
  destruct (filter_addSubnets_decls_nat_kind v api.SubnetTopologyPrivate None
              (firstIndex v api.SubnetTopologyPrivate)
              (range (rangeAddPrivate sched) (privateSubnets v)))
    as (-> & -> & _ & ->).
  destruct (filter_addSubnets_decls_nat_kind v api.SubnetTopologyPublic
              (Some (gfnt.MakeRef "PublicRouteTable"))
              (firstIndex v api.SubnetTopologyPublic)
              (range (rangeAddPublic sched) (publicSubnets v)))
    as (-> & -> & _ & ->).
  simpl. by rewrite app_nil_r.
Qed.

(** C8: a Single-NAT build over a non-empty zone list returns and declares
    exactly one elastic address and exactly one NAT gateway; the gateway
    is bound to [SubnetPublic<alias of the first zone>], which is the
    public subnet of the first zone of the input order when the public
    subnets are keyed by zone; and every zone has its private route table,
    whose default route (0.0.0.0/0) targets that one gateway. *)
Theorem single_nat_one_gateway sched fuel rs0 cfg ec2 nat first rest :
  api.VPC_ID (api.VPC cfg) = "" ->
  api.Enabled (api.PrivateCluster_ cfg) = false ->
  api.NAT (api.VPC cfg) = Some nat ->
  api.Gateway nat = Some api.ClusterSingleNAT ->
  api.AvailabilityZones cfg = first :: rest ->
  exists res s' delta,
    build sched fuel rs0 cfg ec2 = Returns res s'
    /\ resources (rs s') = resources rs0 ++ delta
    /\ List.filter isEIP delta = [("NATIP", gfnec2.EIP (gfnt.NewString "vpc"))]
    /\ List.filter isNatGateway delta
       = [("NATGateway",
           gfnec2.NatGateway
             (gfnt.MakeFnGetAttString "NATIP" "AllocationId")
             (gfnt.MakeRef ("SubnetPublic" +:+ formatAZ first)))]
    /\ (forall (public : gmap string api.AZSubnetSpec) subnet,
          api.Public (api.Subnets (api.VPC cfg)) = Some public ->
          public !! first = Some subnet ->
          ("SubnetPublic" +:+ formatAZ first,
           gfnec2.Subnet (gfnt.NewString (api.AZ subnet))
             (gfnt.NewString (api.CIDR subnet)) (gfnt.MakeRef "VPC")
             [{| gfncfn.Key := gfnt.NewString "kubernetes.io/role/elb";
                 gfncfn.Value := gfnt.NewString "1" |}]
             (Some gfnt.True)) ∈ delta)
    /\ List.filter isPrivateRouteTable delta
       = map (fun az =>
                ("PrivateRouteTable" +:+ formatAZ az,
                 gfnec2.RouteTable (gfnt.MakeRef "VPC")))
           (first :: rest)
    /\ List.filter isPrivateRoute delta
       = map (fun az =>
                ("NATPrivateSubnetRoute" +:+ formatAZ az,
                 gfnec2.Route
                   (gfnt.MakeRef ("PrivateRouteTable" +:+ formatAZ az))
                   (gfnt.NewString "0.0.0.0/0") None
                   (Some (gfnt.MakeRef "NATGateway")) []))
           (first :: rest).
Proof.
  intros Hid Hfp Hnat Hgw Hz.
  assert (Hzones : api.ClusterSingleNAT = api.ClusterSingleNAT ->
                   api.AvailabilityZones cfg <> []).
  { intros _. by rewrite Hz. }
  destruct (build_gatewayed sched fuel rs0 cfg ec2 nat api.ClusterSingleNAT
              Hid Hfp Hnat Hgw eq_refl Hzones) as (s' & Hbuild & Hres & _).
  set (v := createReceiver cfg ec2) in *.
  assert (Hzv : zones v = first :: rest) by exact Hz.
  destruct (singleNAT_build_kinds sched v first rest Hzv)
    as (Heip & Hgateway & Hroutes).
  eexists _, s', _. split; [exact Hbuild|]. split; [exact Hres|].
  split; [exact Heip|]. split; [exact Hgateway|]. split; [|split].
  - intros public subnet Hpublic Hfirst.
    unfold gatewayed_decls, publicSide_decls.
    apply elem_of_app. left. apply elem_of_app. right.
    apply elem_of_app. right.
    unfold public_decls, publicSubnets. simpl clusterConfig.
    rewrite Hpublic.
    destruct (elem_of_addSubnets_decls v api.SubnetTopologyPublic
                (Some (gfnt.MakeRef "PublicRouteTable")) first subnet _
                (elem_of_range (rangeAddPublic sched) public first
                   subnet Hfirst)
                (firstIndex v api.SubnetTopologyPublic))
      as [index' Hsub].
    apply Hsub. unfold subnet_decls. apply elem_of_app. left.
    apply elem_of_cons. left. reflexivity.
  - rewrite gatewayed_private_route_tables by (done || by rewrite Hzv).
    by rewrite Hzv.
  - exact Hroutes.
Qed.

Lemma single_nat_one_gateway_witness :
  api.AvailabilityZones (exampleConfig false (natMode "Single") None)
  = ["us-east-1a"; "us-east-1b"]
  /\ exists res s' delta,
      build (sameOrder inOrder) 0 emptyResourceSet
        (exampleConfig false (natMode "Single") None) offlineAPI
      = Returns res s'
      /\ resources (rs s') = resources emptyResourceSet ++ delta
      /\ List.filter isEIP delta
         = [("NATIP", gfnec2.EIP (gfnt.NewString "vpc"))]
      /\ List.filter isNatGateway delta
         = [("NATGateway",
             gfnec2.NatGateway
               (gfnt.MakeFnGetAttString "NATIP" "AllocationId")
               (gfnt.MakeRef "SubnetPublicUSEAST1A"))].
Proof.
  split; [reflexivity|].
  destruct (single_nat_one_gateway (sameOrder inOrder) 0 emptyResourceSet
              (exampleConfig false (natMode "Single") None) offlineAPI
              {| api.Gateway := Some "Single" |} "us-east-1a" ["us-east-1b"]
              eq_refl eq_refl eq_refl eq_refl eq_refl)
    as (res & s' & delta & Hbuild & Hres & Heip & Hgateway & _).
  exists res, s', delta. repeat split; assumption.
Defined.

(* ===================================================================== *)
(** ** The import path *)
(* ===================================================================== *)

Lemma withCalls_withCalls a b s :
  withCalls b (withCalls a s) = withCalls (a ++ b) s.
Proof. unfold withCalls; simpl. by rewrite <- app_assoc. Qed.

Lemma withCalls_nil s : withCalls [] s = s.
Proof. destruct s; unfold withCalls; simpl. by rewrite app_nil_r. Qed.

Lemma describeRouteTables_returns ec2 input s :
  describeRouteTables ec2 input s
  = Returns (DescribeRouteTables ec2 input) (withCalls [input] s).
Proof. reflexivity. Qed.

(** The pagination loop only talks to the directory: when it returns, the
    store differs by the queries sent, all of them for the same subnets. *)
Lemma importRouteTables_pages_frame ec2 subnetIDs fuel :
  forall nextToken routeTables s r s',
    importRouteTables_pages fuel ec2 subnetIDs nextToken routeTables s
    = Returns r s' ->
    exists calls,
      s' = withCalls calls s
      /\ Forall (isAssociationQuery subnetIDs) calls.
Proof.
  induction fuel as [|fuel IH]; intros nextToken routeTables s r s' Hrun.
  - discriminate.
  - cbn [importRouteTables_pages] in Hrun.
    rewrite (bind_returns _ _ _ _ _ (describeRouteTables_returns _ _ _))
      in Hrun.
    destruct (DescribeRouteTables ec2 _) as [output|err].
    + destruct (ec2.OutNextToken output) as [token|].
      * apply IH in Hrun as (calls & -> & Hcalls).
        eexists. rewrite withCalls_withCalls. split; [reflexivity|].
        apply Forall_cons. split; [reflexivity | exact Hcalls].
      * inversion Hrun; subst. eexists. split; [reflexivity|].
        by repeat constructor.
    + inversion Hrun; subst. eexists. split; [reflexivity|].
      by repeat constructor.
Qed.

(** More fuel does not change what the pagination loop returned. *)
Lemma importRouteTables_pages_more_fuel ec2 subnetIDs fuel :
  forall fuel' nextToken routeTables s r s',
    (fuel <= fuel')%nat ->
    importRouteTables_pages fuel ec2 subnetIDs nextToken routeTables s
    = Returns r s' ->
    importRouteTables_pages fuel' ec2 subnetIDs nextToken routeTables s
    = Returns r s'.
Proof.
  induction fuel as [|fuel IH];
    intros fuel' nextToken routeTables s r s' Hle Hrun.
  - discriminate.
  - destruct fuel' as [|fuel']; [lia|].
    cbn [importRouteTables_pages] in *.
    rewrite (bind_returns _ _ _ _ _ (describeRouteTables_returns _ _ _))
      in Hrun.
    rewrite (bind_returns _ _ _ _ _ (describeRouteTables_returns _ _ _)).
    destruct (DescribeRouteTables ec2 _) as [output|err]; [|exact Hrun].
    destruct (ec2.OutNextToken output) as [token|]; [|exact Hrun].
    apply IH; [lia | exact Hrun].
Qed.

Lemma importRouteTables_associations_returns rt associations :
  forall subnetRoutes s,
    is_Some (ec2.RouteTableId rt) ->
    forallb (fun rta => isMain rta || bool_decide (is_Some (ec2.SubnetId rta)))
      associations = true ->
    importRouteTables_associations rt associations subnetRoutes s
    = Returns
        (if existsb isMain associations then inr mainRouteTableError
         else inl (recordPairs (tablePairs rt associations) subnetRoutes))
        s.
Proof.
  intros subnetRoutes s [routeTableId Hid]. revert subnetRoutes s.
  induction associations as [|rta rest IH]; intros subnetRoutes s Hwf.
  - reflexivity.
  - simpl in Hwf. apply andb_true_iff in Hwf as [Hrta Hrest].
    cbn [importRouteTables_associations existsb].
    unfold isMain at 1. unfold isMain in Hrta.
    destruct (ec2.Main rta) as [[|]|] eqn:Hmain; [reflexivity|..];
      simpl in Hrta;
      apply bool_decide_eq_true in Hrta as [subnetId Hsub];
      rewrite Hsub, Hid; simpl deref; repeat step;
      rewrite IH by exact Hrest;
      unfold tablePairs; simpl; rewrite Hsub, Hid; reflexivity.
Qed.

Lemma recordPairs_app a b subnetRoutes :
  recordPairs (a ++ b) subnetRoutes = recordPairs b (recordPairs a subnetRoutes).
Proof. unfold recordPairs. apply fold_left_app. Qed.

Lemma importRouteTables_tables_returns routeTables :
  forall subnetRoutes s,
    wellFormed routeTables = true ->
    importRouteTables_tables routeTables subnetRoutes s
    = Returns
        (if hasMain routeTables then inr mainRouteTableError
         else inl (recordPairs (associationPairs routeTables) subnetRoutes))
        s.
Proof.
  induction routeTables as [|rt rest IH]; intros subnetRoutes s Hwf.
  - reflexivity.
  - simpl in Hwf. apply andb_true_iff in Hwf as [Hrt Hrest].
    apply andb_true_iff in Hrt as [Hid Hassoc].
    apply bool_decide_eq_true in Hid.
    cbn [importRouteTables_tables hasMain existsb associationPairs flat_map].
    rewrite (bind_returns _ _ _ _ _
               (importRouteTables_associations_returns rt _ _ _ Hid Hassoc)).
    destruct (existsb isMain (ec2.Associations rt)); [reflexivity|].
    rewrite IH by exact Hrest. simpl orb.
    fold (hasMain rest). destruct (hasMain rest); [reflexivity|].
    by rewrite recordPairs_app.
Qed.

(** The lookup of a subnet in the recorded map: the table of the last
    association on record for it. *)
Lemma lookup_recordPairs subnetId pairs :
  forall subnetRoutes,
    recordPairs pairs subnetRoutes !! subnetId
    = match last (map snd
                    (List.filter
                       (fun pair => String.eqb (fst pair) subnetId) pairs))
      with
      | Some routeTableId => Some routeTableId
      | None => subnetRoutes !! subnetId
      end.
Proof.
  induction pairs as [|[k t] rest IH]; intros subnetRoutes.
  - reflexivity.
  - unfold recordPairs in *. cbn [fold_left List.filter fst snd].
    rewrite IH. destruct (String.eqb_spec k subnetId) as [->|Hne].
    + cbn [map snd]. rewrite last_cons.
      destruct (last _); [reflexivity|]. apply lookup_insert_eq.
    + destruct (last _); [reflexivity|]. by apply lookup_insert_ne.
Qed.

Lemma take_S_insert {A} (l : list A) i x :
  (i < length l)%nat -> take (S i) (<[i := x]> l) = take i l ++ [x].
Proof.
  revert i. induction l as [|y l IH]; intros i Hi; simpl in Hi; [lia|].
  destruct i as [|i]; [reflexivity|].
  cbn [take]. simpl. f_equal. apply IH. lia.
Qed.

Lemma makeSubnetResources_loop_returns subnetRoutes subnets :
  forall subnetResources i s,
    (i + length subnets <= length subnetResources)%nat ->
    makeSubnetResources_loop subnets subnetRoutes subnetResources i s
    = Returns
        match importedSubnets subnets subnetRoutes with
        | inr err => inr err
        | inl srs =>
            inl (take i subnetResources ++ srs
                 ++ drop (i + length subnets) subnetResources)
        end s.
Proof.
  induction subnets as [|[name network] rest IH];
    intros subnetResources i s Hlen.
  - simpl. rewrite Nat.add_0_r, take_drop. reflexivity.
  - cbn [makeSubnetResources_loop importedSubnets].
    change (match subnetRoutes with
            | Some routes =>
                match routes !! api.ID network with
                | Some rt =>
                    inl {| Subnet := Subnet
                             {| Subnet := Some (gfnt.NewString (api.ID network));
                                RouteTable := None;
                                AvailabilityZone := api.AZ network |};
                           RouteTable := Some (gfnt.NewString rt);
                           AvailabilityZone := AvailabilityZone
                             {| Subnet := Some (gfnt.NewString (api.ID network));
                                RouteTable := None;
                                AvailabilityZone := api.AZ network |} |}
                | None => inr (Errorf notFoundFormat [api.ID network])
                end
            | None =>
                inl {| Subnet := Some (gfnt.NewString (api.ID network));
                       RouteTable := None;
                       AvailabilityZone := api.AZ network |}
            end) with (importedSubnet subnetRoutes network).
    destruct (importedSubnet subnetRoutes network) as [sr|err];
      [|reflexivity].
    simpl length in Hlen. unfold store_at.
    destruct (Nat.ltb_spec i (length subnetResources)); [|lia].
    step. rewrite IH by (rewrite length_insert; lia).
    destruct (importedSubnets rest subnetRoutes) as [srs|err];
      [|reflexivity].
    rewrite take_S_insert by lia.
    rewrite drop_insert_lt by lia.
    simpl length. rewrite <- app_assoc, Nat.add_succ_r. reflexivity.
Qed.

Lemma length_range {V} (g : GoRange) (m : option (gmap string V)) :
  length (range g m) = len m.
Proof. unfold range, len. by rewrite (order_perm g V (entries m)). Qed.

Lemma makeSubnetResources_returns g subnets subnetRoutes s :
  makeSubnetResources g subnets subnetRoutes s
  = Returns (importedSubnets (range g subnets) subnetRoutes) s.
Proof.
  unfold makeSubnetResources.
  rewrite makeSubnetResources_loop_returns
    by (rewrite length_replicate, length_range; simpl; lia).
  destruct (importedSubnets _ _) as [srs|err]; [|reflexivity].
  rewrite take_0, drop_ge by (rewrite length_replicate, length_range; simpl; lia).
  by rewrite app_nil_r.
Qed.

Lemma importedSubnets_no_routes subnets :
  importedSubnets subnets None
  = inl (map (fun entry =>
                {| AvailabilityZone := api.AZ (snd entry);
                   Subnet := Some (gfnt.NewString (api.ID (snd entry)));
                   RouteTable := None |}) subnets).
Proof.
  induction subnets as [|[name network] rest IH]; [reflexivity|].
  simpl. by rewrite IH.
Qed.

Lemma bind_inv {A B} (m : M A) (k : A -> M B) s b s' :
  bind m k s = Returns b s' ->
  exists a s1, m s = Returns a s1 /\ k a s1 = Returns b s'.
Proof.
  unfold bind. destruct (m s) as [a s1| |]; [|discriminate..].
  intros H. by exists a, s1.
Qed.

Lemma importRouteTables_associations_frame rt associations :
  forall subnetRoutes s r s',
    importRouteTables_associations rt associations subnetRoutes s
    = Returns r s' ->
    s' = s.
Proof.
  induction associations as [|rta rest IH]; intros subnetRoutes s r s' Hrun.
  - by inversion Hrun.
  - cbn [importRouteTables_associations] in Hrun.
    destruct (ec2.Main rta) as [[|]|]; [by inversion Hrun|..];
      (destruct (ec2.SubnetId rta); [|discriminate]);
      (destruct (ec2.RouteTableId rt); [|discriminate]);
      simpl deref in Hrun; rewrite !bind_ret in Hrun;
      by apply IH in Hrun.
Qed.

Lemma importRouteTables_tables_frame routeTables :
  forall subnetRoutes s r s',
    importRouteTables_tables routeTables subnetRoutes s = Returns r s' ->
    s' = s.
Proof.
  induction routeTables as [|rt rest IH]; intros subnetRoutes s r s' Hrun.
  - by inversion Hrun.
  - cbn [importRouteTables_tables] in Hrun.
    apply bind_inv in Hrun as (r0 & s1 & Hassoc & Hrest).
    apply importRouteTables_associations_frame in Hassoc as ->.
    destruct r0 as [subnetRoutes'|err]; [|by inversion Hrest].
    by apply IH in Hrest.
Qed.

Lemma importRouteTables_frame g fuel ec2 subnets s r s' :
  importRouteTables g fuel ec2 subnets s = Returns r s' ->
  exists calls,
    s' = withCalls calls s
    /\ Forall (isAssociationQuery
                 (map (fun entry => api.ID (snd entry)) (range g subnets)))
         calls.
Proof.
  unfold importRouteTables. intros Hrun.
  apply bind_inv in Hrun as (r0 & s1 & Hpages & Hrest).
  apply importRouteTables_pages_frame in Hpages as (calls & -> & Hcalls).
  exists calls. split; [|exact Hcalls].
  destruct r0 as [routeTables|err]; [|by inversion Hrest].
  by apply importRouteTables_tables_frame in Hrest.
Qed.

Lemma import_public_half sched v s :
  match api.Public (api.Subnets (api.VPC (clusterConfig v))) with
  | Some _ =>
      let* r :=
        makeSubnetResources (rangeMakePublic sched)
          (api.Public (api.Subnets (api.VPC (clusterConfig v)))) None in
      match r with
      | inr err => ret (Some err)
      | inl subnetResources =>
          let* _ := setPublic subnetResources in ret None
      end
  | None => ret None
  end s
  = Returns None (importPublicStore sched v s).
Proof.
  unfold importPublicStore, publicSubnets.
  destruct (api.Public _) as [public|] eqn:Hpublic; [|reflexivity].
  rewrite <- Hpublic.
  rewrite (bind_returns _ _ _ _ _ (makeSubnetResources_returns _ _ _ _)).
  rewrite importedSubnets_no_routes. by repeat step'.
Qed.

Lemma onlyQueried_importPublicStore sched v calls s s' :
  onlyQueried calls s s' -> onlyQueried calls s (importPublicStore sched v s').
Proof.
  unfold onlyQueried, importPublicStore. by destruct (publicSubnets v).
Qed.

(** Without the fully-private flag an import needs no remote directory: it
    returns and records the subnets as they are given. *)
Lemma importResources_gatewayed sched fuel v s :
  isFullyPrivate v = false ->
  importResources sched fuel v s
  = Returns None
      (importPublicStore sched v
         match privateSubnets v with
         | Some _ =>
             withPrivate
               (map (fun entry =>
                       {| AvailabilityZone := api.AZ (snd entry);
                          Subnet := Some (gfnt.NewString (api.ID (snd entry)));
                          RouteTable := None |})
                  (range (rangeMakePrivate sched) (privateSubnets v))) s
         | None => s
         end).
Proof.
  intros Hfp. unfold importResources, privateSubnets. rewrite Hfp.
  destruct (api.Private _) as [private|] eqn:Hprivate.
  - rewrite <- Hprivate. repeat step.
    rewrite (bind_returns _ _ _ _ _ (makeSubnetResources_returns _ _ _ _)).
    rewrite importedSubnets_no_routes. repeat step'.
    apply import_public_half.
  - repeat step. apply import_public_half.
Qed.

(** A fully-private import, once the directory has answered. *)
Lemma importResources_fullyPrivate sched fuel v private s r s1 :
  isFullyPrivate v = true ->
  privateSubnets v = Some private ->
  importRouteTables_pages fuel (ec2API v) (importedIDs sched v) None [] s
  = Returns r s1 ->
  (forall routeTables, r = inl routeTables -> wellFormed routeTables = true) ->
  importResources sched fuel v s
  = match r with
    | inr err => Returns (Some err) s1
    | inl routeTables =>
        if hasMain routeTables then Returns (Some mainRouteTableError) s1
        else
          match importedSubnets
                  (range (rangeMakePrivate sched) (privateSubnets v))
                  (Some (recordPairs (associationPairs routeTables) ∅))
          with
          | inr err => Returns (Some err) s1
          | inl srs =>
              Returns None (importPublicStore sched v (withPrivate srs s1))
          end
    end.
Proof.
  intros Hfp Hprivate Hpages Hwf.
  unfold importResources, importRouteTables.
  unfold privateSubnets, importedIDs in *. rewrite Hfp.
  rewrite Hprivate at 1. cbv iota. rewrite !bind_bind.
  rewrite (bind_returns _ _ _ _ _ Hpages).
  destruct r as [routeTables|err]; [|reflexivity].
  rewrite ?bind_bind.
  rewrite (bind_returns _ _ _ _ _
             (importRouteTables_tables_returns routeTables ∅ s1
                (Hwf routeTables eq_refl))).
  destruct (hasMain routeTables); [reflexivity|].
  repeat step.
  rewrite (bind_returns _ _ _ _ _ (makeSubnetResources_returns _ _ _ _)).
  destruct (importedSubnets _ _) as [srs|err]; [|reflexivity].
  repeat step'. apply import_public_half.
Qed.

(* ===================================================================== *)
(** ** C2: importing one private subnet in fully-private mode *)
(* ===================================================================== *)

Lemma range_singleton {V} (g : GoRange) (k : string) (x : V) :
  range g (Some {[k := x]}) = [(k, x)].
Proof.
  unfold range, entries. rewrite map_to_list_singleton.
  apply Permutation_singleton_r, order_perm.
Qed.

(** A directory that applies the filter delivers no table at all for a
    subnet without an association on record. *)
Lemma honoursFilter_no_association subnetId routeTables :
  wellFormed routeTables = true ->
  honoursFilter [subnetId] routeTables = true ->
  routeTablesOf subnetId routeTables = [] ->
  routeTables = [].
Proof.
  intros Hwf Hfilter Hnone.
  destruct routeTables as [|rt rest]; [reflexivity|]. exfalso.
  simpl in Hwf, Hfilter.
  apply andb_true_iff in Hwf as [Hrt _].
  apply andb_true_iff in Hrt as [Hid _].
  apply bool_decide_eq_true in Hid as [routeTableId Hid].
  apply andb_true_iff in Hfilter as [Hrta _].
  apply existsb_exists in Hrta as (rta & Hin & Hsub).
  destruct (ec2.SubnetId rta) as [id|] eqn:Hsubnet; [|discriminate].
  apply bool_decide_eq_true, list_elem_of_singleton in Hsub as ->.
  assert (Hpair : In (subnetId, routeTableId)
                    (List.filter
                       (fun pair => String.eqb (fst pair) subnetId)
                       (associationPairs (rt :: rest)))).
  { apply List.filter_In. split; [|apply String.eqb_refl].
    cbn [associationPairs flat_map]. apply in_or_app. left.
    apply list_elem_of_In. unfold tablePairs.
    apply list_elem_of_omap. exists rta.
    split; [by apply list_elem_of_In|]. by rewrite Hsubnet, Hid. }
  unfold routeTablesOf in Hnone.
  apply map_eq_nil in Hnone. rewrite Hnone in Hpair. destruct Hpair.
Qed.

(** C2, as amended: in a fully-private import of one private subnet whose
    records the directory has delivered with their identifiers, exactly
    one of three things happens, in the order in which the code looks. If
    any delivered association is flagged as the main route table's, the
    import fails with the invariant-violation error. If no association is
    on record for the subnet's identifier (so that a directory that applies
    the query's filter delivers nothing, and in any case when no main
    association was delivered), it fails with the not-found error that
    names the subnet. And if no main association was delivered and the
    subnet has exactly one association, the import succeeds and the
    subnet's [SubnetResource] carries that table's identifier. *)
Theorem import_private_subnet_trichotomy
    sched fuel v name subnet routeTables s s1 :
  isFullyPrivate v = true ->
  api.Private (api.Subnets (api.VPC (clusterConfig v)))
  = Some {[name := subnet]} ->
  importRouteTables_pages fuel (ec2API v) [api.ID subnet] None [] s
  = Returns (inl routeTables) s1 ->
  wellFormed routeTables = true ->
  (hasMain routeTables = true ->
   importResources sched fuel v s = Returns (Some mainRouteTableError) s1)
  /\ (routeTablesOf (api.ID subnet) routeTables = [] ->
      hasMain routeTables = false
      \/ honoursFilter [api.ID subnet] routeTables = true ->
      importResources sched fuel v s
      = Returns (Some (Errorf notFoundFormat [api.ID subnet])) s1)
  /\ (hasMain routeTables = false ->
      forall routeTableId,
        routeTablesOf (api.ID subnet) routeTables = [routeTableId] ->
        exists s',
          importResources sched fuel v s = Returns None s'
          /\ Private (subnetDetails s')
             = [{| AvailabilityZone := api.AZ subnet;
                   Subnet := Some (gfnt.NewString (api.ID subnet));
                   RouteTable := Some (gfnt.NewString routeTableId) |}]).
Proof.
  intros Hfp Hprivate Hpages Hwf.
  assert (Hids : importedIDs sched v = [api.ID subnet]).
  { unfold importedIDs, privateSubnets. by rewrite Hprivate, range_singleton. }
  rewrite <- Hids in Hpages.
  pose proof (importResources_fullyPrivate sched fuel v _ s _ s1
                Hfp Hprivate Hpages) as Hrun.
  rewrite Hrun by (by intros ? [= <-]). clear Hrun.
  unfold privateSubnets. rewrite Hprivate, range_singleton.
  cbn [importedSubnets importedSubnet].
  rewrite lookup_recordPairs, lookup_empty.
  fold (routeTablesOf (api.ID subnet) routeTables).
  split; [by intros ->|]. split.
  - intros Hnone Hcase.
    assert (Hmain : hasMain routeTables = false).
    { destruct Hcase as [Hmain|Hfilter]; [exact Hmain|].
      by rewrite (honoursFilter_no_association _ _ Hwf Hfilter Hnone). }
    rewrite Hmain, Hnone. reflexivity.
  - intros -> routeTableId ->. cbn [last].
    eexists. split; [reflexivity|].
    unfold importPublicStore. by destruct (publicSubnets v).
Qed.

Lemma import_private_subnet_trichotomy_witness :
  (exists s',
     importResources (sameOrder inOrder) 2
       (importReceiver (importConfig true) (pagedDirectory [explicitTable]))
       (initialStore emptyResourceSet) = Returns None s'
     /\ Private (subnetDetails s')
        = [{| AvailabilityZone := "us-east-1a";
              Subnet := Some (gfnt.NewString "subnet-1");
              RouteTable := Some (gfnt.NewString "rtb-1") |}])
  /\ importResources (sameOrder inOrder) 2
       (importReceiver (importConfig true) (pagedDirectory []))
       (initialStore emptyResourceSet)
     = Returns (Some (Errorf notFoundFormat ["subnet-1"]))
         (withCalls
            [{| ec2.Filters :=
                  [{| ec2.Name := "association.subnet-id";
                      ec2.Values := ["subnet-1"] |}];
                ec2.NextToken := None |};
             {| ec2.Filters :=
                  [{| ec2.Name := "association.subnet-id";
                      ec2.Values := ["subnet-1"] |}];
                ec2.NextToken := Some "page-2" |}]
            (initialStore emptyResourceSet))
  /\ importResources (sameOrder inOrder) 2
       (importReceiver (importConfig true) (pagedDirectory [mainTable]))
       (initialStore emptyResourceSet)
     = Returns (Some mainRouteTableError)
         (withCalls
            [{| ec2.Filters :=
                  [{| ec2.Name := "association.subnet-id";
                      ec2.Values := ["subnet-1"] |}];
                ec2.NextToken := None |};
             {| ec2.Filters :=
                  [{| ec2.Name := "association.subnet-id";
                      ec2.Values := ["subnet-1"] |}];
                ec2.NextToken := Some "page-2" |}]
            (initialStore emptyResourceSet)).
Proof.
  split; [|split].
  - apply (import_private_subnet_trichotomy (sameOrder inOrder) 2
             (importReceiver (importConfig true)
                (pagedDirectory [explicitTable]))
             "us-east-1a" (exampleSubnet "subnet-1" "us-east-1a" "10.0.0.0/19")
             [explicitTable] (initialStore emptyResourceSet) _
             eq_refl eq_refl eq_refl eq_refl); reflexivity.
  - apply (import_private_subnet_trichotomy (sameOrder inOrder) 2
             (importReceiver (importConfig true) (pagedDirectory []))
             "us-east-1a" (exampleSubnet "subnet-1" "us-east-1a" "10.0.0.0/19")
             [] (initialStore emptyResourceSet) _
             eq_refl eq_refl eq_refl eq_refl); [reflexivity|].
    right. reflexivity.
  - apply (import_private_subnet_trichotomy (sameOrder inOrder) 2
             (importReceiver (importConfig true) (pagedDirectory [mainTable]))
             "us-east-1a" (exampleSubnet "subnet-1" "us-east-1a" "10.0.0.0/19")
             [mainTable] (initialStore emptyResourceSet) _
             eq_refl eq_refl eq_refl eq_refl); reflexivity.
Defined.

(** When no delivered association is flagged as main, the associations on
    record for a subnet are its non-main associations. *)
Lemma nonMainTablesOf_no_main subnetId routeTables :
  hasMain routeTables = false ->
  nonMainTablesOf subnetId routeTables = routeTablesOf subnetId routeTables.
Proof.
  unfold routeTablesOf, nonMainTablesOf, hasMain.
  induction routeTables as [|rt rest IH]; intros Hmain; [reflexivity|].
  simpl in Hmain. apply orb_false_iff in Hmain as [Hrt Hrest].
  cbn [flat_map associationPairs].
  rewrite List.filter_app, map_app, IH by exact Hrest. f_equal.
  clear IH Hrest. unfold tablePairs.
  induction (ec2.Associations rt) as [|rta assocs IHa]; [reflexivity|].
  simpl in Hrt. apply orb_false_iff in Hrt as [Hrta Hassocs].
  cbn [omap list_omap]. rewrite Hrta, IHa by exact Hassocs.
  destruct (ec2.SubnetId rta) as [id|]; [|reflexivity].
  destruct (ec2.RouteTableId rt) as [routeTableId|]; [|reflexivity].
  cbn [List.filter fst]. by destruct (String.eqb id subnetId).
Qed.

(** C2 as the specification words it fails: a subnet whose one
    association, not flagged as main, is with a table that is also the
    VPC's main route table is rejected with the invariant-violation error;
    the import does not succeed. *)
Lemma import_one_non_main_association_counterexample :
  nonMainTablesOf "subnet-1" [sharedMainTable] = ["rtb-main"]
  /\ importResources (sameOrder inOrder) 2
       (importReceiver (importConfig true) (pagedDirectory [sharedMainTable]))
       (initialStore emptyResourceSet)
     = Returns (Some mainRouteTableError)
         (withCalls
            [{| ec2.Filters :=
                  [{| ec2.Name := "association.subnet-id";
                      ec2.Values := ["subnet-1"] |}];
                ec2.NextToken := None |};
             {| ec2.Filters :=
                  [{| ec2.Name := "association.subnet-id";
                      ec2.Values := ["subnet-1"] |}];
                ec2.NextToken := Some "page-2" |}]
            (initialStore emptyResourceSet))
  /\ ~ exists s',
        importResources (sameOrder inOrder) 2
          (importReceiver (importConfig true)
             (pagedDirectory [sharedMainTable]))
          (initialStore emptyResourceSet) = Returns None s'.
Proof.
  split; [reflexivity|]. split; [vm_compute; reflexivity|].
  intros [s' Hrun]. vm_compute in Hrun. discriminate.
Qed.

(* ===================================================================== *)
(** ** C9: the import path declares nothing *)
(* ===================================================================== *)

Lemma onlyQueried_nil s : onlyQueried [] s s.
Proof. unfold onlyQueried. by rewrite app_nil_r. Qed.

Lemma importResources_frame sched fuel v s err s' :
  importResources sched fuel v s = Returns err s' ->
  exists calls,
    onlyQueried calls s s'
    /\ Forall (isAssociationQuery (importedIDs sched v)) calls
    /\ (isFullyPrivate v = false -> calls = []).
Proof.
  destruct (isFullyPrivate v) eqn:Hfp.
  2:{ rewrite importResources_gatewayed by exact Hfp.
      intros [= _ <-]. exists []. split; [|by split].
      apply onlyQueried_importPublicStore.
      destruct (privateSubnets v); [|apply onlyQueried_nil].
      unfold onlyQueried; simpl. by rewrite app_nil_r. }
  unfold importResources, importedIDs, privateSubnets. rewrite Hfp.
  destruct (api.Private _) as [private|] eqn:Hprivate.
  2:{ rewrite bind_ret, import_public_half. intros [= _ <-].
      exists []. split; [|by split].
      apply onlyQueried_importPublicStore, onlyQueried_nil. }
  rewrite <- Hprivate. intros Hrun.
  rewrite !bind_bind in Hrun.
  apply bind_inv in Hrun as (r & s1 & Himport & Hrest).
  apply importRouteTables_frame in Himport as (calls & -> & Hcalls).
  exists calls. split; [|by split].
  destruct r as [subnetRoutes|e].
  - rewrite !bind_ret in Hrest.
    rewrite ?bind_bind in Hrest.
    rewrite (bind_returns _ _ _ _ _ (makeSubnetResources_returns _ _ _ _))
      in Hrest.
    destruct (importedSubnets _ _) as [srs|e].
    + rewrite ?bind_bind in Hrest.
      rewrite (bind_returns _ _ _ _ _ (setPrivate_returns _ _)) in Hrest.
      rewrite !bind_ret, import_public_half in Hrest.
      injection Hrest as _ <-.
      apply onlyQueried_importPublicStore. by unfold onlyQueried.
    + rewrite !bind_ret in Hrest. injection Hrest as _ <-.
      by unfold onlyQueried.
  - rewrite !bind_ret in Hrest. injection Hrest as _ <-.
    by unfold onlyQueried.
Qed.

Lemma addOutputs_resources v s :
  exists s', addOutputs v s = Returns tt s'
             /\ resources (rs s') = resources (rs s)
             /\ ec2Calls s' = ec2Calls s.
Proof. eexists. split; [apply addOutputs_returns|]. by split. Qed.

(** C9: on the import path nothing is declared. Whenever [importResources]
    returns, with or without an error, the resource set is the one it
    started from and all it did remotely was to send route-table queries
    filtered by the private subnets' identifiers, none at all unless the
    import is fully private; a whole build on an existing VPC leaves the
    declared resources as the caller passed them; an import that is not
    fully private always returns, without an error; and a fully-private
    import returns once the directory has answered with records that
    carry their identifiers. *)
Theorem import_declares_nothing sched fuel :
  (forall v s err s',
      importResources sched fuel v s = Returns err s' ->
      rs s' = rs s
      /\ exists calls,
          ec2Calls s' = ec2Calls s ++ calls
          /\ Forall (isAssociationQuery (importedIDs sched v)) calls
          /\ (isFullyPrivate v = false -> calls = []))
  /\ (forall rs0 cfg ec2 res s',
        api.VPC_ID (api.VPC cfg) <> "" ->
        build sched fuel rs0 cfg ec2 = Returns res s' ->
        resources (rs s') = resources rs0)
  /\ (forall rs0 cfg ec2,
        api.VPC_ID (api.VPC cfg) <> "" ->
        api.Enabled (api.PrivateCluster_ cfg) = false ->
        exists details s',
          build sched fuel rs0 cfg ec2
          = Returns
              (Some (gfnt.NewString (api.VPC_ID (api.VPC cfg))),
               Some details, None) s'
          /\ resources (rs s') = resources rs0
          /\ ec2Calls s' = [])
  /\ (forall v private s r s1,
        isFullyPrivate v = true ->
        api.Private (api.Subnets (api.VPC (clusterConfig v))) = Some private ->
        importRouteTables_pages fuel (ec2API v) (importedIDs sched v) None []
          s = Returns r s1 ->
        (forall routeTables,
            r = inl routeTables -> wellFormed routeTables = true) ->
        exists err s', importResources sched fuel v s = Returns err s').
Proof.
  split; [|split; [|split]]; cycle 3.
  { intros v private s r s1 Hfp Hprivate Hpages Hwf.
    rewrite (importResources_fullyPrivate sched fuel v private s r s1
               Hfp Hprivate Hpages Hwf).
    destruct r as [routeTables|err]; [|by eexists _, _].
    destruct (hasMain routeTables); [by eexists _, _|].
    destruct (importedSubnets _ _); by eexists _, _. }
  - intros v s err s' Hrun.
    apply importResources_frame in Hrun as (calls & [Hrs Hcalls] & Hq & Hnone).
    split; [exact Hrs|]. by exists calls.
  - intros rs0 cfg ec2 res s' Hid Hbuild. unfold build in Hbuild.
    rewrite NewIPv4VPCResourceSet_import in Hbuild by exact Hid.
    unfold CreateTemplate, addResources in Hbuild.
    destruct (String.eqb_spec (api.VPC_ID (api.VPC cfg)) "") as [|_]; [done|].
    simpl clusterConfig in Hbuild.
    destruct (String.eqb_spec (api.VPC_ID (api.VPC cfg)) "") as [|_]; [done|].
    change (negb false) with true in Hbuild. cbv iota in Hbuild.
    rewrite !bind_bind in Hbuild.
    apply bind_inv in Hbuild as (err & s1 & Himport & Hrest).
    apply importResources_frame in Himport as (calls & [Hrs _] & _).
    destruct err as [err|].
    + rewrite !bind_ret in Hrest. injection Hrest as _ <-. by rewrite Hrs.
    + rewrite !bind_ret in Hrest.
      destruct (addOutputs_resources (importReceiver cfg ec2) s1)
        as (s2 & Hout & Hres & _).
      rewrite (bind_returns _ _ _ _ _ Hout) in Hrest.
      rewrite (bind_returns _ _ _ _ _ (getSubnetDetails_returns _)) in Hrest.
      injection Hrest as _ <-. by rewrite Hres, Hrs.
  - intros rs0 cfg ec2 Hid Hfp. unfold build.
    rewrite NewIPv4VPCResourceSet_import by exact Hid.
    unfold CreateTemplate, addResources. simpl clusterConfig.
    destruct (String.eqb_spec (api.VPC_ID (api.VPC cfg)) "") as [|_]; [done|].
    change (negb false) with true. cbv iota. rewrite !bind_bind.
    rewrite (bind_returns _ _ _ _ _
               (importResources_gatewayed sched fuel
                  (importReceiver cfg ec2) _ Hfp)).
    rewrite !bind_ret.
    rewrite (bind_returns _ _ _ _ _ (addOutputs_returns _ _)).
    rewrite (bind_returns _ _ _ _ _ (getSubnetDetails_returns _)).
    eexists _, _. split; [reflexivity|].
    unfold importPublicStore.
    destruct (publicSubnets _), (privateSubnets _); by split.
Qed.

Lemma import_declares_nothing_witness :
  (exists err s',
     importResources (sameOrder reversed) 2
       (importReceiver (importConfig true) (pagedDirectory [explicitTable]))
       (initialStore emptyResourceSet) = Returns err s'
     /\ rs s' = emptyResourceSet)
  /\ exists details s',
      build (sameOrder inOrder) 0 emptyResourceSet (importConfig false)
        offlineAPI
      = Returns (Some (gfnt.NewString "vpc-1"), Some details, None) s'
      /\ resources (rs s') = []
      /\ ec2Calls s' = [].
Proof.
  split.
  - destruct (import_declares_nothing (sameOrder reversed) 2)
      as (Himport & _ & _ & _).
    destruct (importResources (sameOrder reversed) 2
                (importReceiver (importConfig true)
                   (pagedDirectory [explicitTable]))
                (initialStore emptyResourceSet))
      as [err s'| |] eqn:Hrun; [|vm_compute in Hrun; discriminate..].
    exists err, s'. split; [reflexivity|].
    apply (Himport _ _ _ _ Hrun).
  - apply (import_declares_nothing (sameOrder inOrder) 0).
    + discriminate.
    + reflexivity.
Defined.

(* ===================================================================== *)
(** ** C4: the index of a subnet's secondary block across runs *)
(* ===================================================================== *)

Lemma omap_selectedIndex_none (l : list decl) :
  Forall (fun d => selectedIndex d = None) l -> omap selectedIndex l = [].
Proof.
  induction 1 as [|d l Hd _ IH]; [reflexivity|].
  cbn [omap list_omap]. by rewrite Hd.
Qed.

Lemma selectedIndex_addSubnets_decls v topology refRT subnets :
  autoIPv6 v = true ->
  forall index,
    omap selectedIndex (addSubnets_decls v topology refRT index subnets)
    = seqZ index (Z.of_nat (length subnets)).
Proof.
  intros Hv6. induction subnets as [|[name subnet] rest IH]; intros index.
  - reflexivity.
  - cbn [addSubnets_decls]. unfold subnet_decls. rewrite Hv6.
    rewrite omap_app, IH. cbn [length].
    rewrite (seqZ_cons index) by lia.
    replace (Z.pred (Z.of_nat (S (length rest))))
      with (Z.of_nat (length rest)) by lia.
    reflexivity.
Qed.

Lemma selectedIndex_nat_decls v mode :
  omap selectedIndex (nat_decls v mode) = [].
Proof.
  apply omap_selectedIndex_none. unfold nat_decls.
  destruct (String.eqb mode api.ClusterHighlyAvailableNAT).
  { apply Forall_flat_map. intros az. repeat constructor. }
  destruct (String.eqb mode api.ClusterSingleNAT).
  { destruct (zones v) as [|first rest] eqn:Hz; [constructor|].
    unfold singleNAT_decls. apply Forall_app. split; [repeat constructor|].
    apply Forall_flat_map. intros az. repeat constructor. }
  destruct (String.eqb mode api.ClusterDisableNAT); [|constructor].
  apply Forall_flat_map. intros az. repeat constructor.
Qed.

(** Within one gatewayed build the indices are consecutive from each
    role's base offset, in the order of visit, hence pairwise distinct as
    long as the public subnets do not outnumber the zones. *)
Lemma secondary_indices_distinct sched fuel rs0 cfg ec2 nat mode :
  api.VPC_ID (api.VPC cfg) = "" ->
  api.Enabled (api.PrivateCluster_ cfg) = false ->
  api.NAT (api.VPC cfg) = Some nat ->
  api.Gateway nat = Some mode ->
  validNATMode mode = true ->
  (mode = api.ClusterSingleNAT -> api.AvailabilityZones cfg <> []) ->
  api.IsEnabled (api.AutoAllocateIPv6 (api.VPC cfg)) = true ->
  (len (api.Public (api.Subnets (api.VPC cfg)))
   <= length (api.AvailabilityZones cfg))%nat ->
  exists res s' delta,
    build sched fuel rs0 cfg ec2 = Returns res s'
    /\ resources (rs s') = resources rs0 ++ delta
    /\ omap selectedIndex delta
       = seqZ 0 (Z.of_nat (len (api.Public (api.Subnets (api.VPC cfg)))))
         ++ seqZ (Z.of_nat (length (api.AvailabilityZones cfg)))
              (Z.of_nat (len (api.Private (api.Subnets (api.VPC cfg)))))
    /\ NoDup (omap selectedIndex delta).
Proof.
  intros Hid Hfp Hnat Hgw Hvalid Hzones Hv6 Hpublic.
  destruct (build_gatewayed sched fuel rs0 cfg ec2 nat mode
              Hid Hfp Hnat Hgw Hvalid Hzones) as (s' & Hbuild & Hres & _).
  set (v := createReceiver cfg ec2) in *.
  assert (Hv6' : autoIPv6 v = true) by exact Hv6.
  assert (Hsel : omap selectedIndex (gatewayed_decls sched v mode)
                 = seqZ 0 (Z.of_nat (len (api.Public (api.Subnets (api.VPC cfg)))))
                   ++ seqZ (Z.of_nat (length (api.AvailabilityZones cfg)))
                        (Z.of_nat
                           (len (api.Private (api.Subnets (api.VPC cfg)))))).
  { unfold gatewayed_decls, publicSide_decls, public_decls, private_decls,
      vpc_decls, autoAllocated_decls.
    rewrite Hv6'. rewrite !omap_app, selectedIndex_nat_decls.
    rewrite !selectedIndex_addSubnets_decls by exact Hv6'.
    rewrite !length_range. unfold firstIndex. rewrite Hv6'. reflexivity. }
  eexists _, s', _. split; [exact Hbuild|]. split; [exact Hres|].
  split; [exact Hsel|]. rewrite Hsel.
  apply NoDup_app. split; [apply NoDup_seqZ|]. split; [|apply NoDup_seqZ].
  intros x Hx Hx'. apply elem_of_seqZ in Hx. apply elem_of_seqZ in Hx'. lia.
Qed.

(** C4, on the code: the index a subnet's secondary address block selects
    is the position at which the runtime's traversal of the subnet mapping
    reaches the subnet. Two runs of the same build that traverse the
    private subnets in opposite orders give the first zone's private
    subnet index 2 in one run and index 3 in the other. *)
Theorem secondary_index_depends_on_map_order :
  secondaryIndexOf "PrivateUSEAST1ACIDRv6"
    (declared
       (build (sameOrder inOrder) 0 emptyResourceSet
          (exampleConfig false (natMode api.ClusterHighlyAvailableNAT)
             (Some true)) offlineAPI))
  = Some 2
  /\ secondaryIndexOf "PrivateUSEAST1ACIDRv6"
       (declared
          (build (sameOrder reversed) 0 emptyResourceSet
             (exampleConfig false (natMode api.ClusterHighlyAvailableNAT)
                (Some true)) offlineAPI))
     = Some 3.
Proof. split; vm_compute; reflexivity. Qed.

(* ===================================================================== *)
(** ** Further properties of the builder *)
(* ===================================================================== *)

(** *** The HighlyAvailable and Disabled strategies *)

Lemma haNAT_decls_kinds v :
  List.filter isEIP (haNAT_decls v) = map zoneEIP (zones v)
  /\ List.filter isNatGateway (haNAT_decls v) = map zoneNatGateway (zones v)
  /\ List.filter isPrivateRoute (haNAT_decls v)
     = map zoneGatewayRoute (zones v).
Proof.
  unfold haNAT_decls.
  rewrite (filter_flat_map_decls isEIP _ (fun az => [zoneEIP az]))
    by reflexivity.
  rewrite (filter_flat_map_decls isNatGateway _
             (fun az => [zoneNatGateway az])) by reflexivity.
  rewrite (filter_flat_map_decls isPrivateRoute _
             (fun az => [zoneGatewayRoute az])) by reflexivity.
  rewrite !flat_map_singleton. split; [reflexivity|]. split; reflexivity.
Qed.

Lemma filter_app3 (P : decl -> bool) (a b c : list decl) :
  List.filter P a = [] -> List.filter P c = [] ->
  List.filter P (a ++ b ++ c) = List.filter P b.
Proof.
  intros Ha Hc. rewrite !List.filter_app, Ha, Hc. simpl.
  apply app_nil_r.
Qed.

Lemma publicSide_decls_kinds sched v :
  List.filter isEIP (publicSide_decls sched v) = []
  /\ List.filter isNatGateway (publicSide_decls sched v) = []
  /\ List.filter isPrivateRoute (publicSide_decls sched v) = [].
Proof.
  unfold publicSide_decls, public_decls. rewrite !List.filter_app.
  destruct (vpc_decls_kinds v) as (-> & -> & ->).
  destruct (gateway_decls_kinds v) as (-> & -> & ->).
  destruct (filter_addSubnets_decls_nat_kind v api.SubnetTopologyPublic
              (Some (gfnt.MakeRef "PublicRouteTable"))
              (firstIndex v api.SubnetTopologyPublic)
              (range (rangeAddPublic sched) (publicSubnets v)))
    as (-> & -> & _ & ->).
  split; [reflexivity|]. split; reflexivity.
Qed.

Lemma private_decls_kinds sched v :
  List.filter isEIP (private_decls sched v) = []
  /\ List.filter isNatGateway (private_decls sched v) = []
  /\ List.filter isPrivateRoute (private_decls sched v) = [].
Proof.
  unfold private_decls.
  destruct (filter_addSubnets_decls_nat_kind v api.SubnetTopologyPrivate None
              (firstIndex v api.SubnetTopologyPrivate)
              (range (rangeAddPrivate sched) (privateSubnets v)))
    as (-> & -> & _ & ->).
  split; [reflexivity|]. split; reflexivity.
Qed.

(** In HighlyAvailable mode every zone gets its own elastic address and
    its own NAT gateway, placed in that zone's public subnet, and the
    default route of each zone's private route table goes through the
    gateway of the same zone. *)
Theorem ha_nat_gateway_per_zone sched fuel rs0 cfg ec2 nat :
  api.VPC_ID (api.VPC cfg) = "" ->
  api.Enabled (api.PrivateCluster_ cfg) = false ->
  api.NAT (api.VPC cfg) = Some nat ->
  api.Gateway nat = Some api.ClusterHighlyAvailableNAT ->
  exists res s' delta,
    build sched fuel rs0 cfg ec2 = Returns res s'
    /\ resources (rs s') = resources rs0 ++ delta
    /\ List.filter isEIP delta
       = map (fun az =>
                ("NATIP" +:+ formatAZ az, gfnec2.EIP (gfnt.NewString "vpc")))
           (api.AvailabilityZones cfg)
    /\ List.filter isNatGateway delta
       = map (fun az =>
                ("NATGateway" +:+ formatAZ az,
                 gfnec2.NatGateway
                   (gfnt.MakeFnGetAttString ("NATIP" +:+ formatAZ az)
                      "AllocationId")
                   (gfnt.MakeRef ("SubnetPublic" +:+ formatAZ az))))
           (api.AvailabilityZones cfg)
    /\ List.filter isPrivateRoute delta
       = map (fun az =>
                ("NATPrivateSubnetRoute" +:+ formatAZ az,
                 gfnec2.Route
                   (gfnt.MakeRef ("PrivateRouteTable" +:+ formatAZ az))
                   (gfnt.NewString "0.0.0.0/0") None
                   (Some (gfnt.MakeRef ("NATGateway" +:+ formatAZ az))) []))
           (api.AvailabilityZones cfg).
Proof.
  intros Hid Hfp Hnat Hgw.
  assert (Hzones : api.ClusterHighlyAvailableNAT = api.ClusterSingleNAT ->
                   api.AvailabilityZones cfg <> []) by discriminate.
  destruct (build_gatewayed sched fuel rs0 cfg ec2 nat
              api.ClusterHighlyAvailableNAT Hid Hfp Hnat Hgw eq_refl Hzones)
    as (s' & Hbuild & Hres & _).
  set (v := createReceiver cfg ec2) in *.
  eexists _, s', _. split; [exact Hbuild|]. split; [exact Hres|].
  unfold gatewayed_decls.
  change (nat_decls v api.ClusterHighlyAvailableNAT) with (haNAT_decls v).
  destruct (publicSide_decls_kinds sched v) as (He & Hg & Hr).
  destruct (private_decls_kinds sched v) as (He' & Hg' & Hr').
  destruct (haNAT_decls_kinds v) as (Hhe & Hhg & Hhr).
  rewrite !filter_app3 by assumption.
  split; [exact Hhe|]. split; [exact Hhg | exact Hhr].
Qed.

Lemma ha_nat_gateway_per_zone_witness :
  exists res s' delta,
    build (sameOrder inOrder) 0 emptyResourceSet
      (exampleConfig false (natMode "HighlyAvailable") None) offlineAPI
    = Returns res s'
    /\ resources (rs s') = resources emptyResourceSet ++ delta
    /\ map fst (List.filter isEIP delta) = ["NATIPUSEAST1A"; "NATIPUSEAST1B"]
    /\ map fst (List.filter isNatGateway delta)
       = ["NATGatewayUSEAST1A"; "NATGatewayUSEAST1B"].
Proof.
  destruct (ha_nat_gateway_per_zone (sameOrder inOrder) 0 emptyResourceSet
              (exampleConfig false (natMode "HighlyAvailable") None)
              offlineAPI {| api.Gateway := Some "HighlyAvailable" |}
              eq_refl eq_refl eq_refl eq_refl)
    as (res & s' & delta & Hbuild & Hres & Heip & Hgw & _).
  exists res, s', delta. split; [exact Hbuild|]. split; [exact Hres|].
  rewrite Heip, Hgw. split; reflexivity.
Defined.

Lemma filter_route_addSubnets_decls v topology refRT index subnets :
  List.filter isRoute (addSubnets_decls v topology refRT index subnets) = [].
Proof.
  apply filter_addSubnets_decls_none. intros i name subnet.
  unfold subnet_decls. destruct (autoIPv6 v); repeat constructor.
Qed.

Lemma filter_route_noNAT_decls v : List.filter isRoute (noNAT_decls v) = [].
Proof.
  unfold noNAT_decls.
  rewrite (filter_flat_map_decls isRoute _ (fun _ => [])) by reflexivity.
  apply flat_map_empty.
Qed.

Lemma filter_route_vpc_decls v : List.filter isRoute (vpc_decls v) = [].
Proof. unfold vpc_decls, autoAllocated_decls. by destruct (autoIPv6 v). Qed.

Lemma noNAT_decls_kinds v :
  List.filter isEIP (noNAT_decls v) = []
  /\ List.filter isNatGateway (noNAT_decls v) = [].
Proof.
  unfold noNAT_decls.
  rewrite (filter_flat_map_decls isEIP _ (fun _ => [])) by reflexivity.
  rewrite (filter_flat_map_decls isNatGateway _ (fun _ => []))
    by reflexivity.
  rewrite !flat_map_empty. split; reflexivity.
Qed.

(** With NAT disabled a gatewayed build declares no elastic address and no
    NAT gateway, and the only route in the whole graph is the public
    default route through the internet gateway: the private route tables
    are left without any route. *)
Theorem disabled_nat_no_private_route sched fuel rs0 cfg ec2 nat :
  api.VPC_ID (api.VPC cfg) = "" ->
  api.Enabled (api.PrivateCluster_ cfg) = false ->
  api.NAT (api.VPC cfg) = Some nat ->
  api.Gateway nat = Some api.ClusterDisableNAT ->
  exists res s' delta,
    build sched fuel rs0 cfg ec2 = Returns res s'
    /\ resources (rs s') = resources rs0 ++ delta
    /\ List.filter isEIP delta = []
    /\ List.filter isNatGateway delta = []
    /\ List.filter isRoute delta
       = [("PublicSubnetRoute",
           gfnec2.Route (gfnt.MakeRef "PublicRouteTable")
             (gfnt.NewString "0.0.0.0/0")
             (Some (gfnt.MakeRef "InternetGateway")) None
             ["VPCGatewayAttachment"])].
Proof.
  intros Hid Hfp Hnat Hgw.
  assert (Hzones : api.ClusterDisableNAT = api.ClusterSingleNAT ->
                   api.AvailabilityZones cfg <> []) by discriminate.
  destruct (build_gatewayed sched fuel rs0 cfg ec2 nat
              api.ClusterDisableNAT Hid Hfp Hnat Hgw eq_refl Hzones)
    as (s' & Hbuild & Hres & _).
  set (v := createReceiver cfg ec2) in *.
  eexists _, s', _. split; [exact Hbuild|]. split; [exact Hres|].
  unfold gatewayed_decls.
  change (nat_decls v api.ClusterDisableNAT) with (noNAT_decls v).
  destruct (publicSide_decls_kinds sched v) as (He & Hg & _).
  destruct (private_decls_kinds sched v) as (He' & Hg' & _).
  destruct (noNAT_decls_kinds v) as (Hne & Hng).
  rewrite !filter_app3 by assumption.
  split; [exact Hne|]. split; [exact Hng|].
  unfold publicSide_decls, public_decls, private_decls.
  rewrite !List.filter_app, filter_route_vpc_decls, filter_route_noNAT_decls,
    !filter_route_addSubnets_decls.
  reflexivity.
Qed.

Lemma disabled_nat_no_private_route_witness :
  exists res s' delta,
    build (sameOrder inOrder) 0 emptyResourceSet
      (exampleConfig false (natMode "Disabled") None) offlineAPI
    = Returns res s'
    /\ resources (rs s') = resources emptyResourceSet ++ delta
    /\ List.filter isEIP delta = []
    /\ List.filter isNatGateway delta = []
    /\ map fst (List.filter isRoute delta) = ["PublicSubnetRoute"].
Proof.
  destruct (disabled_nat_no_private_route (sameOrder inOrder) 0
              emptyResourceSet
              (exampleConfig false (natMode "Disabled") None)
              offlineAPI {| api.Gateway := Some "Disabled" |}
              eq_refl eq_refl eq_refl eq_refl)
    as (res & s' & delta & Hbuild & Hres & Heip & Hgw & Hroute).
  exists res, s', delta. split; [exact Hbuild|]. split; [exact Hres|].
  split; [exact Heip|]. split; [exact Hgw|]. rewrite Hroute. reflexivity.
Defined.

(** A fully-private build declares no route at all. *)
Theorem fullyPrivate_no_route sched fuel rs0 cfg ec2 :
  api.VPC_ID (api.VPC cfg) = "" ->
  api.Enabled (api.PrivateCluster_ cfg) = true ->
  exists res s' delta,
    build sched fuel rs0 cfg ec2 = Returns res s'
    /\ resources (rs s') = resources rs0 ++ delta
    /\ List.filter isRoute delta = [].
Proof.
  intros Hid Hfp.
  destruct (build_fullyPrivate sched fuel rs0 cfg ec2 Hid Hfp)
    as (s' & Hbuild & Hres & _).
  eexists _, s', _. split; [exact Hbuild|]. split; [exact Hres|].
  unfold fullyPrivate_decls, private_decls.
  rewrite !List.filter_app, filter_route_vpc_decls, filter_route_noNAT_decls,
    filter_route_addSubnets_decls.
  reflexivity.
Qed.

Lemma fullyPrivate_no_route_witness :
  exists res s' delta,
    build (sameOrder inOrder) 0 emptyResourceSet
      (exampleConfig true None (Some true)) offlineAPI = Returns res s'
    /\ resources (rs s') = resources emptyResourceSet ++ delta
    /\ List.filter isRoute delta = [].
Proof.
  apply (fullyPrivate_no_route (sameOrder inOrder) 0 emptyResourceSet
           (exampleConfig true None (Some true)) offlineAPI); reflexivity.
Defined.

(** *** The NAT configuration is read only by gatewayed builds *)

Lemma addNATGateways_nil v s :
  (api.NAT (api.VPC (clusterConfig v)) = None
   \/ exists nat, api.NAT (api.VPC (clusterConfig v)) = Some nat
                  /\ api.Gateway nat = None) ->
  addNATGateways v s = Panics NilDereference.
Proof.
  unfold addNATGateways. intros [Hnat | (nat & Hnat & Hgw)]; rewrite Hnat.
  - reflexivity.
  - simpl deref. rewrite bind_ret, Hgw. reflexivity.
Qed.

(** A gatewayed build that creates its VPC dereferences [VPC.NAT.Gateway]
    without a check: when the NAT section or its gateway mode is nil the
    build panics with a nil dereference instead of returning an error. *)
Theorem gatewayed_build_needs_nat_mode sched fuel rs0 cfg ec2 :
  api.VPC_ID (api.VPC cfg) = "" ->
  api.Enabled (api.PrivateCluster_ cfg) = false ->
  (api.NAT (api.VPC cfg) = None
   \/ exists nat, api.NAT (api.VPC cfg) = Some nat
                  /\ api.Gateway nat = None) ->
  build sched fuel rs0 cfg ec2 = Panics NilDereference.
Proof.
  intros Hid Hfp Hnil. unfold build.
  rewrite NewIPv4VPCResourceSet_create by exact Hid.
  unfold CreateTemplate. apply bind_panics.
  rewrite addResources_publicSide by done.
  apply bind_panics. by apply addNATGateways_nil.
Qed.

Lemma gatewayed_build_needs_nat_mode_witness :
  build (sameOrder inOrder) 0 emptyResourceSet (exampleConfig false None None)
    offlineAPI = Panics NilDereference.
Proof.
  apply (gatewayed_build_needs_nat_mode (sameOrder inOrder) 0
           emptyResourceSet (exampleConfig false None None) offlineAPI);
    [reflexivity | reflexivity | left; reflexivity].
Defined.

(** *** The subnet allocator: subnets, associations and returned details *)

Lemma filter_subnet_addSubnets_decls v topology refRT subnets :
  forall index,
    List.filter isSubnet (addSubnets_decls v topology refRT index subnets)
    = map (subnetDecl v topology) subnets.
Proof.
  induction subnets as [|[name subnet] rest IH]; intros index.
  - reflexivity.
  - cbn [addSubnets_decls]. rewrite List.filter_app, IH.
    unfold subnet_decls. by destruct (autoIPv6 v).
Qed.

Lemma filter_association_addSubnets_decls v topology refRT subnets :
  forall index,
    List.filter isAssociation
      (addSubnets_decls v topology refRT index subnets)
    = map (associationDecl topology refRT) subnets.
Proof.
  induction subnets as [|[name subnet] rest IH]; intros index.
  - reflexivity.
  - cbn [addSubnets_decls]. rewrite List.filter_app, IH.
    unfold subnet_decls. by destruct (autoIPv6 v).
Qed.

Lemma range_empty {V} (g : GoRange) (m : option (gmap string V)) :
  len m = 0%nat -> range g m = [].
Proof.
  intros Hlen. apply length_zero_iff_nil. by rewrite length_range.
Qed.

(** One pass of the allocator declares exactly one subnet and one
    route-table association per entry of the mapping, the association
    referring to the subnet declared just before it; public subnets carry
    the external load-balancer tag and hand out public addresses, private
    ones carry the internal tag and do not. The details returned are one
    per entry, in the order of visit, each referring by name to the subnet
    declared for it. On a nil or empty mapping the pass returns no details
    and leaves the store as it was. *)
Theorem addSubnets_one_subnet_per_entry g v refRT topology subnets s :
  exists srs s' delta,
    addSubnets g v refRT topology subnets s = Returns srs s'
    /\ resources (rs s') = resources (rs s) ++ delta
    /\ List.filter isSubnet delta
       = map (fun entry =>
                ("Subnet" +:+ api.string_of_topology topology
                 +:+ formatAZ (fst entry),
                 gfnec2.Subnet (gfnt.NewString (api.AZ (snd entry)))
                   (gfnt.NewString (api.CIDR (snd entry))) (vpcID v)
                   [{| gfncfn.Key :=
                         gfnt.NewString
                           match topology with
                           | api.SubnetTopologyPrivate =>
                               "kubernetes.io/role/internal-elb"
                           | api.SubnetTopologyPublic =>
                               "kubernetes.io/role/elb"
                           end;
                       gfncfn.Value := gfnt.NewString "1" |}]
                   match topology with
                   | api.SubnetTopologyPrivate => None
                   | api.SubnetTopologyPublic => Some gfnt.True
                   end))
           (range g subnets)
    /\ List.filter isAssociation delta
       = map (fun entry =>
                ("RouteTableAssociation" +:+ api.string_of_topology topology
                 +:+ formatAZ (fst entry),
                 gfnec2.SubnetRouteTableAssociation
                   (gfnt.MakeRef
                      ("Subnet" +:+ api.string_of_topology topology
                       +:+ formatAZ (fst entry)))
                   match topology with
                   | api.SubnetTopologyPrivate =>
                       Some (gfnt.MakeRef
                               ("PrivateRouteTable" +:+ formatAZ (fst entry)))
                   | api.SubnetTopologyPublic => refRT
                   end))
           (range g subnets)
    /\ map Subnet srs
       = map (fun d => Some (gfnt.MakeRef (fst d)))
           (List.filter isSubnet delta)
    /\ map AvailabilityZone srs
       = map (fun entry => api.AZ (snd entry)) (range g subnets)
    /\ length srs = len subnets
    /\ (len subnets = 0%nat -> srs = [] /\ s' = s).
Proof.
  eexists _, _, _. split; [apply addSubnets_returns|].
  split; [reflexivity|].
  rewrite filter_subnet_addSubnets_decls, filter_association_addSubnets_decls.
  split; [apply map_ext; intros [name subnet]; by destruct topology|].
  split; [apply map_ext; intros [name subnet]; by destruct topology|].
  split; [by rewrite !map_map|].
  split; [by rewrite map_map|].
  split; [by rewrite length_map, length_range|].
  intros Hlen. rewrite (range_empty g subnets Hlen). split; [reflexivity|].
  apply declare_nil.
Qed.

(** *** What [CreateTemplate] hands back, and the outputs *)

Lemma addNATGateways_frame v s r s' :
  addNATGateways v s = Returns r s' -> exists ds, s' = declare ds s.
Proof.
  unfold addNATGateways.
  destruct (api.NAT (api.VPC (clusterConfig v))) as [nat|]; [|discriminate].
  simpl deref. rewrite bind_ret.
  destruct (api.Gateway nat) as [mode|]; [|discriminate].
  simpl deref. rewrite bind_ret.
  destruct (String.eqb mode api.ClusterHighlyAvailableNAT).
  { rewrite (bind_returns _ _ _ _ _ (haNAT_returns _ _)).
    intros [= _ <-]. by eexists. }
  destruct (String.eqb mode api.ClusterSingleNAT).
  { destruct (zones v) as [|first rest] eqn:Hz.
    - rewrite (bind_panics _ _ _ _ (singleNAT_panics v s Hz)). discriminate.
    - rewrite (bind_returns _ _ _ _ _ (singleNAT_returns v first rest s Hz)).
      intros [= _ <-]. by eexists. }
  destruct (String.eqb mode api.ClusterDisableNAT).
  { rewrite (bind_returns _ _ _ _ _ (noNAT_returns _ _)).
    intros [= _ <-]. by eexists. }
  intros [= _ <-]. exists []. by rewrite declare_nil.
Qed.

Lemma addResources_outputs sched fuel v s r s' :
  addResources sched fuel v s = Returns r s' ->
  outputs_ (rs s') = outputs_ (rs s).
Proof.
  destruct (String.eqb_spec (api.VPC_ID (api.VPC (clusterConfig v))) "")
    as [Hid|Hid].
  - destruct (isFullyPrivate v) eqn:Hfp.
    + rewrite addResources_fullyPrivate by done. by intros [= _ <-].
    + rewrite addResources_publicSide by done. intros Hrun.
      apply bind_inv in Hrun as (err & s1 & Hnat & Hrest).
      apply addNATGateways_frame in Hnat as (ds & ->).
      destruct err as [err|].
      * by injection Hrest as _ <-.
      * rewrite (bind_returns _ _ _ _ _ (addSubnets_returns _ _ _ _ _ _))
          in Hrest.
        rewrite (bind_returns _ _ _ _ _ (setPrivate_returns _ _)) in Hrest.
        by injection Hrest as _ <-.
  - unfold addResources.
    destruct (String.eqb_spec (api.VPC_ID (api.VPC (clusterConfig v))) "")
      as [|_]; [done|].
    change (negb false) with true. cbv iota. intros Hrun.
    apply bind_inv in Hrun as (err & s1 & Himport & Hrest).
    apply importResources_frame in Himport as (calls & [Hrs _] & _).
    destruct err; injection Hrest as _ <-; by rewrite Hrs.
Qed.

Lemma CreateTemplate_inv sched fuel v s vpcRef details err s' :
  CreateTemplate sched fuel v s = Returns (vpcRef, details, err) s' ->
  match err with
  | Some _ =>
      vpcRef = None /\ details = None /\ outputs_ (rs s') = outputs_ (rs s)
  | None =>
      vpcRef = Some (vpcID v)
      /\ details = Some (subnetDetails s')
      /\ outputs_ (rs s')
         = outputs_ (rs s) ++ addOutputs_outputs v (subnetDetails s')
  end.
Proof.
  unfold CreateTemplate. intros Hrun.
  apply bind_inv in Hrun as (err0 & s1 & Hadd & Hrest).
  apply addResources_outputs in Hadd.
  destruct err0 as [e|].
  - injection Hrest as <- <- <- <-. by rewrite Hadd.
  - rewrite (bind_returns _ _ _ _ _ (addOutputs_returns _ _)) in Hrest.
    rewrite (bind_returns _ _ _ _ _ (getSubnetDetails_returns _)) in Hrest.
    injection Hrest as <- <- <- <-. simpl. by rewrite Hadd.
Qed.

Lemma NewIPv4VPCResourceSet_returns rs0 cfg ec2 :
  exists v s,
    NewIPv4VPCResourceSet rs0 cfg ec2 = Returns v s
    /\ clusterConfig v = cfg
    /\ outputs_ (rs s) = outputs_ rs0
    /\ vpcID v
       = if String.eqb (api.VPC_ID (api.VPC cfg)) "" then gfnt.MakeRef "VPC"
         else gfnt.NewString (api.VPC_ID (api.VPC cfg)).
Proof.
  destruct (String.eqb_spec (api.VPC_ID (api.VPC cfg)) "") as [Hid|Hid].
  - rewrite NewIPv4VPCResourceSet_create by exact Hid. by eexists _, _.
  - rewrite NewIPv4VPCResourceSet_import by exact Hid. by eexists _, _.
Qed.

(** A build that returns an error hands back neither the VPC reference nor
    the subnet details, and has registered no output: the outputs are
    defined only after every resource was added. *)
Theorem failed_build_hands_back_nothing
    sched fuel rs0 cfg ec2 vpcRef details err s' :
  build sched fuel rs0 cfg ec2 = Returns (vpcRef, details, Some err) s' ->
  vpcRef = None /\ details = None /\ outputs_ (rs s') = outputs_ rs0.
Proof.
  unfold build. intros Hbuild.
  destruct (NewIPv4VPCResourceSet_returns rs0 cfg ec2)
    as (v & s & Hnew & _ & Hout & _).
  rewrite Hnew in Hbuild.
  apply CreateTemplate_inv in Hbuild as (-> & -> & Houts).
  by rewrite Houts, Hout.
Qed.

Lemma failed_build_hands_back_nothing_witness :
  exists s',
    build (sameOrder inOrder) 0 emptyResourceSet
      (exampleConfig false (natMode "Shared") None) offlineAPI
    = Returns
        (None, None,
         Some (Errorf "%s is not a valid NAT gateway mode" ["Shared"])) s'
    /\ outputs_ (rs s') = [].
Proof.
  destruct (build (sameOrder inOrder) 0 emptyResourceSet
              (exampleConfig false (natMode "Shared") None) offlineAPI)
    as [[[vpcRef details] [err|]] s'| |] eqn:Hbuild;
    try (vm_compute in Hbuild; discriminate).
  destruct (failed_build_hands_back_nothing _ _ _ _ _ _ _ _ _ Hbuild)
    as (-> & -> & Hout).
  exists s'. split; [|exact Hout].
  vm_compute in Hbuild. injection Hbuild as <- <-. reflexivity.
Defined.

(** A build that returns without an error hands back the VPC reference (a
    reference by name to the VPC it declared, or the identifier of the
    existing VPC as a literal) and the subnet details, and registers, in
    this order: the VPC output; the NAT mode when the NAT section is set;
    the private and then the public subnets, each joined output listing
    exactly the subnet references of the returned details and left out
    when there are none; and the fully-private flag when it is set. *)
Theorem successful_build_outputs
    sched fuel rs0 cfg ec2 vpcRef details s' :
  build sched fuel rs0 cfg ec2 = Returns (vpcRef, details, None) s' ->
  exists ref d,
    vpcRef = Some ref /\ details = Some d
    /\ ref = (if String.eqb (api.VPC_ID (api.VPC cfg)) ""
              then gfnt.MakeRef "VPC"
              else gfnt.NewString (api.VPC_ID (api.VPC cfg)))
    /\ outputs_ (rs s')
       = outputs_ rs0
         ++ [{| outputName := outputs.ClusterVPC;
                outputValue := OutValue ref; outputExport := true |}]
         ++ match api.NAT (api.VPC cfg) with
            | Some nat =>
                [{| outputName := outputs.ClusterFeatureNATMode;
                    outputValue := OutNATMode (api.Gateway nat);
                    outputExport := false |}]
            | None => []
            end
         ++ match Private d with
            | [] => []
            | _ :: _ =>
                [{| outputName := outputs.ClusterSubnetsPrivate;
                    outputValue := OutJoined (map Subnet (Private d));
                    outputExport := true |}]
            end
         ++ match Public d with
            | [] => []
            | _ :: _ =>
                [{| outputName := outputs.ClusterSubnetsPublic;
                    outputValue := OutJoined (map Subnet (Public d));
                    outputExport := true |}]
            end
         ++ (if api.Enabled (api.PrivateCluster_ cfg) then
               [{| outputName := outputs.ClusterFullyPrivate;
                   outputValue := OutBool true; outputExport := true |}]
             else []).
Proof.
  unfold build. intros Hbuild.
  destruct (NewIPv4VPCResourceSet_returns rs0 cfg ec2)
    as (v & s & Hnew & Hcfg & Hout & Hvpc).
  rewrite Hnew in Hbuild.
  apply CreateTemplate_inv in Hbuild as (-> & -> & Houts).
  exists (vpcID v), (subnetDetails s').
  split; [reflexivity|]. split; [reflexivity|]. split; [exact Hvpc|].
  rewrite Houts, Hout. unfold addOutputs_outputs, isFullyPrivate.
  rewrite Hcfg. unfold PrivateSubnetRefs, PublicSubnetRefs.
  do 3 f_equal.
  destruct (Private (subnetDetails s')), (Public (subnetDetails s'));
    reflexivity.
Qed.

Lemma successful_build_outputs_witness :
  exists d s',
    build (sameOrder inOrder) 0 emptyResourceSet
      (exampleConfig true None None) offlineAPI
    = Returns (Some (gfnt.MakeRef "VPC"), Some d, None) s'
    /\ map outputName (outputs_ (rs s'))
       = [outputs.ClusterVPC; outputs.ClusterSubnetsPrivate;
          outputs.ClusterFullyPrivate].
Proof.
  destruct (build (sameOrder inOrder) 0 emptyResourceSet
              (exampleConfig true None None) offlineAPI)
    as [[[vpcRef details] [err|]] s'| |] eqn:Hbuild;
    try (vm_compute in Hbuild; discriminate).
  destruct (successful_build_outputs _ _ _ _ _ _ _ _ Hbuild)
    as (ref & d & -> & -> & Href & Hout).
  exists d, s'. split.
  - f_equal. f_equal. f_equal. f_equal. exact Href.
  - rewrite Hout.
    assert (Hd : map Subnet (Private d)
                 = [Some (gfnt.MakeRef "SubnetPrivateUSEAST1A");
                    Some (gfnt.MakeRef "SubnetPrivateUSEAST1B")]
                 /\ Public d = []).
    { vm_compute in Hbuild. injection Hbuild as _ <- _. split; reflexivity. }
    destruct Hd as [Hprivate Hpublic]. rewrite Hpublic.
    destruct (Private d); [discriminate|]. reflexivity.
Defined.

(** *** Pagination of the route-table query *)

Lemma importRouteTables_pages_answers ec2 subnetIDs pages last :
  forall fuel nextToken routeTables s,
    answersInPages ec2 subnetIDs nextToken pages last ->
    (length pages < fuel)%nat ->
    importRouteTables_pages fuel ec2 subnetIDs nextToken routeTables s
    = Returns
        match last with
        | inl lastTables =>
            inl (routeTables ++ concat (map fst pages) ++ lastTables)
        | inr err => inr (Wrap err "error describing route tables")
        end
        (withCalls
           (query subnetIDs nextToken
            :: map (fun page => query subnetIDs (Some (snd page))) pages)
           s).
Proof.
  induction pages as [|[tables token] rest IH];
    intros fuel nextToken routeTables s Hanswers Hfuel;
    (destruct fuel as [|fuel]; [simpl in Hfuel; lia|]);
    cbn [importRouteTables_pages];
    fold (query subnetIDs nextToken);
    rewrite (bind_returns _ _ _ _ _ (describeRouteTables_returns _ _ _)).
  - simpl in Hanswers. rewrite Hanswers.
    destruct last as [lastTables|err]; reflexivity.
  - destruct Hanswers as [Hpage Hrest]. rewrite Hpage. cbv iota beta.
    cbn [ec2.OutNextToken ec2.RouteTables].
    rewrite (IH fuel (Some token) _ _ Hrest) by (simpl in Hfuel; lia).
    rewrite withCalls_withCalls. cbn [map concat fst snd].
    destruct last as [lastTables|err]; [|reflexivity].
    by rewrite <- !app_assoc.
Qed.

(** [importRouteTables] follows the continuation tokens: starting without
    a token and without a table, it sends one query per page, the first
    without a token and each further one with the token of the page
    before, and stops at the first page without a token, returning the
    tables of all pages in the order they came; if a query fails it stops
    there and returns the wrapped error instead of the tables gathered so
    far. *)
Theorem importRouteTables_pages_follows_tokens ec2 subnetIDs pages last :
  forall fuel s,
    answersInPages ec2 subnetIDs None pages last ->
    (length pages < fuel)%nat ->
    importRouteTables_pages fuel ec2 subnetIDs None [] s
    = Returns
        match last with
        | inl lastTables => inl (concat (map fst pages) ++ lastTables)
        | inr err => inr (Wrap err "error describing route tables")
        end
        (withCalls
           (query subnetIDs None
            :: map (fun page => query subnetIDs (Some (snd page))) pages)
           s).
Proof.
  intros fuel s Hanswers Hfuel.
  apply (importRouteTables_pages_answers ec2 subnetIDs pages last fuel None
           [] s Hanswers Hfuel).
Qed.

Lemma importRouteTables_pages_follows_tokens_witness :
  importRouteTables_pages 2 (pagedDirectory [explicitTable]) ["subnet-1"]
    None [] (initialStore emptyResourceSet)
  = Returns (inl [explicitTable])
      (withCalls [query ["subnet-1"] None; query ["subnet-1"] (Some "page-2")]
         (initialStore emptyResourceSet)).
Proof.
  apply (importRouteTables_pages_follows_tokens
           (pagedDirectory [explicitTable]) ["subnet-1"] [([], "page-2")]
           (inl [explicitTable]) 2 (initialStore emptyResourceSet)).
  - split; reflexivity.
  - simpl. lia.
Defined.

(** The pagination has no bound of its own: against a directory that hands
    out a continuation token with every page, [importRouteTables] keeps
    asking and never returns, however many pages are allowed for. *)
Theorem importRouteTables_pages_unbounded ec2 subnetIDs :
  (forall input,
      exists output token,
        DescribeRouteTables ec2 input = inl output
        /\ ec2.OutNextToken output = Some token) ->
  forall fuel nextToken routeTables s,
    importRouteTables_pages fuel ec2 subnetIDs nextToken routeTables s
    = OutOfFuel.
Proof.
  intros Hmore. induction fuel as [|fuel IH]; intros nextToken routeTables s.
  - reflexivity.
  - cbn [importRouteTables_pages].
    rewrite (bind_returns _ _ _ _ _ (describeRouteTables_returns _ _ _)).
    destruct (Hmore {| ec2.Filters :=
                         [{| ec2.Name := "association.subnet-id";
                             ec2.Values := subnetIDs |}];
                       ec2.NextToken := nextToken |})
      as (output & token & -> & ->).
    apply IH.
Qed.

Lemma importRouteTables_pages_unbounded_witness :
  importRouteTables_pages 1000 endlessDirectory ["subnet-1"] None []
    (initialStore emptyResourceSet) = OutOfFuel.
Proof.
  apply (importRouteTables_pages_unbounded endlessDirectory ["subnet-1"]).
  intros input. by eexists _, _.
Defined.

(** *** Errors and results of an import *)

Lemma addResources_import sched fuel v s :
  api.VPC_ID (api.VPC (clusterConfig v)) <> "" ->
  addResources sched fuel v s
  = (let* err := importResources sched fuel v in
     match err with
     | Some err => ret (Some (Wrap err "error importing VPC resources"))
     | None => ret None
     end) s.
Proof.
  intros Hid. unfold addResources.
  destruct (String.eqb_spec (api.VPC_ID (api.VPC (clusterConfig v))) "")
    as [|_]; [done|].
  reflexivity.
Qed.

Lemma build_import_fails sched fuel rs0 cfg ec2 err s1 :
  api.VPC_ID (api.VPC cfg) <> "" ->
  importResources sched fuel (importReceiver cfg ec2) (initialStore rs0)
  = Returns (Some err) s1 ->
  build sched fuel rs0 cfg ec2
  = Returns (None, None, Some (Wrap err "error importing VPC resources")) s1.
Proof.
  intros Hid Himport. unfold build.
  rewrite NewIPv4VPCResourceSet_import by exact Hid.
  assert (Hadd : addResources sched fuel (importReceiver cfg ec2)
                   (initialStore rs0)
                 = Returns (Some (Wrap err "error importing VPC resources"))
                     s1).
  { rewrite addResources_import by exact Hid.
    by rewrite (bind_returns _ _ _ _ _ Himport). }
  unfold CreateTemplate. by rewrite (bind_returns _ _ _ _ _ Hadd).
Qed.

(** When a query of the route-table directory fails during a fully-private
    import, the build returns that error, wrapped once by the query loop
    and once by the import, after exactly the queries answered so far and
    the failed one; nothing is recorded in the subnet details. *)
Theorem import_remote_failure_is_wrapped
    sched fuel rs0 cfg ec2 private pages err :
  api.VPC_ID (api.VPC cfg) <> "" ->
  api.Enabled (api.PrivateCluster_ cfg) = true ->
  api.Private (api.Subnets (api.VPC cfg)) = Some private ->
  answersInPages ec2
    (map (fun entry => api.ID (snd entry))
       (range (rangeImportIDs sched) (Some private)))
    None pages (inr err) ->
  (length pages < fuel)%nat ->
  exists s',
    build sched fuel rs0 cfg ec2
    = Returns
        (None, None,
         Some (Wrap (Wrap err "error describing route tables")
                 "error importing VPC resources")) s'
    /\ length (ec2Calls s') = S (length pages)
    /\ subnetDetails s' = {| Private := []; Public := [] |}
    /\ rs s' = rs0.
Proof.
  intros Hid Hfp Hprivate Hanswers Hfuel.
  set (v := importReceiver cfg ec2).
  assert (Hids : importedIDs sched v
                 = map (fun entry => api.ID (snd entry))
                     (range (rangeImportIDs sched) (Some private))).
  { unfold importedIDs, privateSubnets. simpl. by rewrite Hprivate. }
  pose proof (importRouteTables_pages_answers ec2 _ pages (inr err)
                fuel None [] (initialStore rs0) Hanswers Hfuel) as Hpages.
  rewrite <- Hids in Hpages.
  pose proof (importResources_fullyPrivate sched fuel v private
                (initialStore rs0) _ _ Hfp Hprivate Hpages) as Himport.
  cbv iota in Himport.
  eexists. split.
  - apply build_import_fails; [exact Hid|]. apply Himport. discriminate.
  - split; [|split; reflexivity].
    simpl. by rewrite length_map.
Qed.

Lemma import_remote_failure_is_wrapped_witness :
  exists s',
    build (sameOrder inOrder) 1 emptyResourceSet (importConfig true)
      offlineAPI
    = Returns
        (None, None,
         Some (Wrap (Wrap (AWSError "RequestError")
                       "error describing route tables")
                 "error importing VPC resources")) s'
    /\ length (ec2Calls s') = 1%nat
    /\ subnetDetails s' = {| Private := []; Public := [] |}
    /\ rs s' = emptyResourceSet.
Proof.
  apply (import_remote_failure_is_wrapped (sameOrder inOrder) 1
           emptyResourceSet (importConfig true) offlineAPI
           {[ "us-east-1a" :=
                exampleSubnet "subnet-1" "us-east-1a" "10.0.0.0/19" ]}
           [] (AWSError "RequestError")).
  - discriminate.
  - reflexivity.
  - reflexivity.
  - reflexivity.
  - simpl. lia.
Defined.

Lemma importedSubnets_routes subnets routes :
  match importedSubnets subnets (Some routes) with
  | inl srs =>
      srs = map (fun entry => passThrough (routes !! api.ID (snd entry)) entry)
              subnets
      /\ Forall (fun entry => is_Some (routes !! api.ID (snd entry))) subnets
  | inr err =>
      exists before entry after,
        subnets = before ++ entry :: after
        /\ Forall (fun entry => is_Some (routes !! api.ID (snd entry))) before
        /\ routes !! api.ID (snd entry) = None
        /\ err = Errorf notFoundFormat [api.ID (snd entry)]
  end.
Proof.
  induction subnets as [|[name network] rest IH].
  - split; [reflexivity | constructor].
  - cbn [importedSubnets importedSubnet].
    destruct (routes !! api.ID network) as [rt|] eqn:Hrt.
    + destruct (importedSubnets rest (Some routes)) as [srs|err].
      * destruct IH as [-> Hall]. split.
        -- cbn [map]. unfold passThrough at 1. cbn [snd]. by rewrite Hrt.
        -- apply Forall_cons. split; [|exact Hall]. cbn [snd]. by rewrite Hrt.
      * destruct IH as (before & entry & after & -> & Hall & Hnone & ->).
        exists ((name, network) :: before), entry, after.
        split; [reflexivity|]. split; [|by split].
        apply Forall_cons. split; [|exact Hall]. cbn [snd]. by rewrite Hrt.
    + exists [], (name, network), rest. split; [reflexivity|].
      split; [constructor|]. by split.
Qed.

(** [makeSubnetResources] never panics and leaves the store alone. Without
    a route map it passes every subnet through, with no route table. With
    a route map it returns either one [SubnetResource] per subnet, in the
    order of visit, each with the table the map holds for the subnet's
    identifier, or, as soon as it reaches a subnet whose identifier the map
    lacks, the not-found error naming that subnet, and no subnet at all. *)
Theorem makeSubnetResources_all_or_first_missing g subnets subnetRoutes s :
  exists r,
    makeSubnetResources g subnets subnetRoutes s = Returns r s
    /\ match subnetRoutes, r with
       | None, _ => r = inl (map (passThrough None) (range g subnets))
       | Some routes, inl srs =>
           srs = map (fun entry =>
                        passThrough (routes !! api.ID (snd entry)) entry)
                   (range g subnets)
           /\ Forall (fun entry => is_Some (routes !! api.ID (snd entry)))
                (range g subnets)
       | Some routes, inr err =>
           exists before entry after,
             range g subnets = before ++ entry :: after
             /\ Forall (fun entry => is_Some (routes !! api.ID (snd entry)))
                  before
             /\ routes !! api.ID (snd entry) = None
             /\ err = Errorf notFoundFormat [api.ID (snd entry)]
       end.
Proof.
  eexists. split; [apply makeSubnetResources_returns|].
  destruct subnetRoutes as [routes|].
  - apply importedSubnets_routes.
  - apply importedSubnets_no_routes.
Qed.

Lemma last_as_lookup (l : list string) :
  match last l with Some x => Some x | None => None end = last l.
Proof. by destruct (last l). Qed.

(** The map [importRouteTables] returns records, for every subnet named in
    the delivered associations, the table of the association delivered
    last: a later association silently replaces an earlier one for the
    same subnet, and a subnet without an association is absent. *)
Theorem importRouteTables_last_association_wins
    g fuel ec2 subnets s routeTables s1 :
  importRouteTables_pages fuel ec2
    (map (fun entry => api.ID (snd entry)) (range g subnets)) None [] s
  = Returns (inl routeTables) s1 ->
  wellFormed routeTables = true ->
  hasMain routeTables = false ->
  exists subnetRoutes,
    importRouteTables g fuel ec2 subnets s = Returns (inl subnetRoutes) s1
    /\ forall subnetId,
        subnetRoutes !! subnetId = last (routeTablesOf subnetId routeTables).
Proof.
  intros Hpages Hwf Hmain. unfold importRouteTables.
  rewrite (bind_returns _ _ _ _ _ Hpages).
  rewrite importRouteTables_tables_returns by exact Hwf. rewrite Hmain.
  eexists. split; [reflexivity|].
  intros subnetId. rewrite lookup_recordPairs, lookup_empty.
  apply last_as_lookup.
Qed.

Lemma importRouteTables_last_association_wins_witness :
  exists subnetRoutes,
    importRouteTables inOrder 1
      (onePageDirectory
         [explicitTable;
          {| ec2.Associations :=
               [{| ec2.Main := None; ec2.SubnetId := Some "subnet-1" |}];
             ec2.RouteTableId := Some "rtb-2" |}])
      (api.Private (api.Subnets (api.VPC (importConfig true))))
      (initialStore emptyResourceSet)
    = Returns (inl subnetRoutes)
        (withCalls [query ["subnet-1"] None] (initialStore emptyResourceSet))
    /\ subnetRoutes !! "subnet-1" = Some "rtb-2".
Proof.
  destruct (importRouteTables_last_association_wins inOrder 1
              (onePageDirectory
                 [explicitTable;
                  {| ec2.Associations :=
                       [{| ec2.Main := None;
                           ec2.SubnetId := Some "subnet-1" |}];
                     ec2.RouteTableId := Some "rtb-2" |}])
              (api.Private (api.Subnets (api.VPC (importConfig true))))
              (initialStore emptyResourceSet) _ _
              eq_refl eq_refl eq_refl)
    as (subnetRoutes & Hrun & Hlookup).
  exists subnetRoutes. split; [exact Hrun|].
  rewrite Hlookup. reflexivity.
Defined.

Lemma importRouteTables_associations_app rt before rest :
  forall subnetRoutes s,
    is_Some (ec2.RouteTableId rt) ->
    forallb (fun rta => isMain rta || bool_decide (is_Some (ec2.SubnetId rta)))
      before = true ->
    existsb isMain before = false ->
    importRouteTables_associations rt (before ++ rest) subnetRoutes s
    = importRouteTables_associations rt rest
        (recordPairs (tablePairs rt before) subnetRoutes) s.
Proof.
  intros subnetRoutes s [routeTableId Hid]. revert subnetRoutes s.
  induction before as [|rta before IH]; intros subnetRoutes s Hwf Hmain.
  - reflexivity.
  - simpl in Hwf, Hmain.
    apply andb_true_iff in Hwf as [Hrta Hwf].
    apply orb_false_iff in Hmain as [Hnot Hmain].
    rewrite Hnot in Hrta. simpl in Hrta.
    apply bool_decide_eq_true in Hrta as [subnetId Hsub].
    cbn [app importRouteTables_associations].
    unfold isMain in Hnot.
    destruct (ec2.Main rta) as [[|]|]; [discriminate|..];
      rewrite Hsub, Hid; simpl deref; rewrite !bind_ret;
      rewrite IH by assumption;
      unfold tablePairs; simpl; rewrite Hsub, Hid; reflexivity.
Qed.

Lemma importRouteTables_tables_app before rest :
  forall subnetRoutes s,
    wellFormed before = true ->
    hasMain before = false ->
    importRouteTables_tables (before ++ rest) subnetRoutes s
    = importRouteTables_tables rest
        (recordPairs (associationPairs before) subnetRoutes) s.
Proof.
  induction before as [|rt before IH]; intros subnetRoutes s Hwf Hmain.
  - reflexivity.
  - simpl in Hwf, Hmain.
    apply andb_true_iff in Hwf as [Hrt Hwf].
    apply andb_true_iff in Hrt as [Hid Hassoc].
    apply bool_decide_eq_true in Hid.
    apply orb_false_iff in Hmain as [Hnot Hmain].
    cbn [app importRouteTables_tables associationPairs flat_map].
    rewrite (bind_returns _ _ _ _ _
               (importRouteTables_associations_returns rt _ _ _ Hid Hassoc)).
    rewrite Hnot, IH by assumption. by rewrite recordPairs_app.
Qed.

(** [importRouteTables] dereferences the subnet identifier of every
    association that is not flagged as main: when the directory delivers
    an association that names no subnet (as a gateway association does)
    before any main association, the import panics with a nil dereference
    instead of skipping it or returning an error. *)
Theorem importRouteTables_unnamed_association_panics
    g fuel ec2 subnets s s1 before rt after associated rta others :
  importRouteTables_pages fuel ec2
    (map (fun entry => api.ID (snd entry)) (range g subnets)) None [] s
  = Returns (inl (before ++ rt :: after)) s1 ->
  wellFormed before = true ->
  hasMain before = false ->
  ec2.Associations rt = associated ++ rta :: others ->
  is_Some (ec2.RouteTableId rt) ->
  forallb (fun rta => isMain rta || bool_decide (is_Some (ec2.SubnetId rta)))
    associated = true ->
  existsb isMain associated = false ->
  ec2.Main rta <> Some true ->
  ec2.SubnetId rta = None ->
  importRouteTables g fuel ec2 subnets s = Panics NilDereference.
Proof.
  intros Hpages Hwf Hmain Hassoc Hid Hok Hnone Hrta Hsub.
  unfold importRouteTables. rewrite (bind_returns _ _ _ _ _ Hpages).
  rewrite importRouteTables_tables_app by assumption.
  cbn [importRouteTables_tables]. apply bind_panics.
  rewrite Hassoc, importRouteTables_associations_app by assumption.
  cbn [importRouteTables_associations]. rewrite Hsub.
  destruct (ec2.Main rta) as [[|]|]; [done|reflexivity..].
Qed.

Lemma importRouteTables_unnamed_association_panics_witness :
  importRouteTables inOrder 1 (onePageDirectory [explicitTable; gatewayTable])
    (api.Private (api.Subnets (api.VPC (importConfig true))))
    (initialStore emptyResourceSet)
  = Panics NilDereference.
Proof.
  apply (importRouteTables_unnamed_association_panics inOrder 1
           (onePageDirectory [explicitTable; gatewayTable])
           (api.Private (api.Subnets (api.VPC (importConfig true))))
           (initialStore emptyResourceSet)
           (withCalls [query ["subnet-1"] None]
              (initialStore emptyResourceSet))
           [explicitTable] gatewayTable [] []
           {| ec2.Main := None; ec2.SubnetId := None |} []);
    try reflexivity.
  - by eexists.
  - discriminate.
Defined.

(** *** Imports, subnet by subnet *)

(** Without the fully-private flag an import validates nothing: the build
    returns, asks the directory nothing, and hands back every given subnet
    as a literal reference to its identifier with its zone and no route
    table; the details of a role hold each subnet of that role's mapping
    exactly once, whatever order the mapping was traversed in. *)
Theorem import_passes_subnets_through sched fuel rs0 cfg ec2 :
  api.VPC_ID (api.VPC cfg) <> "" ->
  api.Enabled (api.PrivateCluster_ cfg) = false ->
  exists details s',
    build sched fuel rs0 cfg ec2
    = Returns
        (Some (gfnt.NewString (api.VPC_ID (api.VPC cfg))), Some details, None)
        s'
    /\ ec2Calls s' = []
    /\ Private details
       = map (fun entry =>
                {| AvailabilityZone := api.AZ (snd entry);
                   Subnet := Some (gfnt.NewString (api.ID (snd entry)));
                   RouteTable := None |})
           (range (rangeMakePrivate sched)
              (api.Private (api.Subnets (api.VPC cfg))))
    /\ Public details
       = map (fun entry =>
                {| AvailabilityZone := api.AZ (snd entry);
                   Subnet := Some (gfnt.NewString (api.ID (snd entry)));
                   RouteTable := None |})
           (range (rangeMakePublic sched)
              (api.Public (api.Subnets (api.VPC cfg))))
    /\ Private details
       ≡ₚ map (fun entry =>
                 {| AvailabilityZone := api.AZ (snd entry);
                    Subnet := Some (gfnt.NewString (api.ID (snd entry)));
                    RouteTable := None |})
            (entries (api.Private (api.Subnets (api.VPC cfg))))
    /\ Public details
       ≡ₚ map (fun entry =>
                 {| AvailabilityZone := api.AZ (snd entry);
                    Subnet := Some (gfnt.NewString (api.ID (snd entry)));
                    RouteTable := None |})
            (entries (api.Public (api.Subnets (api.VPC cfg)))).
Proof.
  intros Hid Hfp. unfold build.
  rewrite NewIPv4VPCResourceSet_import by exact Hid.
  set (v := importReceiver cfg ec2).
  assert (Hadd : addResources sched fuel v (initialStore rs0)
                 = Returns None
                     (importPublicStore sched v
                        match privateSubnets v with
                        | Some _ =>
                            withPrivate
                              (map (fun entry =>
                                      {| AvailabilityZone := api.AZ (snd entry);
                                         Subnet :=
                                           Some (gfnt.NewString
                                                   (api.ID (snd entry)));
                                         RouteTable := None |})
                                 (range (rangeMakePrivate sched)
                                    (privateSubnets v)))
                              (initialStore rs0)
                        | None => initialStore rs0
                        end)).
  { rewrite addResources_import by exact Hid.
    by rewrite (bind_returns _ _ _ _ _
                  (importResources_gatewayed sched fuel v _ Hfp)). }
  unfold CreateTemplate.
  rewrite (bind_returns _ _ _ _ _ Hadd).
  rewrite (bind_returns _ _ _ _ _ (addOutputs_returns _ _)).
  rewrite (bind_returns _ _ _ _ _ (getSubnetDetails_returns _)).
  eexists _, _. split; [reflexivity|].
  unfold importPublicStore, privateSubnets, publicSubnets. simpl clusterConfig.
  assert (Hperm : forall g (m : api.AZSubnetMap) (f : _ -> SubnetResource),
             map f (range g m) ≡ₚ map f (entries m)).
  { intros g m f. unfold range. by rewrite (order_perm g _ (entries m)). }
  assert (Hnil : forall g, range g (None : api.AZSubnetMap) = []).
  { intros g. by apply range_empty. }
  destruct (api.Private (api.Subnets (api.VPC cfg))) as [private|],
    (api.Public (api.Subnets (api.VPC cfg))) as [public|];
    rewrite ?Hnil;
    (split; [reflexivity|]); (split; [reflexivity|]);
    (split; [reflexivity|]); split; apply Hperm || reflexivity.
Qed.

Lemma import_passes_subnets_through_witness :
  exists details s',
    build (sameOrder reversed) 0 emptyResourceSet (importConfig false)
      offlineAPI
    = Returns (Some (gfnt.NewString "vpc-1"), Some details, None) s'
    /\ ec2Calls s' = []
    /\ Private details
       = [{| AvailabilityZone := "us-east-1a";
             Subnet := Some (gfnt.NewString "subnet-1");
             RouteTable := None |}]
    /\ Public details
       = [{| AvailabilityZone := "us-east-1a";
             Subnet := Some (gfnt.NewString "subnet-2");
             RouteTable := None |}].
Proof.
  destruct (import_passes_subnets_through (sameOrder reversed) 0
              emptyResourceSet (importConfig false) offlineAPI)
    as (details & s' & Hbuild & Hcalls & Hprivate & Hpublic & _);
    [discriminate | reflexivity |].
  exists details, s'. split; [exact Hbuild|]. split; [exact Hcalls|].
  rewrite Hprivate, Hpublic. split; vm_compute; reflexivity.
Defined.

Lemma importedSubnets_all subnets routes :
  Forall (fun entry => is_Some (routes !! api.ID (snd entry))) subnets ->
  importedSubnets subnets (Some routes)
  = inl (map (fun entry => passThrough (routes !! api.ID (snd entry)) entry)
           subnets).
Proof.
  induction 1 as [|[name network] rest [rt Hrt] _ IH]; [reflexivity|].
  cbn [importedSubnets importedSubnet map snd] in *.
  rewrite Hrt, IH. reflexivity.
Qed.

Lemma importedSubnets_first_missing before entry after routes :
  Forall (fun entry => is_Some (routes !! api.ID (snd entry))) before ->
  routes !! api.ID (snd entry) = None ->
  importedSubnets (before ++ entry :: after) (Some routes)
  = inr (Errorf notFoundFormat [api.ID (snd entry)]).
Proof.
  intros Hbefore Hnone.
  induction Hbefore as [|[name network] rest [rt Hrt] _ IH].
  - destruct entry as [name network].
    cbn [app importedSubnets importedSubnet snd] in *. by rewrite Hnone.
  - cbn [app importedSubnets importedSubnet snd] in *. by rewrite Hrt, IH.
Qed.

Lemma recorded_route_table routeTables subnetId :
  recordPairs (associationPairs routeTables) ∅ !! subnetId
  = last (routeTablesOf subnetId routeTables).
Proof. rewrite lookup_recordPairs, lookup_empty. apply last_as_lookup. Qed.

(** A fully-private import is all or nothing over the private subnets.
    Once the directory has delivered its records, none of them flagged as
    main: if every private subnet has an association on record, the import
    succeeds and records each subnet with the table of its last delivered
    association; if not, it returns the not-found error naming the first
    subnet, in the order of visit, without an association, and records no
    private subnet at all. *)
Theorem import_validates_every_private_subnet
    sched fuel v private routeTables s s1 :
  isFullyPrivate v = true ->
  api.Private (api.Subnets (api.VPC (clusterConfig v))) = Some private ->
  importRouteTables_pages fuel (ec2API v) (importedIDs sched v) None [] s
  = Returns (inl routeTables) s1 ->
  wellFormed routeTables = true ->
  hasMain routeTables = false ->
  (Forall (fun entry => routeTablesOf (api.ID (snd entry)) routeTables <> [])
     (range (rangeMakePrivate sched) (Some private)) ->
   exists s',
     importResources sched fuel v s = Returns None s'
     /\ Private (subnetDetails s')
        = map (fun entry =>
                 {| AvailabilityZone := api.AZ (snd entry);
                    Subnet := Some (gfnt.NewString (api.ID (snd entry)));
                    RouteTable :=
                      gfnt.NewString
                        <$> last (routeTablesOf (api.ID (snd entry))
                                    routeTables) |})
            (range (rangeMakePrivate sched) (Some private)))
  /\ (forall before entry after,
        range (rangeMakePrivate sched) (Some private)
        = before ++ entry :: after ->
        Forall (fun entry =>
                  routeTablesOf (api.ID (snd entry)) routeTables <> [])
          before ->
        routeTablesOf (api.ID (snd entry)) routeTables = [] ->
        importResources sched fuel v s
        = Returns (Some (Errorf notFoundFormat [api.ID (snd entry)])) s1
        /\ subnetDetails s1 = subnetDetails s).
Proof.
  intros Hfp Hprivate Hpages Hwf Hmain.
  pose proof (importResources_fullyPrivate sched fuel v private s _ s1
                Hfp Hprivate Hpages) as Hrun.
  rewrite Hrun by (by intros ? [= <-]). clear Hrun. rewrite Hmain.
  unfold privateSubnets. rewrite Hprivate.
  assert (Hsome : forall l : list (string * api.AZSubnetSpec),
             Forall (fun entry =>
                       routeTablesOf (api.ID (snd entry)) routeTables <> []) l ->
             Forall (fun entry =>
                       is_Some (recordPairs (associationPairs routeTables) ∅
                                !! api.ID (snd entry))) l).
  { intros l Hl. eapply Forall_impl; [exact Hl|]. intros entry Hne.
    rewrite recorded_route_table. by apply last_is_Some. }
  split.
  - intros Hall. rewrite (importedSubnets_all _ _ (Hsome _ Hall)).
    eexists. split; [reflexivity|].
    unfold importPublicStore.
    assert (Hdetails :
      forall l, Private (subnetDetails (withPrivate l s1)) = l)
      by reflexivity.
    destruct (publicSubnets v); cbn [subnetDetails withPublic Private];
      rewrite ?Hdetails; apply map_ext; intros entry;
      unfold passThrough; by rewrite recorded_route_table.
  - intros before entry after Hrange Hbefore Hnone. rewrite Hrange.
    rewrite (importedSubnets_first_missing before entry after _
               (Hsome _ Hbefore))
      by (by rewrite recorded_route_table, Hnone).
    split; [reflexivity|].
    apply importRouteTables_pages_frame in Hpages as (calls & -> & _).
    reflexivity.
Qed.

Lemma import_validates_every_private_subnet_witness :
  (exists s',
     importResources (sameOrder inOrder) 1
       (importReceiver (importConfig true) (onePageDirectory [explicitTable]))
       (initialStore emptyResourceSet) = Returns None s'
     /\ Private (subnetDetails s')
        = [{| AvailabilityZone := "us-east-1a";
              Subnet := Some (gfnt.NewString "subnet-1");
              RouteTable := Some (gfnt.NewString "rtb-1") |}])
  /\ exists s1,
      importResources (sameOrder inOrder) 1
        (importReceiver importTwoConfig (onePageDirectory [explicitTable]))
        (initialStore emptyResourceSet)
      = Returns (Some (Errorf notFoundFormat ["subnet-3"])) s1
      /\ subnetDetails s1 = {| Private := []; Public := [] |}.
Proof.
  split.
  - destruct (import_validates_every_private_subnet (sameOrder inOrder) 1
                (importReceiver (importConfig true)
                   (onePageDirectory [explicitTable]))
                {[ "us-east-1a" :=
                     exampleSubnet "subnet-1" "us-east-1a" "10.0.0.0/19" ]}
                [explicitTable] (initialStore emptyResourceSet)
                (withCalls [query ["subnet-1"] None]
                   (initialStore emptyResourceSet))
                eq_refl eq_refl eq_refl eq_refl eq_refl) as [Hall _].
    destruct Hall as (s' & Hrun & Hdetails).
    { vm_compute. apply Forall_cons. split; [discriminate | constructor]. }
    exists s'. split; [exact Hrun|]. rewrite Hdetails.
    vm_compute. reflexivity.
  - destruct (import_validates_every_private_subnet (sameOrder inOrder) 1
                (importReceiver importTwoConfig
                   (onePageDirectory [explicitTable]))
                (<["us-east-1a" :=
                     exampleSubnet "subnet-1" "us-east-1a" "10.0.0.0/19"]>
                   (<["us-east-1b" :=
                        exampleSubnet "subnet-3" "us-east-1b"
                          "10.0.64.0/19"]> ∅))
                [explicitTable] (initialStore emptyResourceSet)
                (withCalls [query ["subnet-1"; "subnet-3"] None]
                   (initialStore emptyResourceSet))
                eq_refl eq_refl eq_refl eq_refl eq_refl) as [_ Hmissing].
    destruct (Hmissing
                [("us-east-1a",
                  exampleSubnet "subnet-1" "us-east-1a" "10.0.0.0/19")]
                ("us-east-1b",
                 exampleSubnet "subnet-3" "us-east-1b" "10.0.64.0/19") [])
      as [Hrun Hdetails].
    + vm_compute. reflexivity.
    + vm_compute. apply Forall_cons. split; [discriminate | constructor].
    + vm_compute. reflexivity.
    + eexists. split; [exact Hrun | exact Hdetails].
Defined.

(** *** The public side of a gatewayed build *)

Lemma nat_decls_no_internet_gateway v mode :
  List.filter isInternetGateway (nat_decls v mode) = [].
Proof.
  apply filter_none. unfold nat_decls.
  destruct (String.eqb mode api.ClusterHighlyAvailableNAT).
  { apply Forall_flat_map. intros az. repeat constructor. }
  destruct (String.eqb mode api.ClusterSingleNAT).
  { destruct (zones v) as [|first rest] eqn:Hz; [constructor|].
    unfold singleNAT_decls. apply Forall_app. split; [repeat constructor|].
    apply Forall_flat_map. intros az. repeat constructor. }
  destruct (String.eqb mode api.ClusterDisableNAT); [|constructor].
  apply Forall_flat_map. intros az. repeat constructor.
Qed.

Lemma filter_internet_gateway_addSubnets_decls v topology refRT index subnets :
  List.filter isInternetGateway
    (addSubnets_decls v topology refRT index subnets) = [].
Proof.
  apply filter_none.
  eapply Forall_impl; [apply addSubnets_decls_no_nat_kind|].
  intros d Hd. simpl in Hd. tauto.
Qed.

(** A gatewayed build declares exactly one internet gateway, attached to
    the VPC, and one public route table whose default route goes through
    that gateway and is created only after the attachment; every public
    subnet handed back is wired to that one route table. *)
Theorem gatewayed_build_public_side sched fuel rs0 cfg ec2 nat mode :
  api.VPC_ID (api.VPC cfg) = "" ->
  api.Enabled (api.PrivateCluster_ cfg) = false ->
  api.NAT (api.VPC cfg) = Some nat ->
  api.Gateway nat = Some mode ->
  mode ∈ [api.ClusterHighlyAvailableNAT; api.ClusterSingleNAT;
          api.ClusterDisableNAT] ->
  (mode = api.ClusterSingleNAT -> api.AvailabilityZones cfg <> []) ->
  exists vpcRef details s' delta,
    build sched fuel rs0 cfg ec2 = Returns (vpcRef, Some details, None) s'
    /\ resources (rs s') = resources rs0 ++ delta
    /\ List.filter isInternetGateway delta
       = [("InternetGateway", gfnec2.InternetGateway)]
    /\ ("VPCGatewayAttachment",
        gfnec2.VPCGatewayAttachment (gfnt.MakeRef "InternetGateway")
          (gfnt.MakeRef "VPC")) ∈ delta
    /\ ("PublicRouteTable", gfnec2.RouteTable (gfnt.MakeRef "VPC")) ∈ delta
    /\ ("PublicSubnetRoute",
        gfnec2.Route (gfnt.MakeRef "PublicRouteTable")
          (gfnt.NewString "0.0.0.0/0")
          (Some (gfnt.MakeRef "InternetGateway")) None
          ["VPCGatewayAttachment"]) ∈ delta
    /\ Forall (fun sr =>
                 RouteTable sr = Some (gfnt.MakeRef "PublicRouteTable"))
         (Public details)
    /\ length (Public details)
       = len (api.Public (api.Subnets (api.VPC cfg))).
Proof.
  intros Hid Hfp Hnat Hgw Hmode Hzones.
  apply validNATMode_elem_of in Hmode.
  destruct (build_gatewayed sched fuel rs0 cfg ec2 nat mode
              Hid Hfp Hnat Hgw Hmode Hzones) as (s' & Hbuild & Hres & Hdet).
  set (v := createReceiver cfg ec2) in *.
  eexists _, _, s', _. split; [exact Hbuild|]. split; [exact Hres|].
  assert (Hgateway : forall d, d ∈ gateway_decls v ->
                               d ∈ gatewayed_decls sched v mode).
  { intros d Hd. unfold gatewayed_decls, publicSide_decls.
    apply elem_of_app. left. apply elem_of_app. right.
    apply elem_of_app. by left. }
  split.
  { unfold gatewayed_decls, publicSide_decls, public_decls, private_decls,
      vpc_decls, autoAllocated_decls.
    rewrite !List.filter_app, nat_decls_no_internet_gateway,
      !filter_internet_gateway_addSubnets_decls.
    by destruct (autoIPv6 v). }
  split.
  { apply Hgateway. unfold gateway_decls.
    apply elem_of_cons. right. apply elem_of_cons. left. reflexivity. }
  split.
  { apply Hgateway. unfold gateway_decls.
    do 2 (apply elem_of_cons; right). apply elem_of_cons. left. reflexivity. }
  split.
  { apply Hgateway. unfold gateway_decls.
    do 3 (apply elem_of_cons; right). apply elem_of_cons. left. reflexivity. }
  rewrite Hdet. cbn [Public]. split.
  - apply Forall_forall. intros sr Hsr.
    apply list_elem_of_fmap in Hsr as (entry & -> & _). reflexivity.
  - by rewrite length_map, length_range.
Qed.

Lemma gatewayed_build_public_side_witness :
  exists vpcRef details s' delta,
    build (sameOrder inOrder) 0 emptyResourceSet
      (exampleConfig false (natMode "Single") None) offlineAPI
    = Returns (vpcRef, Some details, None) s'
    /\ resources (rs s') = resources emptyResourceSet ++ delta
    /\ List.filter isInternetGateway delta
       = [("InternetGateway", gfnec2.InternetGateway)]
    /\ length (Public details) = 2%nat.
Proof.
  destruct (gatewayed_build_public_side (sameOrder inOrder) 0
              emptyResourceSet
              (exampleConfig false (natMode "Single") None) offlineAPI
              {| api.Gateway := Some "Single" |} "Single"
              eq_refl eq_refl eq_refl eq_refl)
    as (vpcRef & details & s' & delta & Hbuild & Hres & Higw & _ & _ & _
        & _ & Hlen).
  - apply elem_of_cons. right. apply elem_of_cons. left. reflexivity.
  - discriminate.
  - exists vpcRef, details, s', delta.
    split; [exact Hbuild|]. split; [exact Hres|]. split; [exact Higw|].
    rewrite Hlen. vm_compute. reflexivity.
Defined.

(** *** The alias of a zone or subnet name *)












(** *** No dangling reference *)

Lemma Forall_flat_map_elem {A B} (P : B -> Prop) (f : A -> list B)
    (l : list A) :
  (forall x, x ∈ l -> Forall P (f x)) -> Forall P (flat_map f l).
Proof.
  induction l as [|x l IH]; intros Hf; simpl; [constructor|].
  apply Forall_app. split.
  - apply Hf. apply elem_of_cons. by left.
  - apply IH. intros y Hy. apply Hf. apply elem_of_cons. by right.
Qed.

Lemma Forall_addSubnets_decls_elem (P : decl -> Prop) v topology refRT
    subnets :
  (forall index name subnet,
      (name, subnet) ∈ subnets ->
      Forall P (subnet_decls v topology refRT index name subnet)) ->
  forall index, Forall P (addSubnets_decls v topology refRT index subnets).
Proof.
  induction subnets as [|[name subnet] rest IH]; intros Hone index.
  - constructor.
  - cbn [addSubnets_decls]. apply Forall_app. split.
    + apply Hone. apply elem_of_cons. by left.
    + apply IH. intros i n sub Hin. apply Hone. apply elem_of_cons. by right.
Qed.

Lemma subnet_name_declared v topology refRT index subnets name subnet :
  (name, subnet) ∈ subnets ->
  "Subnet" +:+ subnetAlias topology name
  ∈ map fst (addSubnets_decls v topology refRT index subnets).
Proof.
  intros Hin.
  destruct (elem_of_addSubnets_decls v topology refRT name subnet subnets
              Hin index) as [index' Hsub].
  apply list_elem_of_fmap.
  eexists. split; [|apply Hsub; unfold subnet_decls; apply elem_of_app; left;
                    apply elem_of_cons; left; reflexivity].
  reflexivity.
Qed.

Lemma range_lookup {V} (g : GoRange) (m : gmap string V) name x :
  (name, x) ∈ range g (Some m) <-> m !! name = Some x.
Proof.
  unfold range, entries. rewrite (order_perm g V (map_to_list m)).
  apply elem_of_map_to_list.
Qed.

Lemma privateRouteTable_name_declared v mode az :
  validNATMode mode = true ->
  (mode = api.ClusterSingleNAT -> zones v <> []) ->
  az ∈ zones v ->
  "PrivateRouteTable" +:+ formatAZ az ∈ map fst (nat_decls v mode).
Proof.
  intros Hvalid Hzones Haz.
  apply list_elem_of_fmap. exists (privateRouteTable v az).
  split; [reflexivity|].
  assert (Hin : In (privateRouteTable v az)
                  (List.filter isPrivateRouteTable (nat_decls v mode))).
  { rewrite nat_decls_private_route_tables by assumption.
    apply in_map. by apply list_elem_of_In. }
  apply List.filter_In in Hin as [Hin _]. by apply list_elem_of_In.
Qed.

Ltac resolve_names :=
  unfold resolves;
  cbn [snd references valueRefs optionRefs app flat_map subnetTags
       subnetMapPublicIp subnetRouteTable gfncfn.Key gfncfn.Value
       getSubnetIPv6CIDRBlock];
  repeat (apply Forall_cons; split);
  try apply Forall_nil; auto.

Lemma names_app (a b : list decl) name :
  name ∈ map fst (a ++ b) <-> name ∈ map fst a \/ name ∈ map fst b.
Proof. rewrite map_app. apply elem_of_app. Qed.

Lemma nat_gateway_names_declared v mode az :
  az ∈ zones v ->
  (mode = api.ClusterHighlyAvailableNAT ->
   "NATIP" +:+ formatAZ az ∈ map fst (nat_decls v mode)
   /\ "NATGateway" +:+ formatAZ az ∈ map fst (nat_decls v mode))
  /\ (mode = api.ClusterSingleNAT ->
      "NATIP" ∈ map fst (nat_decls v mode)
      /\ "NATGateway" ∈ map fst (nat_decls v mode)).
Proof.
  intros Haz. split; intros ->; unfold nat_decls.
  - rewrite String.eqb_refl. unfold haNAT_decls.
    split; apply list_elem_of_fmap.
    + exists (zoneEIP az). split; [reflexivity|].
      apply list_elem_of_In, in_flat_map. exists az.
      split; [by apply list_elem_of_In|]. left. reflexivity.
    + exists (zoneNatGateway az). split; [reflexivity|].
      apply list_elem_of_In, in_flat_map. exists az.
      split; [by apply list_elem_of_In|]. right. left. reflexivity.
  - change (String.eqb api.ClusterSingleNAT api.ClusterHighlyAvailableNAT)
      with false.
    rewrite String.eqb_refl.
    destruct (zones v) as [|first rest]; [by apply elem_of_nil in Haz|].
    unfold singleNAT_decls, singleNAT_shared.
    split; apply list_elem_of_fmap; eexists;
      (split; [|apply elem_of_app; left]).
    2: apply elem_of_cons; left; reflexivity.
    1: reflexivity.
    2: apply elem_of_cons; right; apply elem_of_cons; left; reflexivity.
    reflexivity.
Qed.

Lemma nat_decls_resolve v mode names :
  vpcID v = gfnt.MakeRef "VPC" ->
  "VPC" ∈ names ->
  (forall az, az ∈ zones v -> "SubnetPublic" +:+ formatAZ az ∈ names) ->
  (forall az, az ∈ zones v -> "SubnetPrivate" +:+ formatAZ az ∈ names) ->
  (forall name, name ∈ map fst (nat_decls v mode) -> name ∈ names) ->
  validNATMode mode = true ->
  (mode = api.ClusterSingleNAT -> zones v <> []) ->
  Forall (resolves names) (nat_decls v mode).
Proof.
  intros Hvpc HVPC Hpub Hpriv Hnat Hvalid Hzones.
  assert (Hprt : forall az, az ∈ zones v ->
                            "PrivateRouteTable" +:+ formatAZ az ∈ names).
  { intros az Haz. apply Hnat.
    by apply privateRouteTable_name_declared. }
  assert (Hgw : forall az, az ∈ zones v ->
             (mode = api.ClusterHighlyAvailableNAT ->
              "NATIP" +:+ formatAZ az ∈ names
              /\ "NATGateway" +:+ formatAZ az ∈ names)
             /\ (mode = api.ClusterSingleNAT ->
                 "NATIP" ∈ names /\ "NATGateway" ∈ names)).
  { intros az Haz.
    destruct (nat_gateway_names_declared v mode az Haz) as [Hha Hsingle].
    split; intros Hmode.
    - destruct (Hha Hmode). split; by apply Hnat.
    - destruct (Hsingle Hmode). split; by apply Hnat. }
  clear Hnat. unfold validNATMode in Hvalid. unfold nat_decls.
  destruct (String.eqb_spec mode api.ClusterHighlyAvailableNAT) as [Hha|].
  { unfold haNAT_decls. apply Forall_flat_map_elem. intros az Haz.
    destruct (Hgw az Haz) as [[Hip Hgate] _]; [exact Hha|].
    unfold haNAT_zone. rewrite Hvpc.
    repeat (apply Forall_cons; split); try apply Forall_nil;
      resolve_names. }
  destruct (String.eqb_spec mode api.ClusterSingleNAT) as [Hs|].
  { destruct (zones v) as [|first rest] eqn:Hz; [by destruct (Hzones Hs)|].
    rewrite <- Hz in *. unfold singleNAT_decls.
    assert (Hfirst : first ∈ zones v).
    { rewrite Hz. apply elem_of_cons. by left. }
    destruct (Hgw first Hfirst) as [_ [Hip Hgate]]; [exact Hs|].
    apply Forall_app. split.
    - unfold singleNAT_shared.
      repeat (apply Forall_cons; split); try apply Forall_nil;
        resolve_names.
    - apply Forall_flat_map_elem. intros az Haz.
      unfold singleNAT_zone. rewrite Hvpc.
      repeat (apply Forall_cons; split); try apply Forall_nil;
        resolve_names. }
  destruct (String.eqb_spec mode api.ClusterDisableNAT); [|done].
  unfold noNAT_decls. apply Forall_flat_map_elem. intros az Haz.
  unfold noNAT_zone. rewrite Hvpc.
  repeat (apply Forall_cons; split); try apply Forall_nil; resolve_names.
Qed.

Lemma subnet_decls_resolve v topology refRT index name subnet names :
  vpcID v = gfnt.MakeRef "VPC" ->
  "VPC" ∈ names ->
  "Subnet" +:+ subnetAlias topology name ∈ names ->
  match subnetRouteTable topology refRT name with
  | Some table => Forall (fun n => n ∈ names) (valueRefs table)
  | None => True
  end ->
  Forall (resolves names) (subnet_decls v topology refRT index name subnet).
Proof.
  intros Hvpc HVPC Hself Htable. unfold subnet_decls.
  apply Forall_app. split.
  - rewrite Hvpc.
    apply Forall_cons; split; [|apply Forall_cons; split; [|constructor]].
    + unfold resolves.
      cbn [snd references valueRefs optionRefs app].
      apply Forall_cons. split; [exact HVPC|].
      apply Forall_app. split.
      * destruct topology; resolve_names.
      * destruct topology; constructor.
    + unfold resolves. cbn [snd references valueRefs app].
      apply Forall_cons. split; [exact Hself|].
      destruct (subnetRouteTable topology refRT name);
        [exact Htable|constructor].
  - destruct (autoIPv6 v); [|constructor].
    apply Forall_cons. split; [|constructor].
    unfold subnetCIDRv6. resolve_names.
Qed.

Lemma addSubnets_decls_resolve v topology refRT index subnets names :
  vpcID v = gfnt.MakeRef "VPC" ->
  "VPC" ∈ names ->
  (forall name,
      name ∈ map fst (addSubnets_decls v topology refRT index subnets) ->
      name ∈ names) ->
  (forall name subnet,
      (name, subnet) ∈ subnets ->
      match subnetRouteTable topology refRT name with
      | Some table => Forall (fun n => n ∈ names) (valueRefs table)
      | None => True
      end) ->
  Forall (resolves names) (addSubnets_decls v topology refRT index subnets).
Proof.
  intros Hvpc HVPC Hown Htable.
  apply Forall_addSubnets_decls_elem. intros i name subnet Hin.
  apply subnet_decls_resolve; [exact Hvpc|exact HVPC| |by eapply Htable].
  apply Hown. by eapply subnet_name_declared.
Qed.

Lemma zone_subnet_declared v topology refRT index (m : gmap _ _) g az :
  is_Some (m !! az) ->
  "Subnet" +:+ subnetAlias topology az
  ∈ map fst (addSubnets_decls v topology refRT index (range g (Some m))).
Proof.
  intros [subnet Hsub].
  apply (subnet_name_declared _ _ _ _ _ az subnet).
  by apply range_lookup.
Qed.

Lemma gatewayed_decls_resolve sched v mode
    (private public : gmap string api.AZSubnetSpec) :
  vpcID v = gfnt.MakeRef "VPC" ->
  privateSubnets v = Some private ->
  publicSubnets v = Some public ->
  validNATMode mode = true ->
  (mode = api.ClusterSingleNAT -> zones v <> []) ->
  (forall name, is_Some (private !! name) <-> name ∈ zones v) ->
  (forall az, az ∈ zones v -> is_Some (public !! az)) ->
  Forall (resolves (map fst (gatewayed_decls sched v mode)))
    (gatewayed_decls sched v mode).
Proof.
  intros Hvpc Hprivate Hpublic Hvalid Hzones Hkeys Hcover.
  set (names := map fst (gatewayed_decls sched v mode)).
  assert (Hside : forall name,
             name ∈ map fst (publicSide_decls sched v) -> name ∈ names).
  { intros name Hin. unfold names, gatewayed_decls.
    apply names_app. by left. }
  assert (Hnat : forall name,
             name ∈ map fst (nat_decls v mode) -> name ∈ names).
  { intros name Hin. unfold names, gatewayed_decls.
    apply names_app. right. apply names_app. by left. }
  assert (Hpriv : forall name,
             name ∈ map fst (private_decls sched v) -> name ∈ names).
  { intros name Hin. unfold names, gatewayed_decls.
    apply names_app. right. apply names_app. by right. }
  clearbody names.
  assert (Hgate : forall name,
             name ∈ map fst (gateway_decls v) -> name ∈ names).
  { intros name Hin. apply Hside. unfold publicSide_decls.
    apply names_app. right. apply names_app. by left. }
  assert (Hpub : forall name,
             name ∈ map fst (public_decls sched v) -> name ∈ names).
  { intros name Hin. apply Hside. unfold publicSide_decls.
    apply names_app. right. apply names_app. by right. }
  assert (HVPC : "VPC" ∈ names).
  { apply Hside. unfold publicSide_decls, vpc_decls.
    apply elem_of_cons. by left. }
  assert (HIG : "InternetGateway" ∈ names).
  { apply Hgate. apply elem_of_cons. by left. }
  assert (HGA : "VPCGatewayAttachment" ∈ names).
  { apply Hgate. apply elem_of_cons. right. apply elem_of_cons. by left. }
  assert (HPRT : "PublicRouteTable" ∈ names).
  { apply Hgate. do 2 (apply elem_of_cons; right).
    apply elem_of_cons. by left. }
  assert (Hprt : forall az, az ∈ zones v ->
                            "PrivateRouteTable" +:+ formatAZ az ∈ names).
  { intros az Haz. apply Hnat.
    by apply privateRouteTable_name_declared. }
  unfold gatewayed_decls, publicSide_decls.
  repeat (apply Forall_app; split).
  - unfold vpc_decls, autoAllocated_decls. rewrite Hvpc.
    apply Forall_cons. split; [resolve_names|].
    destruct (autoIPv6 v); [|constructor].
    apply Forall_cons. split; [resolve_names|constructor].
  - unfold gateway_decls. rewrite Hvpc.
    repeat (apply Forall_cons; split); try constructor;
      resolve_names.
  - unfold public_decls. apply addSubnets_decls_resolve; try done.
    intros name subnet _. cbn [subnetRouteTable valueRefs].
    apply Forall_cons. split; [exact HPRT|constructor].
  - apply nat_decls_resolve; try done.
    + intros az Haz. apply Hpub. unfold public_decls. rewrite Hpublic.
      apply (zone_subnet_declared v api.SubnetTopologyPublic).
      by apply Hcover.
    + intros az Haz. apply Hpriv. unfold private_decls. rewrite Hprivate.
      apply (zone_subnet_declared v api.SubnetTopologyPrivate).
      by apply Hkeys.
  - unfold private_decls. apply addSubnets_decls_resolve; try done.
    intros name subnet Hin. cbn [subnetRouteTable valueRefs].
    apply Forall_cons. split; [|constructor].
    apply Hprt. apply Hkeys. rewrite Hprivate in Hin.
    apply range_lookup in Hin. by eexists.
Qed.

Lemma fullyPrivate_decls_resolve sched v
    (private : gmap string api.AZSubnetSpec) :
  vpcID v = gfnt.MakeRef "VPC" ->
  privateSubnets v = Some private ->
  (forall name, is_Some (private !! name) <-> name ∈ zones v) ->
  Forall (resolves (map fst (fullyPrivate_decls sched v)))
    (fullyPrivate_decls sched v).
Proof.
  intros Hvpc Hprivate Hkeys.
  set (names := map fst (fullyPrivate_decls sched v)).
  assert (Hnat : forall name,
             name ∈ map fst (noNAT_decls v) -> name ∈ names).
  { intros name Hin. unfold names, fullyPrivate_decls.
    apply names_app. right. apply names_app. by left. }
  assert (Hpriv : forall name,
             name ∈ map fst (private_decls sched v) -> name ∈ names).
  { intros name Hin. unfold names, fullyPrivate_decls.
    apply names_app. right. apply names_app. by right. }
  assert (HVPC : "VPC" ∈ names).
  { unfold names, fullyPrivate_decls, vpc_decls.
    apply elem_of_cons. by left. }
  clearbody names.
  assert (Hprt : forall az, az ∈ zones v ->
                            "PrivateRouteTable" +:+ formatAZ az ∈ names).
  { intros az Haz. apply Hnat.
    apply (privateRouteTable_name_declared v api.ClusterDisableNAT az);
      [reflexivity|discriminate|exact Haz]. }
  unfold fullyPrivate_decls.
  repeat (apply Forall_app; split).
  - unfold vpc_decls, autoAllocated_decls. rewrite Hvpc.
    apply Forall_cons. split; [resolve_names|].
    destruct (autoIPv6 v); [|constructor].
    apply Forall_cons. split; [resolve_names|constructor].
  - unfold noNAT_decls. apply Forall_flat_map_elem. intros az Haz.
    unfold noNAT_zone. rewrite Hvpc.
    assert ("SubnetPrivate" +:+ formatAZ az ∈ names).
    { apply Hpriv. unfold private_decls. rewrite Hprivate.
      apply (zone_subnet_declared v api.SubnetTopologyPrivate).
      by apply Hkeys. }
    repeat (apply Forall_cons; split); try constructor; resolve_names.
  - unfold private_decls. apply addSubnets_decls_resolve; try done.
    intros name subnet Hin. cbn [subnetRouteTable valueRefs].
    apply Forall_cons. split; [|constructor].
    apply Hprt. apply Hkeys. rewrite Hprivate in Hin.
    apply range_lookup in Hin. by eexists.
Qed.

Lemma exampleSubnets_keys name :
  is_Some (exampleSubnets !! name) <-> name ∈ ["us-east-1a"; "us-east-1b"].
Proof.
  unfold exampleSubnets.
  rewrite !lookup_insert_is_Some, !elem_of_cons, elem_of_nil.
  pose proof (lookup_empty_is_Some (M := gmap string)
                (A := api.AZSubnetSpec) name) as Hempty.
  split.
  - intros [Ha|[_ [Hb|[_ Hnone]]]];
      [left; symmetry; exact Ha|right; left; symmetry; exact Hb|].
    destruct (Hempty Hnone).
  - intros [->|[->|[]]]; [left; reflexivity|].
    right. split; [discriminate|]. left. reflexivity.
Qed.

(** When the private subnets of the configuration are keyed by exactly the
    availability zones and every zone has a public subnet keyed by its name,
    a gatewayed build leaves no dangling reference: every logical name a
    declaration of the build refers to, by reference, by attribute or by
    [DependsOn], is the name of a declaration of the same build. *)
Theorem gatewayed_build_references_resolve sched fuel rs0 cfg ec2 nat mode
    (private public : gmap string api.AZSubnetSpec) :
  api.VPC_ID (api.VPC cfg) = "" ->
  api.Enabled (api.PrivateCluster_ cfg) = false ->
  api.NAT (api.VPC cfg) = Some nat ->
  api.Gateway nat = Some mode ->
  mode ∈ [api.ClusterHighlyAvailableNAT; api.ClusterSingleNAT;
          api.ClusterDisableNAT] ->
  (mode = api.ClusterSingleNAT -> api.AvailabilityZones cfg <> []) ->
  api.Private (api.Subnets (api.VPC cfg)) = Some private ->
  api.Public (api.Subnets (api.VPC cfg)) = Some public ->
  (forall name,
      is_Some (private !! name) <-> name ∈ api.AvailabilityZones cfg) ->
  (forall az, az ∈ api.AvailabilityZones cfg -> is_Some (public !! az)) ->
  exists vpcRef details s' delta,
    build sched fuel rs0 cfg ec2 = Returns (vpcRef, Some details, None) s'
    /\ resources (rs s') = resources rs0 ++ delta
    /\ Forall (fun d : decl =>
                 Forall (fun name => name ∈ map fst delta)
                   (references (snd d)))
         delta.
Proof.
  intros Hid Hfp Hnat Hgw Hmode Hzones Hprivate Hpublic Hkeys Hcover.
  apply validNATMode_elem_of in Hmode.
  destruct (build_gatewayed sched fuel rs0 cfg ec2 nat mode
              Hid Hfp Hnat Hgw Hmode Hzones) as (s' & Hbuild & Hres & _).
  eexists _, _, s', _. split; [exact Hbuild|]. split; [exact Hres|].
  apply (gatewayed_decls_resolve sched (createReceiver cfg ec2) mode
           private public); try assumption.
  reflexivity.
Qed.

Lemma gatewayed_build_references_resolve_witness :
  exists vpcRef details s' delta,
    build (sameOrder inOrder) 0 emptyResourceSet
      (exampleConfig false (natMode "HighlyAvailable") (Some true))
      offlineAPI
    = Returns (vpcRef, Some details, None) s'
    /\ resources (rs s') = resources emptyResourceSet ++ delta
    /\ Forall (fun d : decl =>
                 Forall (fun name => name ∈ map fst delta)
                   (references (snd d)))
         delta.
Proof.
  apply (gatewayed_build_references_resolve (sameOrder inOrder) 0
           emptyResourceSet
           (exampleConfig false (natMode "HighlyAvailable") (Some true))
           offlineAPI {| api.Gateway := Some "HighlyAvailable" |}
           "HighlyAvailable" exampleSubnets exampleSubnets
           eq_refl eq_refl eq_refl eq_refl).
  - apply elem_of_cons. left. reflexivity.
  - discriminate.
  - reflexivity.
  - reflexivity.
  - exact exampleSubnets_keys.
  - intros az Haz. apply exampleSubnets_keys. exact Haz.
Defined.

(** When the private subnets of the configuration are keyed by exactly the
    availability zones, a fully-private build leaves no dangling reference:
    every logical name a declaration of the build refers to is the name of
    a declaration of the same build. *)
Theorem fullyPrivate_build_references_resolve sched fuel rs0 cfg ec2
    (private : gmap string api.AZSubnetSpec) :
  api.VPC_ID (api.VPC cfg) = "" ->
  api.Enabled (api.PrivateCluster_ cfg) = true ->
  api.Private (api.Subnets (api.VPC cfg)) = Some private ->
  (forall name,
      is_Some (private !! name) <-> name ∈ api.AvailabilityZones cfg) ->
  exists vpcRef details s' delta,
    build sched fuel rs0 cfg ec2 = Returns (vpcRef, Some details, None) s'
    /\ resources (rs s') = resources rs0 ++ delta
    /\ Forall (fun d : decl =>
                 Forall (fun name => name ∈ map fst delta)
                   (references (snd d)))
         delta.
Proof.
  intros Hid Hfp Hprivate Hkeys.
  destruct (build_fullyPrivate sched fuel rs0 cfg ec2 Hid Hfp)
    as (s' & Hbuild & Hres & _).
  eexists _, _, s', _. split; [exact Hbuild|]. split; [exact Hres|].
  apply (fullyPrivate_decls_resolve sched (createReceiver cfg ec2) private);
    try assumption.
  reflexivity.
Qed.

Lemma fullyPrivate_build_references_resolve_witness :
  exists vpcRef details s' delta,
    build (sameOrder reversed) 0 emptyResourceSet
      (exampleConfig true None (Some true)) offlineAPI
    = Returns (vpcRef, Some details, None) s'
    /\ resources (rs s') = resources emptyResourceSet ++ delta
    /\ Forall (fun d : decl =>
                 Forall (fun name => name ∈ map fst delta)
                   (references (snd d)))
         delta.
Proof.
  apply (fullyPrivate_build_references_resolve (sameOrder reversed) 0
           emptyResourceSet (exampleConfig true None (Some true))
           offlineAPI exampleSubnets eq_refl eq_refl eq_refl).
  exact exampleSubnets_keys.
Defined.

(** *** The association of a private subnet is declared twice *)

Ltac association_or_other :=
  first [ left; eexists; reflexivity
        | right; split; vm_compute; reflexivity ].

Ltac each_association_or_other :=
  repeat (apply Forall_cons; split; [association_or_other|]);
  constructor.

Lemma nat_decls_associationOrOther v mode :
  Forall associationOrOther (nat_decls v mode).
Proof.
  unfold nat_decls.
  destruct (String.eqb mode api.ClusterHighlyAvailableNAT).
  { apply Forall_flat_map. intros az. unfold haNAT_zone.
    each_association_or_other. }
  destruct (String.eqb mode api.ClusterSingleNAT).
  { destruct (zones v) as [|first rest] eqn:Hz; [constructor|].
    unfold singleNAT_decls. apply Forall_app. split.
    - unfold singleNAT_shared.
      each_association_or_other.
    - apply Forall_flat_map. intros az. unfold singleNAT_zone.
      each_association_or_other. }
  destruct (String.eqb mode api.ClusterDisableNAT); [|constructor].
  apply Forall_flat_map. intros az. unfold noNAT_zone.
  each_association_or_other.
Qed.

Lemma vpc_decls_associationOrOther v :
  Forall associationOrOther (vpc_decls v).
Proof.
  unfold vpc_decls, autoAllocated_decls.
  apply Forall_cons. split; [association_or_other|].
  destruct (autoIPv6 v); [|constructor].
  apply Forall_cons. split; [association_or_other|constructor].
Qed.

Lemma gateway_decls_associationOrOther v :
  Forall associationOrOther (gateway_decls v).
Proof.
  unfold gateway_decls.
  each_association_or_other.
Qed.

Lemma public_decls_associationOrOther sched v :
  Forall associationOrOther (public_decls sched v).
Proof.
  unfold public_decls. apply Forall_addSubnets_decls.
  intros index name subnet. unfold subnet_decls.
  apply Forall_app. split.
  - each_association_or_other.
  - destruct (autoIPv6 v); [|constructor].
    apply Forall_cons. split; [association_or_other|constructor].
Qed.

Lemma private_decls_associationOrOther sched v :
  Forall associationOrOther (private_decls sched v).
Proof.
  unfold private_decls. apply Forall_addSubnets_decls.
  intros index name subnet. unfold subnet_decls.
  apply Forall_app. split.
  - each_association_or_other.
  - destruct (autoIPv6 v); [|constructor].
    apply Forall_cons. split; [association_or_other|constructor].
Qed.

Lemma prefix_append (p x : string) : String.prefix p (p +:+ x) = true.
Proof.
  induction p as [|c p IH]; simpl; [by destruct x|].
  destruct (Ascii.ascii_dec c c); [exact IH|done].
Qed.

Lemma append_inj_r (p x y : string) : p +:+ x = p +:+ y -> x = y.
Proof.
  induction p as [|c p IH]; simpl; [done|].
  intros Heq. apply IH. by inversion Heq.
Qed.

Lemma associationOrOther_same_name (decls : list decl) d1 d2 :
  Forall associationOrOther decls ->
  d1 ∈ decls -> d2 ∈ decls ->
  isPrivateAssociation d1 = true ->
  fst d1 = fst d2 ->
  d1 = d2.
Proof.
  intros Hall Hd1 Hd2 Hkind Hname.
  rewrite Forall_forall in Hall.
  destruct (Hall d1 Hd1) as [[a1 ->]|[_ Hother]]; [|congruence].
  destruct (Hall d2 Hd2) as [[a2 ->]|[Hprefix _]].
  - cbn [fst zoneAssociation] in Hname.
    apply append_inj_r in Hname. by subst.
  - rewrite <- Hname in Hprefix. cbn [fst zoneAssociation] in Hprefix.
    by rewrite prefix_append in Hprefix.
Qed.

Lemma zoneAssociation_in_nat_decls v mode az :
  validNATMode mode = true ->
  (mode = api.ClusterSingleNAT -> zones v <> []) ->
  az ∈ zones v ->
  zoneAssociation (formatAZ az) ∈ nat_decls v mode.
Proof.
  unfold validNATMode, nat_decls. intros Hvalid Hzones Haz.
  destruct (String.eqb_spec mode api.ClusterHighlyAvailableNAT).
  { apply list_elem_of_In, in_flat_map. exists az.
    split; [by apply list_elem_of_In|].
    do 4 right. left. reflexivity. }
  destruct (String.eqb_spec mode api.ClusterSingleNAT) as [Hs|].
  { destruct (zones v) as [|first rest] eqn:Hz; [by destruct (Hzones Hs)|].
    rewrite <- Hz in *. unfold singleNAT_decls.
    apply elem_of_app. right.
    apply list_elem_of_In, in_flat_map. exists az.
    split; [by apply list_elem_of_In|].
    do 2 right. left. reflexivity. }
  destruct (String.eqb_spec mode api.ClusterDisableNAT); [|done].
  apply list_elem_of_In, in_flat_map. exists az.
  split; [by apply list_elem_of_In|].
  right. left. reflexivity.
Qed.

Lemma zoneAssociation_in_private_decls sched v
    (private : gmap string api.AZSubnetSpec) name subnet :
  privateSubnets v = Some private ->
  private !! name = Some subnet ->
  zoneAssociation (formatAZ name) ∈ private_decls sched v.
Proof.
  intros Hprivate Hsub. unfold private_decls. rewrite Hprivate.
  destruct (elem_of_addSubnets_decls v api.SubnetTopologyPrivate None
              name subnet (range (rangeAddPrivate sched) (Some private))
              (proj2 (range_lookup _ _ _ _) Hsub)
              (firstIndex v api.SubnetTopologyPrivate)) as [index Hin].
  apply Hin. unfold subnet_decls. apply elem_of_app. left.
  apply elem_of_cons. right. apply elem_of_cons. left. reflexivity.
Qed.

Lemma declared_twice (d : decl) (before first second : list decl) :
  d ∈ first -> d ∈ second ->
  exists l1 l2 l3, before ++ first ++ second = l1 ++ d :: l2 ++ d :: l3.
Proof.
  intros Hfirst Hsecond.
  apply list_elem_of_split in Hfirst as (f1 & f2 & ->).
  apply list_elem_of_split in Hsecond as (s1 & s2 & ->).
  exists (before ++ f1), (f2 ++ s1), s2.
  by rewrite <- !app_assoc.
Qed.

(** In a build that creates its VPC, whether fully private or gatewayed in
    one of the three NAT modes, the route-table association of every
    private subnet keyed by a zone is declared twice under one logical
    name, first by the NAT strategy and then by the allocator. The two
    declarations are the same: whatever shares its logical name with a
    private route-table association of the build is that very
    declaration, so a later declaration never changes an earlier one. *)
Theorem private_association_declared_twice sched fuel rs0 cfg ec2
    (private : gmap string api.AZSubnetSpec) :
  api.VPC_ID (api.VPC cfg) = "" ->
  (api.Enabled (api.PrivateCluster_ cfg) = true
   \/ exists nat mode,
        api.Enabled (api.PrivateCluster_ cfg) = false
        /\ api.NAT (api.VPC cfg) = Some nat
        /\ api.Gateway nat = Some mode
        /\ mode ∈ [api.ClusterHighlyAvailableNAT; api.ClusterSingleNAT;
                   api.ClusterDisableNAT]
        /\ (mode = api.ClusterSingleNAT -> api.AvailabilityZones cfg <> [])) ->
  api.Private (api.Subnets (api.VPC cfg)) = Some private ->
  exists res s' delta,
    build sched fuel rs0 cfg ec2 = Returns res s'
    /\ resources (rs s') = resources rs0 ++ delta
    /\ (forall name subnet,
           private !! name = Some subnet ->
           name ∈ api.AvailabilityZones cfg ->
           exists l1 l2 l3,
             delta = l1 ++ zoneAssociation (formatAZ name)
                        :: l2 ++ zoneAssociation (formatAZ name) :: l3)
    /\ (forall d1 d2,
           d1 ∈ delta -> d2 ∈ delta ->
           isPrivateAssociation d1 = true ->
           fst d1 = fst d2 ->
           d1 = d2).
Proof.
  intros Hid [Hfp | (nat & mode & Hfp & Hnat & Hgw & Hmode & Hzones)]
    Hprivate.
  - destruct (build_fullyPrivate sched fuel rs0 cfg ec2 Hid Hfp)
      as (s' & Hbuild & Hres & _).
    set (v := createReceiver cfg ec2) in *.
    eexists _, s', _. split; [exact Hbuild|]. split; [exact Hres|].
    split.
    + intros name subnet Hsub Hzone. unfold fullyPrivate_decls.
      apply declared_twice.
      * apply (zoneAssociation_in_nat_decls v api.ClusterDisableNAT name);
          [reflexivity|discriminate|exact Hzone].
      * by eapply zoneAssociation_in_private_decls.
    + intros d1 d2. apply associationOrOther_same_name.
      unfold fullyPrivate_decls. repeat (apply Forall_app; split).
      * apply vpc_decls_associationOrOther.
      * apply (nat_decls_associationOrOther v api.ClusterDisableNAT).
      * apply private_decls_associationOrOther.
  - apply validNATMode_elem_of in Hmode.
    destruct (build_gatewayed sched fuel rs0 cfg ec2 nat mode
                Hid Hfp Hnat Hgw Hmode Hzones)
      as (s' & Hbuild & Hres & _).
    set (v := createReceiver cfg ec2) in *.
    eexists _, s', _. split; [exact Hbuild|]. split; [exact Hres|].
    split.
    + intros name subnet Hsub Hzone. unfold gatewayed_decls.
      apply declared_twice.
      * by apply zoneAssociation_in_nat_decls.
      * by eapply zoneAssociation_in_private_decls.
    + intros d1 d2. apply associationOrOther_same_name.
      unfold gatewayed_decls, publicSide_decls.
      repeat (apply Forall_app; split).
      * apply vpc_decls_associationOrOther.
      * apply gateway_decls_associationOrOther.
      * apply public_decls_associationOrOther.
      * apply nat_decls_associationOrOther.
      * apply private_decls_associationOrOther.
Qed.

Lemma private_association_declared_twice_witness :
  exists res s' delta,
    build (sameOrder inOrder) 0 emptyResourceSet
      (exampleConfig false (natMode "Disabled") None) offlineAPI
    = Returns res s'
    /\ resources (rs s') = resources emptyResourceSet ++ delta
    /\ (forall name subnet,
           exampleSubnets !! name = Some subnet ->
           name ∈ ["us-east-1a"; "us-east-1b"] ->
           exists l1 l2 l3,
             delta = l1 ++ zoneAssociation (formatAZ name)
                        :: l2 ++ zoneAssociation (formatAZ name) :: l3)
    /\ (forall d1 d2,
           d1 ∈ delta -> d2 ∈ delta ->
           isPrivateAssociation d1 = true ->
           fst d1 = fst d2 ->
           d1 = d2).
Proof.
  apply (private_association_declared_twice (sameOrder inOrder) 0
           emptyResourceSet (exampleConfig false (natMode "Disabled") None)
           offlineAPI exampleSubnets eq_refl); [|reflexivity].
  right. exists {| api.Gateway := Some "Disabled" |}, "Disabled".
  split; [reflexivity|]. split; [reflexivity|]. split; [reflexivity|].
  split; [|discriminate].
  do 2 (apply elem_of_cons; right). apply elem_of_cons. left. reflexivity.
Defined.
